(** * The content-completeness checker of [pipeline/check_status.py]

    A shallow embedding of [check_platform_structure] and [main] and the
    properties of the status report they compute.

    The script queries the filesystem through [pathlib] ([Path.exists],
    [Path.stat]), builds one status dictionary per platform and prints a
    report.  The embedding threads a [World] (filesystem and standard output)
    through an exception monad, keeps Python's insertion-ordered dictionaries
    as association lists and Python's strings as strings.  Which [stat]
    errors [Path.exists] answers with [False] is a matter of the
    interpreter's library; the checker is parametric in it. *)

From Stdlib Require Import List String Ascii ZArith NArith Bool Lia.
From Stdlib Require Import DecimalString SpecFloat.
Import ListNotations.

Open Scope list_scope.
Open Scope string_scope.

(* ================================================================= *)
(** ** Python builtins used by the script *)

Module Py.

(** The newline character of ["\n"]. *)
Definition nl : string := String (ascii_of_nat 10) EmptyString.

(** [s * n] on a string. *)
Fixpoint str_mul (s : string) (n : nat) : string :=
  match n with
  | O => ""
  | S n' => s ++ str_mul s n'
  end.

(** [str(i)] / [f"{i}"] on an [int]. *)
Definition str_int (z : Z) : string := NilZero.string_of_int (Z.to_int z).

(** [len(xs)] as a Python [int]. *)
Definition len {A : Type} (xs : list A) : Z := Z.of_nat (List.length xs).

(** [sum(1 for x in xs if x == s)] and [len([x for x in xs if x == s])]
    over strings; both count the elements equal to [s]. *)
Fixpoint count_eq (s : string) (xs : list string) : Z :=
  match xs with
  | [] => 0
  | x :: xs' => ((if String.eqb x s then 1 else 0) + count_eq s xs')%Z
  end.

(** [sum(zs)] on a list of [int]. *)
Fixpoint sum (zs : list Z) : Z :=
  match zs with
  | [] => 0
  | z :: zs' => (z + sum zs')%Z
  end.

(** [sorted(xs)] on strings: ascending by code point, stable. *)
Fixpoint insert_sorted (x : string) (xs : list string) : list string :=
  match xs with
  | [] => [x]
  | y :: ys => if String.leb x y then x :: y :: ys else y :: insert_sorted x ys
  end.

Fixpoint sorted (xs : list string) : list string :=
  match xs with
  | [] => []
  | x :: xs' => insert_sorted x (sorted xs')
  end.

(** Python numbers reaching the completion line: [int] or [float]
    (IEEE 754 binary64, in the bit-exact [spec_float] of the standard
    library). *)
Inductive num : Type :=
| Int (z : Z)
| Float (f : spec_float).

Definition prec : Z := 53.
Definition emax : Z := 1024.

(** [float(z)], correctly rounded. *)
Definition float_of_int (z : Z) : spec_float := binary_normalize prec emax z 0 false.

(** [a / b] on two [int]s that are exactly representable (below 2^53, as
    every count of this script is); [None] stands for [ZeroDivisionError]. *)
Definition truediv (a b : Z) : option spec_float :=
  if (b =? 0)%Z then None
  else Some (SFdiv prec emax (float_of_int a) (float_of_int b)).

(** [x * k] for a [float] [x] and an [int] [k]. *)
Definition float_mul_int (x : spec_float) (k : Z) : spec_float :=
  SFmul prec emax x (float_of_int k).

(** [f"{x:.1f}"]: the exact binary value rounded to one decimal, ties to
    even. *)
Definition tenths (m : positive) (e : Z) : Z :=
  if (0 <=? e)%Z then (Z.pos m * 2 ^ e * 10)%Z
  else
    let n := (Z.pos m * 10)%Z in
    let d := (2 ^ (- e))%Z in
    let q := (n / d)%Z in
    let r := (n mod d)%Z in
    if (2 * r <? d)%Z then q
    else if (d <? 2 * r)%Z then (q + 1)%Z
    else if Z.even q then q else (q + 1)%Z.

Definition format_float_1f (x : spec_float) : string :=
  match x with
  | S754_zero s => (if s then "-" else "") ++ "0.0"
  | S754_infinity s => (if s then "-" else "") ++ "inf"
  | S754_nan => "nan"
  | S754_finite s m e =>
      let t := tenths m e in
      (if s then "-" else "") ++ str_int (t / 10) ++ "." ++ str_int (t mod 10)
  end.

Definition format_1f (x : num) : string :=
  match x with
  | Int z => format_float_1f (float_of_int z)
  | Float f => format_float_1f f
  end.

End Py.

(* ================================================================= *)
(** ** Insertion-ordered dictionaries with string keys *)

Module Dict.

Definition t (V : Type) : Type := list (string * V).

(** [d[k] = v]: an existing key keeps its position, a new key goes last. *)
Fixpoint setitem {V : Type} (d : t V) (k : string) (v : V) : t V :=
  match d with
  | [] => [(k, v)]
  | (k', v') :: d' =>
      if String.eqb k' k then (k', v) :: d' else (k', v') :: setitem d' k v
  end.

(** [d[k]]; [None] stands for [KeyError]. *)
Fixpoint getitem {V : Type} (d : t V) (k : string) : option V :=
  match d with
  | [] => None
  | (k', v') :: d' => if String.eqb k' k then Some v' else getitem d' k
  end.

Definition keys {V : Type} (d : t V) : list string := map fst d.
Definition values {V : Type} (d : t V) : list V := map snd d.
Definition items {V : Type} (d : t V) : list (string * V) := d.

End Dict.

(* ================================================================= *)
(** ** The operating system seen through [os.stat] *)

(** File types of [st_mode]. *)
Inductive file_type : Type :=
| S_IFREG | S_IFDIR | S_IFCHR | S_IFBLK | S_IFIFO | S_IFSOCK.

(** The fields of [os.stat_result] the script can observe; [st_size] is a
    byte count. *)
Record stat_result : Type := {
  st_mode : file_type;
  st_size : N
}.

(** Error numbers of a failed [stat] other than [ENOENT]. *)
Inductive errno : Type :=
| ENOTDIR | EBADF | ELOOP | EACCES | EIO | ENAMETOOLONG.

(** What [stat] (following symbolic links) answers for a path: the entry,
    no such entry ([ENOENT]), or another error. *)
Inductive stat_outcome : Type :=
| Found (st : stat_result)
| NotFound
| Failed (e : errno).

(** The state the script runs in: the filesystem and what has been printed,
    one element per [print] call. *)
Record World : Type := {
  fs : string -> stat_outcome;
  stdout : list string
}.

(** Python exceptions that can arise. *)
Inductive exn : Type :=
| FileNotFoundError
| OSError (e : errno)
| KeyError (k : string)
| ZeroDivisionError.

(* ================================================================= *)
(** ** The monad of the interpreter: state and exceptions *)

Inductive outcome (A : Type) : Type :=
| Return (a : A) (w : World)
| Raise (x : exn) (w : World).

Arguments Return {A} a w.
Arguments Raise {A} x w.

Definition M (A : Type) : Type := World -> outcome A.

Definition ret {A : Type} (a : A) : M A := fun w => Return a w.

Definition raise {A : Type} (x : exn) : M A := fun w => Raise x w.

Definition bind {A B : Type} (m : M A) (k : A -> M B) : M B :=
  fun w =>
    match m w with
    | Return a w' => k a w'
    | Raise x w' => Raise x w'
    end.

Declare Scope py_scope.
Delimit Scope py_scope with py.
Notation "x <- m ;; k" := (bind m (fun x => k))
  (at level 61, m at next level, right associativity) : py_scope.
Notation "m ;; k" := (bind m (fun _ => k))
  (at level 61, right associativity) : py_scope.
Open Scope py_scope.

(** [for x in xs: body], threading the variables the body assigns. *)
Fixpoint for_each {A S : Type} (xs : list A) (body : S -> A -> M S) (s : S) : M S :=
  match xs with
  | [] => ret s
  | x :: xs' => s' <- body s x ;; for_each xs' body s'
  end.

(** [print(s)]. *)
Definition print (s : string) : M unit :=
  fun w => Return tt {| fs := fs w; stdout := (stdout w ++ [s])%list |}.

(** The world a run ends in. *)
Definition world_after {A : Type} (o : outcome A) : World :=
  match o with
  | Return _ w => w
  | Raise _ w => w
  end.

(** Lifting a builtin that may raise. *)
Definition lift_opt {A : Type} (x : exn) (o : option A) : M A :=
  match o with
  | Some a => ret a
  | None => raise x
  end.

(* ================================================================= *)
(** ** Two library policies and some filesystems *)

(** [_IGNORED_ERRNOS] of CPython 3.8 to 3.13: [ENOENT] (here [NotFound]),
    [ENOTDIR], [EBADF], [ELOOP]. *)
Definition ignored_errnos (e : errno) : bool :=
  match e with
  | ENOTDIR | EBADF | ELOOP => true
  | EACCES | EIO | ENAMETOOLONG => false
  end.

(** From CPython 3.14 [Path.exists] is [os.path.exists], which answers
    [False] on every [OSError]. *)
Definition ignore_all (e : errno) : bool := true.

(** A filesystem given by its entries; every other path is absent. *)
Definition fs_of (entries : Dict.t stat_outcome) (p : string) : stat_outcome :=
  match Dict.getitem entries p with
  | Some o => o
  | None => NotFound
  end.

Definition world_of (entries : Dict.t stat_outcome) : World :=
  {| fs := fs_of entries; stdout := [] |}.

Definition a_directory : stat_outcome :=
  Found {| st_mode := S_IFDIR; st_size := 4096 |}.

(** Nothing exists, not even the root of the pipeline tree. *)
Definition bare_world : World := world_of [].

(** [jenkins/README.md] has 42 bytes, [jenkins/scripts/setup.sh] is empty
    and nothing else is there. *)
Definition jenkins_world : World :=
  world_of
    [ ("/workspaces/AI-prompt/pipeline/jenkins", a_directory);
      ("/workspaces/AI-prompt/pipeline/jenkins/README.md",
       Found {| st_mode := S_IFREG; st_size := 42 |});
      ("/workspaces/AI-prompt/pipeline/jenkins/scripts/setup.sh",
       Found {| st_mode := S_IFREG; st_size := 0 |}) ].

(** [jenkins/README.md] is a directory. *)
Definition readme_directory_world : World :=
  world_of
    [ ("/workspaces/AI-prompt/pipeline/jenkins", a_directory);
      ("/workspaces/AI-prompt/pipeline/jenkins/README.md", a_directory) ].

(** [jenkins/README.md] is a symbolic link to itself: [stat] fails with
    [ELOOP]. *)
Definition readme_loop_world : World :=
  world_of
    [ ("/workspaces/AI-prompt/pipeline/jenkins", a_directory);
      ("/workspaces/AI-prompt/pipeline/jenkins/README.md", Failed ELOOP) ].

(** [jenkins/docs] may not be searched: [stat] below it fails with
    [EACCES]. *)
Definition docs_unreadable_world : World :=
  world_of
    [ ("/workspaces/AI-prompt/pipeline/jenkins", a_directory);
      ("/workspaces/AI-prompt/pipeline/jenkins/docs/getting-started.md", Failed EACCES);
      ("/workspaces/AI-prompt/pipeline/jenkins/docs/advanced-configuration.md",
       Failed EACCES) ].

(* ================================================================= *)
(** ** [pathlib.Path] *)

(** A path is kept as the string [str(p)] that [pathlib] hands to the
    operating system.  [pathlib] normalises what it is given: it splits at
    ['/'], drops the empty and the ["."] components (not [".."]), keeps a
    root of one slash, or of two when the string starts with exactly two,
    and prints the empty path as ["."]. *)

(** [s.split("/")]. *)
Fixpoint split_sep (s : string) : list string :=
  match s with
  | EmptyString => [EmptyString]
  | String a s' =>
      if Ascii.eqb a "/" then EmptyString :: split_sep s'
      else
        match split_sep s' with
        | [] => [String a EmptyString]
        | x :: xs => String a x :: xs
        end
  end.

(** The components [pathlib] keeps. *)
Definition is_part (x : string) : bool :=
  negb (String.eqb x "") && negb (String.eqb x ".").

Definition path_parts (s : string) : list string := filter is_part (split_sep s).

(** The root of a POSIX path. *)
Definition path_root (s : string) : string :=
  match s with
  | String "/" (String "/" (String "/" _)) => "/"
  | String "/" (String "/" _) => "//"
  | String "/" _ => "/"
  | _ => ""
  end.

(** [str(p)] for a path of the given root and parts. *)
Definition path_str (root : string) (parts : list string) : string :=
  match root, parts with
  | EmptyString, [] => "."
  | _, _ => root ++ String.concat "/" parts
  end.

(** [Path(s)]. *)
Definition Path (s : string) : string := path_str (path_root s) (path_parts s).

(** [p / q] for a path [p] and a string [q]: an absolute [q] replaces
    [p]. *)
Definition joinpath (p q : string) : string :=
  match path_root q with
  | EmptyString => path_str (path_root p) (path_parts p ++ path_parts q)
  | _ => Path q
  end.

(** [p.parent] for a path [p]: the path without its last component. *)
Definition parent (p : string) : string :=
  path_str (path_root p) (removelast (path_parts p)).

(** [pathlib] drops a trailing slash, empty and ["."] components, and keeps
    [".."]; an absolute right operand of [/] replaces the left one. *)
Example Path_normalises :
  Path "/workspaces/AI-prompt/pipeline/jenkins/" = "/workspaces/AI-prompt/pipeline/jenkins"
  /\ Path "/out//x/" = "/out/x"
  /\ Path "a/./b/../c" = "a/b/../c"
  /\ Path "//srv/x" = "//srv/x"
  /\ Path "///srv/x" = "/srv/x"
  /\ Path "" = "."
  /\ joinpath "/out/jenkins" "scripts/setup.sh" = "/out/jenkins/scripts/setup.sh"
  /\ joinpath "/out/jenkins" "/etc/motd" = "/etc/motd"
  /\ joinpath "/out/jenkins" "" = "/out/jenkins"
  /\ parent "/out/jenkins/scripts/setup.sh" = "/out/jenkins/scripts"
  /\ parent "/" = "/"
  /\ parent "a" = "."
  /\ parent "//srv/x" = "//srv".
Proof. repeat split. Qed.

Section Checker.

(** [pathlib._ignore_error]: the error numbers that [Path.exists] answers
    with [False] instead of raising.  It belongs to the interpreter's
    library, not to the script, and differs between releases, so the
    development is parametric in it. *)
Variable ignore_error : errno -> bool.

(** [p.stat()]. *)
Definition Path_stat (p : string) : M stat_result :=
  fun w =>
    match fs w p with
    | Found st => Return st w
    | NotFound => Raise FileNotFoundError w
    | Failed e => Raise (OSError e) w
    end.

(** [p.exists()]: [stat], with the absence of the entry and the ignored
    errors turned into [False]. *)
Definition Path_exists (p : string) : M bool :=
  fun w =>
    match fs w p with
    | Found _ => Return true w
    | NotFound => Return false w
    | Failed e => if ignore_error e then Return false w else Raise (OSError e) w
    end.

(* ================================================================= *)
(** ** [check_status.py] *)

(** One entry of [PLATFORMS]. *)
Record PlatformInfo : Type := {
  name : string;
  type : string;
  format : string;
  config_extension : string
}.

(** The dictionary [check_platform_structure] returns. *)
Record Status : Type := {
  platform : string;
  directory_exists : bool;
  files : Dict.t string
}.

(** [status["files"][file_path] = v]. *)
Definition set_file (status : Status) (file_path v : string) : Status :=
  {| platform := platform status;
     directory_exists := directory_exists status;
     files := Dict.setitem (files status) file_path v |}.

Definition expected_files : list string :=
  [ "README.md";
    "templates/basic.yml";
    "templates/advanced.yml";
    "examples/java-spring-boot-example.md";
    "examples/python-fastapi-example.md";
    "examples/nodejs-express-example.md";
    "examples/go-example.md";
    "docs/getting-started.md";
    "docs/advanced-configuration.md";
    "scripts/setup.sh";
    "scripts/validate.sh" ].

(** [platform_dir] of [check_platform_structure]. *)
Definition platform_dir (platform_key : string) : string :=
  Path ("/workspaces/AI-prompt/pipeline/" ++ platform_key).

(** The body of the loop over [expected_files]. *)
Definition check_file (platform_dir : string) (status : Status) (file_path : string)
  : M Status :=
  let full_path := joinpath platform_dir file_path in
  e <- Path_exists full_path ;;
  if e then
    st <- Path_stat full_path ;;
    let size := st_size st in
    ret (set_file status file_path (if (0 <? size)%N then "exists" else "empty"))
  else
    ret (set_file status file_path "missing").

Definition check_platform_structure (platform_key : string) : M Status :=
  let platform_dir := platform_dir platform_key in
  d <- Path_exists platform_dir ;;
  let status :=
    {| platform := platform_key; directory_exists := d; files := [] |} in
  for_each expected_files (check_file platform_dir) status.

(** [missing_files = [f for f, s in status["files"].items() if s == "missing"]]. *)
Fixpoint missing_of (its : list (string * string)) : list string :=
  match its with
  | [] => []
  | (f, s) :: its' =>
      if String.eqb s "missing" then f :: missing_of its' else missing_of its'
  end.

(** The "Show missing files" block of [main]. *)
Definition print_missing (missing_files : list string) : M unit :=
  match missing_files with
  | [] => ret tt
  | _ :: _ =>
      print "  Missing files:" ;;
      for_each (firstn 5 missing_files)
        (fun (_ : unit) f => print ("    - " ++ f)) tt ;;
      if (5 <? Py.len missing_files)%Z
      then print ("    ... and " ++ Py.str_int (Py.len missing_files - 5) ++ " more")
      else ret tt
  end.

(** The body of the loop of [main] over the sorted platform keys. *)
Definition report_platform (PLATFORMS : Dict.t PlatformInfo)
  (all_statuses : list Status) (platform_key : string) : M (list Status) :=
  status <- check_platform_structure platform_key ;;
  let all_statuses := (all_statuses ++ [status])%list in
  info <- lift_opt (KeyError platform_key) (Dict.getitem PLATFORMS platform_key) ;;
  let platform_name := name info in
  print (Py.nl ++ platform_name ++ " (" ++ platform_key ++ ")") ;;
  print (Py.str_mul "-" 80) ;;
  let exists_count := Py.count_eq "exists" (Dict.values (files status)) in
  let empty_count := Py.count_eq "empty" (Dict.values (files status)) in
  let missing_count := Py.count_eq "missing" (Dict.values (files status)) in
  print ("  Exists:  " ++ Py.str_int exists_count ++ " | Empty:  "
         ++ Py.str_int empty_count ++ " | Missing: " ++ Py.str_int missing_count) ;;
  let missing_files := missing_of (Dict.items (files status)) in
  print_missing missing_files ;;
  ret all_statuses.

(** The aggregate numbers of the summary block. *)
Record Summary : Type := {
  total_files : Z;
  existing_files : Z;
  empty_files : Z;
  missing_files : Z;
  completion : Py.num
}.

(** [sum(len([f for f, s in status["files"].items() if s == v])
         for status in all_statuses)]. *)
Definition count_status (v : string) (all_statuses : list Status) : Z :=
  Py.sum (map (fun status => Py.count_eq v (Dict.values (files status))) all_statuses).

(** [(existing_files / total_files) * 100 if total_files > 0 else 0]. *)
Definition completion_of (existing_files total_files : Z) : M Py.num :=
  if (0 <? total_files)%Z then
    q <- lift_opt ZeroDivisionError (Py.truediv existing_files total_files) ;;
    ret (Py.Float (Py.float_mul_int q 100))
  else ret (Py.Int 0).

(** The computation of the summary block of [main]. *)
Definition summarize (PLATFORMS : Dict.t PlatformInfo) (all_statuses : list Status)
  : M Summary :=
  let total_files := (Py.len PLATFORMS * 11)%Z in
  let existing_files := count_status "exists" all_statuses in
  let empty_files := count_status "empty" all_statuses in
  let missing_files := count_status "missing" all_statuses in
  completion <- completion_of existing_files total_files ;;
  ret {| total_files := total_files;
         existing_files := existing_files;
         empty_files := empty_files;
         missing_files := missing_files;
         completion := completion |}.

(** The loop of [main] over [sorted(PLATFORMS.keys())]. *)
Definition scan_platforms (PLATFORMS : Dict.t PlatformInfo) : M (list Status) :=
  for_each (Py.sorted (Dict.keys PLATFORMS)) (report_platform PLATFORMS) [].

(** The summary block of [main]. *)
Definition print_summary (PLATFORMS : Dict.t PlatformInfo) (all_statuses : list Status)
  : M unit :=
  print (Py.nl ++ Py.str_mul "=" 80) ;;
  print "Summary" ;;
  print (Py.str_mul "=" 80) ;;
  s <- summarize PLATFORMS all_statuses ;;
  print ("Total Expected Files:  " ++ Py.str_int (total_files s)) ;;
  print ("Existing with Content: " ++ Py.str_int (existing_files s)) ;;
  print ("Empty Files:           " ++ Py.str_int (empty_files s)) ;;
  print ("Missing Files:         " ++ Py.str_int (missing_files s)) ;;
  print (Py.nl ++ "Completion: " ++ Py.format_1f (completion s) ++ "%").

(** [main], with the module-level [PLATFORMS] it reads made a parameter. *)
Definition main_over (PLATFORMS : Dict.t PlatformInfo) : M (list Status) :=
  print (Py.str_mul "=" 80) ;;
  print "CI/CD Platform Content Status Report" ;;
  print (Py.str_mul "=" 80) ;;
  all_statuses <- scan_platforms PLATFORMS ;;
  print_summary PLATFORMS all_statuses ;;
  ret all_statuses.

Definition mk_platform (n t f c : string) : PlatformInfo :=
  {| name := n; type := t; format := f; config_extension := c |}.

Definition PLATFORMS : Dict.t PlatformInfo :=
  [ ("gitlab-ci", mk_platform "GitLab CI/CD" "cloud_native" "yaml" ".yml");
    ("azure-pipelines", mk_platform "Azure Pipelines" "cloud_native" "yaml" ".yml");
    ("aws-codepipeline", mk_platform "AWS CodePipeline" "cloud_native" "yaml" ".yml");
    ("gcp-cloud-build", mk_platform "GCP Cloud Build" "cloud_native" "yaml" ".yml");
    ("circleci", mk_platform "CircleCI" "saas" "yaml" ".yml");
    ("travis-ci", mk_platform "Travis CI" "saas" "yaml" ".yml");
    ("appveyor", mk_platform "AppVeyor" "saas" "yaml" ".yml");
    ("bitbucket-pipelines", mk_platform "Bitbucket Pipelines" "saas" "yaml" ".yml");
    ("buildkite", mk_platform "Buildkite" "saas" "yaml" ".yml");
    ("drone-ci", mk_platform "Drone CI" "saas" "yaml" ".yml");
    ("concourse-ci", mk_platform "Concourse CI" "saas" "yaml" ".yml");
    ("jenkins", mk_platform "Jenkins" "selfhosted" "groovy" "");
    ("teamcity", mk_platform "TeamCity" "selfhosted" "kotlin" "");
    ("cloudbees", mk_platform "CloudBees CI" "selfhosted" "groovy" "");
    ("gocd", mk_platform "GoCD" "selfhosted" "yaml" ".yml");
    ("tekton", mk_platform "Tekton" "kubernetes" "yaml" ".yml");
    ("spinnaker", mk_platform "Spinnaker" "kubernetes" "yaml" ".yml");
    ("harness", mk_platform "Harness" "kubernetes" "yaml" ".yml");
    ("pulumi-automation", mk_platform "Pulumi Automation" "infrastructure" "python" ".py") ].

Definition main : M (list Status) := main_over PLATFORMS.

(* ================================================================= *)
(** ** Specification vocabulary *)

(** The exception a query of an entry with outcome [o] ends in, if any. *)
Definition failure_of (o : stat_outcome) : option exn :=
  match o with
  | Failed e => if ignore_error e then None else Some (OSError e)
  | Found _ | NotFound => None
  end.

(** The status string an entry with outcome [o] is given when its query
    does not fail. *)
Definition status_of (o : stat_outcome) : string :=
  match o with
  | Found st => if (0 <? st_size st)%N then "exists" else "empty"
  | NotFound | Failed _ => "missing"
  end.

Definition is_found (o : stat_outcome) : bool :=
  match o with
  | Found _ => true
  | NotFound | Failed _ => false
  end.

(** The first failure met when the paths are queried in order. *)
Fixpoint first_failure (f : string -> stat_outcome) (paths : list string)
  : option exn :=
  match paths with
  | [] => None
  | q :: qs =>
      match failure_of (f q) with
      | Some x => Some x
      | None => first_failure f qs
      end
  end.

(** The paths [check_platform_structure] queries, in order. *)
Definition queried_paths (platform_key : string) : list string :=
  platform_dir platform_key
    :: map (joinpath (platform_dir platform_key)) expected_files.

(** The report for a platform on a filesystem all of whose queries succeed. *)
Definition report_of (f : string -> stat_outcome) (platform_key : string) : Status :=
  {| platform := platform_key;
     directory_exists := is_found (f (platform_dir platform_key));
     files :=
       map (fun p => (p, status_of (f (joinpath (platform_dir platform_key) p))))
           expected_files |}.

(** The three status strings. *)
Definition is_status (v : string) : Prop :=
  v = "exists" \/ v = "empty" \/ v = "missing".

(** The outcome with result [res] on filesystem [f] once [o] is printed. *)
Definition finish {A : Type} (res : A + exn) (f : string -> stat_outcome)
  (o : list string) : outcome A :=
  match res with
  | inl a => Return a {| fs := f; stdout := o |}
  | inr x => Raise x {| fs := f; stdout := o |}
  end.

(** A computation is read-only when, on every filesystem, its result and
    the lines it prints are determined by the filesystem alone, and it
    leaves the filesystem as it found it. *)
Definition read_only {A : Type} (m : M A) : Prop :=
  forall f : string -> stat_outcome,
  exists (res : A + exn) (out : list string),
  forall o : list string,
    m {| fs := f; stdout := o |} = finish res f (o ++ out)%list.

(** A computation that returns on every world. *)
Definition never_raises {A : Type} (m : M A) : Prop :=
  forall w, exists a w', m w = Return a w'.

(* ================================================================= *)
(** ** Dictionaries *)

Lemma setitem_fresh {V : Type} (d : Dict.t V) (k : string) (v : V) :
  ~ In k (Dict.keys d) -> Dict.setitem d k v = (d ++ [(k, v)])%list.
Proof.
  induction d as [|[k' v'] d IH]; simpl; intros Hk.
  - reflexivity.
  - destruct (String.eqb_spec k' k) as [->|Hne].
    + exfalso. apply Hk. now left.
    + rewrite IH; [reflexivity|]. intros Hin. apply Hk. now right.
Qed.

Lemma getitem_map (g : string -> string) (l : list string) (p : string) :
  In p l -> Dict.getitem (map (fun q => (q, g q)) l) p = Some (g p).
Proof.
  induction l as [|q l IH]; simpl; [tauto|].
  intros [->|Hin].
  - now rewrite String.eqb_refl.
  - destruct (String.eqb_spec q p) as [->|_]; [reflexivity|auto].
Qed.

Lemma keys_map (g : string -> string) (l : list string) :
  Dict.keys (map (fun q => (q, g q)) l) = l.
Proof.
  unfold Dict.keys. rewrite map_map. simpl. apply map_id.
Qed.

Lemma values_map (g : string -> string) (l : list string) :
  Dict.values (map (fun q => (q, g q)) l) = map g l.
Proof.
  unfold Dict.values. rewrite map_map. reflexivity.
Qed.

(* ================================================================= *)
(** ** What [check_platform_structure] computes *)

Lemma check_file_run (dir : string) (s : Status) (p : string) (w : World) :
  check_file dir s p w =
  match failure_of (fs w (joinpath dir p)) with
  | Some x => Raise x w
  | None => Return (set_file s p (status_of (fs w (joinpath dir p)))) w
  end.
Proof.
  unfold check_file, bind, Path_exists, Path_stat, ret.
  destruct (fs w (joinpath dir p)) as [st| |e] eqn:E; simpl.
  - rewrite E. reflexivity.
  - reflexivity.
  - destruct (ignore_error e); reflexivity.
Qed.

Lemma check_loop_run (dir : string) (l : list string) :
  forall (s : Status) (w : World),
    NoDup l ->
    (forall p, In p l -> ~ In p (Dict.keys (files s))) ->
    for_each l (check_file dir) s w =
    match first_failure (fs w) (map (joinpath dir) l) with
    | Some x => Raise x w
    | None =>
        Return {| platform := platform s;
                  directory_exists := directory_exists s;
                  files := (files s
                            ++ map (fun p => (p, status_of (fs w (joinpath dir p)))) l)%list |}
               w
    end.
Proof.
  induction l as [|p l IH]; intros s w Hnd Hfresh; simpl.
  - rewrite app_nil_r. destruct s; reflexivity.
  - unfold bind. rewrite check_file_run.
    destruct (failure_of (fs w (joinpath dir p))); [reflexivity|].
    inversion Hnd as [|? ? Hp Hnd']; subst.
    rewrite IH; clear IH; trivial.
    + destruct (first_failure (fs w) (map (joinpath dir) l)); [reflexivity|].
      simpl. rewrite setitem_fresh by (apply Hfresh; now left).
      rewrite <- app_assoc. reflexivity.
    + intros q Hq. simpl. rewrite setitem_fresh by (apply Hfresh; now left).
      unfold Dict.keys. rewrite map_app, in_app_iff. simpl.
      intros [Hin|[->|[]]].
      * apply (Hfresh q); [now right|exact Hin].
      * contradiction.
Qed.

Lemma expected_files_NoDup : NoDup expected_files.
Proof.
  unfold expected_files.
  repeat (constructor; [simpl; intros H;
    repeat (destruct H as [H|H]; [discriminate H|]); exact H|]).
  constructor.
Qed.

Lemma first_failure_cons (f : string -> stat_outcome) (q : string) (qs : list string) :
  first_failure f (q :: qs) =
  match failure_of (f q) with
  | Some x => Some x
  | None => first_failure f qs
  end.
Proof. reflexivity. Qed.

Lemma check_platform_structure_run (platform_key : string) (w : World) :
  check_platform_structure platform_key w =
  match first_failure (fs w) (queried_paths platform_key) with
  | Some x => Raise x w
  | None => Return (report_of (fs w) platform_key) w
  end.
Proof.
  unfold check_platform_structure, queried_paths, report_of, bind.
  rewrite first_failure_cons. unfold Path_exists at 1.
  destruct (fs w (platform_dir platform_key)) as [st| |e];
    unfold failure_of at 1, is_found;
    try destruct (ignore_error e); try reflexivity;
    (rewrite check_loop_run; [reflexivity|apply expected_files_NoDup|simpl; tauto]).
Qed.

Lemma check_platform_structure_returns (platform_key : string) (w w' : World) (r : Status) :
  check_platform_structure platform_key w = Return r w' ->
  w' = w /\ r = report_of (fs w) platform_key
  /\ first_failure (fs w) (queried_paths platform_key) = None.
Proof.
  rewrite check_platform_structure_run.
  destruct (first_failure (fs w) (queried_paths platform_key)); [discriminate|].
  intros H. injection H as <- <-. auto.
Qed.

Lemma first_failure_None (f : string -> stat_outcome) (qs : list string) :
  first_failure f qs = None <-> forall q, In q qs -> failure_of (f q) = None.
Proof.
  induction qs as [|q qs IH]; simpl.
  - split; [intros _ q []|reflexivity].
  - destruct (failure_of (f q)) eqn:E.
    + split; [discriminate|]. intros H. rewrite <- E. apply H. now left.
    + rewrite IH. split.
      * intros H q' [<-|Hin]; auto.
      * intros H q' Hin. apply H. now right.
Qed.

Lemma first_failure_Some (f : string -> stat_outcome) (qs : list string) (x : exn) :
  first_failure f qs = Some x -> exists q, In q qs /\ failure_of (f q) = Some x.
Proof.
  induction qs as [|q qs IH]; simpl; [discriminate|].
  destruct (failure_of (f q)) eqn:E.
  - intros H. injection H as <-. exists q. auto.
  - intros H. destruct (IH H) as (q' & Hin & Hq'). exists q'. auto.
Qed.

Lemma failure_of_Some (o : stat_outcome) (x : exn) :
  failure_of o = Some x <->
  exists e, o = Failed e /\ ignore_error e = false /\ x = OSError e.
Proof.
  destruct o as [st| |e]; simpl.
  - split; [discriminate|]. intros (e & H & _). discriminate.
  - split; [discriminate|]. intros (e & H & _). discriminate.
  - destruct (ignore_error e) eqn:E.
    + split; [discriminate|]. intros (e' & H & H' & _).
      injection H as <-. congruence.
    + split.
      * intros H. injection H as <-. exists e. auto.
      * intros (e' & H & _ & ->). injection H as <-. reflexivity.
Qed.

Lemma no_failure (platform_key : string) (w : World) :
  (forall q e, In q (queried_paths platform_key) -> fs w q = Failed e ->
     ignore_error e = true) ->
  first_failure (fs w) (queried_paths platform_key) = None.
Proof.
  intros Hok. apply first_failure_None. intros q Hq.
  destruct (failure_of (fs w q)) as [x|] eqn:E; [|reflexivity].
  apply failure_of_Some in E as (e & He & Hi & _).
  rewrite (Hok q e Hq He) in Hi. discriminate.
Qed.

Lemma in_queried_paths (platform_key p : string) :
  In p expected_files ->
  In (joinpath (platform_dir platform_key) p) (queried_paths platform_key).
Proof.
  intros H. right. apply in_map. exact H.
Qed.

Lemma report_of_getitem (f : string -> stat_outcome) (platform_key p : string) :
  In p expected_files ->
  Dict.getitem (files (report_of f platform_key)) p
  = Some (status_of (f (joinpath (platform_dir platform_key) p))).
Proof.
  intros H. unfold report_of. cbn [files].
  apply (getitem_map (fun q => status_of (f (joinpath (platform_dir platform_key) q)))).
  exact H.
Qed.

Lemma status_of_is_status (o : stat_outcome) : is_status (status_of o).
Proof.
  unfold is_status. destruct o as [st| |e]; simpl; auto.
  destruct (0 <? st_size st)%N; auto.
Qed.

(* ================================================================= *)
(** ** Reasoning about runs *)

Lemma world_eta (w : World) : {| fs := fs w; stdout := stdout w |} = w.
Proof. destruct w; reflexivity. Qed.

Lemma bind_Return {A B : Type} (m : M A) (k : A -> M B) (w w' : World) (b : B) :
  bind m k w = Return b w' ->
  exists a w1, m w = Return a w1 /\ k a w1 = Return b w'.
Proof.
  unfold bind. destruct (m w) as [a w1|x w1]; [|discriminate].
  intros H. exists a, w1. auto.
Qed.

Lemma print_run (s : string) (w : World) :
  print s w = Return tt {| fs := fs w; stdout := (stdout w ++ [s])%list |}.
Proof. reflexivity. Qed.

Lemma for_each_print (g : string -> string) (l : list string) :
  forall w : World,
    for_each l (fun (_ : unit) f => print (g f)) tt w
    = Return tt {| fs := fs w; stdout := (stdout w ++ map g l)%list |}.
Proof.
  induction l as [|f l IH]; intros w; simpl.
  - rewrite app_nil_r, world_eta. reflexivity.
  - unfold bind. rewrite print_run, IH. simpl. rewrite <- app_assoc. reflexivity.
Qed.

Lemma read_only_ret {A : Type} (a : A) : read_only (ret a).
Proof.
  intros f. exists (inl a), []. intros o. rewrite app_nil_r. reflexivity.
Qed.

Lemma read_only_raise {A : Type} (x : exn) : read_only (@raise A x).
Proof.
  intros f. exists (inr x), []. intros o. rewrite app_nil_r. reflexivity.
Qed.

Lemma read_only_print (s : string) : read_only (print s).
Proof.
  intros f. exists (inl tt), [s]. intros o. reflexivity.
Qed.

Lemma read_only_bind {A B : Type} (m : M A) (k : A -> M B) :
  read_only m -> (forall a, read_only (k a)) -> read_only (bind m k).
Proof.
  intros Hm Hk f. destruct (Hm f) as ([a|x] & out & Hrun).
  - destruct (Hk a f) as (res & out' & Hrun').
    exists res, (out ++ out')%list. intros o.
    unfold bind. rewrite Hrun. simpl. rewrite Hrun', app_assoc. reflexivity.
  - exists (inr x), out. intros o. unfold bind. rewrite Hrun. reflexivity.
Qed.

Lemma read_only_for_each {A S : Type} (body : S -> A -> M S) (l : list A) :
  (forall s x, read_only (body s x)) -> forall s, read_only (for_each l body s).
Proof.
  intros Hbody. induction l as [|x l IH]; intros s; simpl.
  - apply read_only_ret.
  - apply read_only_bind; [apply Hbody|exact IH].
Qed.

Lemma read_only_lift_opt {A : Type} (x : exn) (o : option A) :
  read_only (lift_opt x o).
Proof.
  destruct o; [apply read_only_ret|apply read_only_raise].
Qed.

Lemma read_only_Path_exists (p : string) : read_only (Path_exists p).
Proof.
  intros f. unfold Path_exists. simpl.
  destruct (f p) as [st| |e].
  - exists (inl true), []. intros o. now rewrite app_nil_r.
  - exists (inl false), []. intros o. now rewrite app_nil_r.
  - destruct (ignore_error e).
    + exists (inl false), []. intros o. now rewrite app_nil_r.
    + exists (inr (OSError e)), []. intros o. now rewrite app_nil_r.
Qed.

Lemma read_only_Path_stat (p : string) : read_only (Path_stat p).
Proof.
  intros f. unfold Path_stat. simpl.
  destruct (f p) as [st| |e].
  - exists (inl st), []. intros o. now rewrite app_nil_r.
  - exists (inr FileNotFoundError), []. intros o. now rewrite app_nil_r.
  - exists (inr (OSError e)), []. intros o. now rewrite app_nil_r.
Qed.

Create HintDb read_only.

#[local] Hint Resolve read_only_ret read_only_raise read_only_print
  read_only_lift_opt read_only_Path_exists read_only_Path_stat : read_only.

Ltac read_only_step :=
  cbv zeta;
  first [ solve [auto with read_only]
        | apply read_only_for_each; intros ? ?
        | apply read_only_bind; [|intros ?] ].

Lemma read_only_check_platform_structure (platform_key : string) :
  read_only (check_platform_structure platform_key).
Proof.
  unfold check_platform_structure, check_file.
  repeat read_only_step.
  match goal with |- read_only (if ?b then _ else _) => destruct b end;
    repeat read_only_step.
Qed.

Lemma read_only_print_missing (l : list string) : read_only (print_missing l).
Proof.
  unfold print_missing. destruct l as [|f l]; [apply read_only_ret|].
  repeat read_only_step.
  match goal with |- read_only (if ?b then _ else _) => destruct b end;
    repeat read_only_step.
Qed.

Lemma read_only_report_platform (PLATFORMS : Dict.t PlatformInfo)
  (all_statuses : list Status) (platform_key : string) :
  read_only (report_platform PLATFORMS all_statuses platform_key).
Proof.
  unfold report_platform.
  apply read_only_bind; [apply read_only_check_platform_structure|intros status].
  repeat first [ apply read_only_print_missing | read_only_step ].
Qed.

Lemma read_only_completion_of (e t : Z) : read_only (completion_of e t).
Proof.
  unfold completion_of. destruct (0 <? t)%Z; repeat read_only_step.
Qed.

Lemma read_only_main_over (PLATFORMS : Dict.t PlatformInfo) :
  read_only (main_over PLATFORMS).
Proof.
  unfold main_over, scan_platforms, print_summary, summarize.
  repeat first [ apply read_only_report_platform
               | apply read_only_completion_of
               | read_only_step ].
Qed.

(** What read-only computations guarantee about a run. *)
Lemma read_only_run {A : Type} (m : M A) (w w1 : World) (a : A) :
  read_only m -> m w = Return a w1 ->
  fs w1 = fs w
  /\ exists out, stdout w1 = (stdout w ++ out)%list
       /\ forall w2, fs w2 = fs w ->
            m w2 = Return a {| fs := fs w2; stdout := (stdout w2 ++ out)%list |}.
Proof.
  intros Hm Hrun. destruct (Hm (fs w)) as (res & out & Hall).
  pose proof (Hall (stdout w)) as H0. rewrite world_eta, Hrun in H0.
  destruct res as [a'|x]; simpl in H0; [|discriminate].
  injection H0 as -> ->. simpl. split; [reflexivity|].
  exists out. split; [reflexivity|].
  intros w2 Hfs. rewrite <- (world_eta w2) at 1. rewrite Hfs, Hall. reflexivity.
Qed.

(* ================================================================= *)
(** ** Properties of [check_platform_structure] *)


(** C2 (one entry per expected path).  Unless a [stat] error that
    [Path.exists] does not ignore occurs, [check_platform_structure] returns
    a report; and every report it returns has exactly one entry per expected
    path: its keys are the expected paths in the order of the list, hence
    as many entries as expected paths and no key twice, and every value is
    one of ["exists"], ["empty"], ["missing"]. *)
Theorem one_entry_per_expected_path (platform_key : string) (w : World) :
  ((forall q e, In q (queried_paths platform_key) -> fs w q = Failed e ->
      ignore_error e = true) ->
   exists r, check_platform_structure platform_key w = Return r w)
  /\ (forall r w',
        check_platform_structure platform_key w = Return r w' ->
        Dict.keys (files r) = expected_files
        /\ List.length (Dict.items (files r)) = List.length expected_files
        /\ NoDup (Dict.keys (files r))
        /\ Forall is_status (Dict.values (files r))).
Proof.
  split.
  - intros Hok. exists (report_of (fs w) platform_key).
    rewrite check_platform_structure_run, (no_failure _ _ Hok). reflexivity.
  - intros r w' Hrun.
    apply check_platform_structure_returns in Hrun as (_ & -> & _).
    unfold report_of. cbn [files].
    assert (Hk : Dict.keys
                   (map (fun p => (p, status_of (fs w (joinpath (platform_dir platform_key) p))))
                        expected_files) = expected_files)
      by apply (keys_map (fun p => status_of (fs w (joinpath (platform_dir platform_key) p)))).
    split; [|split; [|split]].
    + exact Hk.
    + unfold Dict.items. now rewrite length_map.
    + rewrite Hk. apply expected_files_NoDup.
    + rewrite (values_map (fun p => status_of (fs w (joinpath (platform_dir platform_key) p)))).
      apply Forall_forall. intros v Hv. apply in_map_iff in Hv as (q & <- & _).
      apply status_of_is_status.
Qed.

(** C4 (absence is not an error).  When no queried path ends in a [stat]
    error that [Path.exists] does not ignore, [check_platform_structure]
    raises nothing and returns a report with all expected paths as keys, in
    which every absent expected path is ["missing"].  In particular, when
    the platform directory is absent, and with it every path below it, the
    call returns the complete report with all expected paths ["missing"]. *)
Theorem absent_paths_do_not_raise (platform_key : string) (w : World) :
  ((forall q e, In q (queried_paths platform_key) -> fs w q = Failed e ->
      ignore_error e = true) ->
   exists r,
     check_platform_structure platform_key w = Return r w
     /\ Dict.keys (files r) = expected_files
     /\ (forall p, In p expected_files ->
           fs w (joinpath (platform_dir platform_key) p) = NotFound ->
           Dict.getitem (files r) p = Some "missing"))
  /\ (fs w (platform_dir platform_key) = NotFound ->
      (forall p, In p expected_files ->
         fs w (joinpath (platform_dir platform_key) p) = NotFound) ->
      check_platform_structure platform_key w
      = Return {| platform := platform_key;
                  directory_exists := false;
                  files := map (fun p => (p, "missing")) expected_files |}
               w).
Proof.
  split.
  - intros Hok. exists (report_of (fs w) platform_key).
    rewrite check_platform_structure_run, (no_failure _ _ Hok).
    split; [reflexivity|split].
    + apply (keys_map (fun p => status_of (fs w (joinpath (platform_dir platform_key) p)))).
    + intros p Hp Habs. rewrite report_of_getitem by exact Hp. now rewrite Habs.
  - intros Hdir Hbelow.
    rewrite check_platform_structure_run, no_failure.
    + unfold report_of. rewrite Hdir. cbn [is_found].
      do 2 f_equal. apply map_ext_in. intros p Hp. now rewrite (Hbelow p Hp).
    + intros q e [<-|Hq] He.
      * rewrite Hdir in He. discriminate.
      * apply in_map_iff in Hq as (p & <- & Hp).
        rewrite (Hbelow p Hp) in He. discriminate.
Qed.

(** C7, as the code has it.  Status ["exists"] is assigned exactly when the
    resolved path exists with [st_size > 0], and ["empty"] exactly when it
    exists with [st_size = 0]; the type of the entry ([st_mode]) plays no
    part, so a directory of non-zero size at an expected path is
    ["exists"]. *)
Theorem exists_iff_found_with_content
  (platform_key : string) (w w' : World) (r : Status) (p : string) :
  check_platform_structure platform_key w = Return r w' ->
  In p expected_files ->
  let full_path := joinpath (platform_dir platform_key) p in
  (Dict.getitem (files r) p = Some "exists" <->
     exists st, fs w full_path = Found st /\ (0 < st_size st)%N)
  /\ (Dict.getitem (files r) p = Some "empty" <->
     exists st, fs w full_path = Found st /\ st_size st = 0%N).
Proof.
  intros Hrun Hp full_path.
  apply check_platform_structure_returns in Hrun as (_ & -> & _).
  rewrite report_of_getitem by exact Hp. fold full_path.
  destruct (fs w full_path) as [st| |e]; simpl.
  - destruct (N.ltb_spec 0 (st_size st)) as [Hlt|Hle]; split; split.
    + intros _. exists st. auto.
    + reflexivity.
    + discriminate.
    + intros (st' & H & Hz). injection H as <-. lia.
    + discriminate.
    + intros (st' & H & Hz). injection H as <-. lia.
    + intros _. exists st. split; [reflexivity|lia].
    + reflexivity.
  - split; split; try discriminate; intros (st & H & _); discriminate.
  - split; split; try discriminate; intros (st & H & _); discriminate.
Qed.

(** *** Platform keys that are plain names *)

Fixpoint has_slash (s : string) : bool :=
  match s with
  | EmptyString => false
  | String a s' => Ascii.eqb a "/" || has_slash s'
  end.

(** A key that is one path component: not empty, not ["."], no slash. *)
Definition plain_name (k : string) : Prop :=
  has_slash k = false /\ is_part k = true.

Lemma split_sep_plain (k : string) : has_slash k = false -> split_sep k = [k].
Proof.
  induction k as [|a k IH]; simpl; [reflexivity|].
  destruct (Ascii.eqb a "/"); simpl; [discriminate|].
  intros H. now rewrite (IH H).
Qed.

Lemma platform_dir_parts (k : string) :
  plain_name k ->
  path_parts ("/workspaces/AI-prompt/pipeline/" ++ k)
  = ["workspaces"; "AI-prompt"; "pipeline"; k].
Proof.
  intros [Hs Hp]. unfold path_parts. simpl split_sep.
  rewrite (split_sep_plain k Hs). simpl. now rewrite Hp.
Qed.

Lemma platform_dir_plain (k : string) :
  plain_name k -> platform_dir k = "/workspaces/AI-prompt/pipeline/" ++ k.
Proof.
  intros Hk. unfold platform_dir, Path.
  rewrite (platform_dir_parts k Hk). reflexivity.
Qed.

Lemma joinpath_plain (k p : string) :
  plain_name k -> In p expected_files ->
  joinpath (platform_dir k) p = "/workspaces/AI-prompt/pipeline/" ++ k ++ "/" ++ p.
Proof.
  intros Hk Hp. rewrite (platform_dir_plain k Hk). unfold joinpath.
  simpl in Hp.
  repeat (destruct Hp as [<-|Hp];
          [rewrite (platform_dir_parts k Hk); reflexivity|]).
  contradiction.
Qed.

(** C10, as the code has it.  [check_platform_structure] takes the
    platform key only.  A returned report names its platform, has the
    eleven hardcoded paths as keys, gives each the status of its path below
    [Path("/workspaces/AI-prompt/pipeline/<key>")] as [pathlib] normalises
    it, which for a key that is a plain name is the string
    [/workspaces/AI-prompt/pipeline/<key>/<path>], and depends on the
    filesystem only through that directory and those eleven paths.
    [directory_exists] is true exactly when [Path.exists] holds of the
    platform path, whatever the type of the entry there; and no count reads
    that field. *)
Theorem report_uses_fixed_root_and_paths
  (platform_key : string) (w w' : World) (r : Status) :
  check_platform_structure platform_key w = Return r w' ->
  platform r = platform_key
  /\ (directory_exists r = true <->
      exists st,
        fs w (Path ("/workspaces/AI-prompt/pipeline/" ++ platform_key)) = Found st)
  /\ Dict.keys (files r) = expected_files
  /\ List.length expected_files = 11%nat
  /\ (forall p, In p expected_files ->
        Dict.getitem (files r) p
        = Some (status_of
                  (fs w (joinpath
                           (Path ("/workspaces/AI-prompt/pipeline/" ++ platform_key))
                           p))))
  /\ (plain_name platform_key ->
      Path ("/workspaces/AI-prompt/pipeline/" ++ platform_key)
      = "/workspaces/AI-prompt/pipeline/" ++ platform_key
      /\ forall p, In p expected_files ->
           joinpath (Path ("/workspaces/AI-prompt/pipeline/" ++ platform_key)) p
           = "/workspaces/AI-prompt/pipeline/" ++ platform_key ++ "/" ++ p)
  /\ (forall w2 : World,
        (forall q, In q (queried_paths platform_key) -> fs w2 q = fs w q) ->
        check_platform_structure platform_key w2 = Return r w2)
  /\ (forall (b : bool) (v : string),
        count_status v
          [{| platform := platform r; directory_exists := b; files := files r |}]
        = count_status v [r]).
Proof.
  intros Hrun.
  apply check_platform_structure_returns in Hrun as (_ & -> & Hnone).
  split; [reflexivity|].
  split.
  { unfold report_of. cbn [directory_exists].
    change (Path ("/workspaces/AI-prompt/pipeline/" ++ platform_key))
      with (platform_dir platform_key).
    destruct (fs w (platform_dir platform_key)) as [st| |e]; simpl; split;
      try discriminate; eauto; intros (st' & H); discriminate. }
  split.
  { apply (keys_map (fun p => status_of (fs w (joinpath (platform_dir platform_key) p)))). }
  split; [reflexivity|].
  split.
  { intros p Hp. rewrite report_of_getitem by exact Hp. reflexivity. }
  split.
  { intros Hk. split.
    - exact (platform_dir_plain platform_key Hk).
    - intros p Hp. exact (joinpath_plain platform_key p Hk Hp). }
  split.
  { intros w2 Hsame. rewrite check_platform_structure_run.
    assert (Hnone2 : first_failure (fs w2) (queried_paths platform_key) = None).
    { apply first_failure_None. intros q Hq. rewrite (Hsame q Hq).
      rewrite first_failure_None in Hnone. exact (Hnone q Hq). }
    rewrite Hnone2. f_equal. unfold report_of. f_equal.
    + f_equal. apply Hsame. now left.
    + apply map_ext_in. intros p Hp. do 2 f_equal. apply Hsame.
      apply in_queried_paths. exact Hp. }
  reflexivity.
Qed.

(* ================================================================= *)
(** ** Properties of [main] *)

Lemma missing_of_count (its : list (string * string)) :
  Py.len (missing_of its) = Py.count_eq "missing" (map snd its).
Proof.
  unfold Py.len. induction its as [|[f v] its IH]; simpl; [reflexivity|].
  destruct (String.eqb v "missing"); simpl List.length; lia.
Qed.

Lemma print_missing_run (l : list string) (w : World) :
  print_missing l w =
  Return tt
    {| fs := fs w;
       stdout :=
         (stdout w ++
          match l with
          | [] => []
          | _ :: _ =>
              "  Missing files:"
                :: map (fun f => ("    - " ++ f)%string) (firstn 5 l)
                ++ (if (5 <? Py.len l)%Z
                    then [("    ... and " ++ Py.str_int (Py.len l - 5) ++ " more")%string]
                    else [])
          end)%list |}.
Proof.
  destruct l as [|f l].
  - simpl. rewrite app_nil_r, world_eta. reflexivity.
  - unfold print_missing, bind. rewrite print_run, for_each_print.
    cbn [fs stdout].
    destruct (5 <? Py.len (f :: l))%Z.
    + rewrite print_run. cbn [fs stdout].
      rewrite <- !app_assoc. reflexivity.
    + unfold ret. rewrite app_nil_r, <- app_assoc. reflexivity.
Qed.

Lemma report_platform_returns (PLATFORMS : Dict.t PlatformInfo)
  (acc : list Status) (platform_key : string) (w w' : World) (sts : list Status) :
  report_platform PLATFORMS acc platform_key w = Return sts w' ->
  fs w' = fs w /\ sts = (acc ++ [report_of (fs w) platform_key])%list
  /\ first_failure (fs w) (queried_paths platform_key) = None.
Proof.
  intros H. split.
  - exact (proj1 (read_only_run _ _ _ _ (read_only_report_platform _ _ _) H)).
  - unfold report_platform in H.
    apply bind_Return in H as (status & w1 & Hc & H).
    apply check_platform_structure_returns in Hc as (_ & -> & Hnone).
    repeat (apply bind_Return in H; destruct H as (? & ? & _ & H)).
    unfold ret in H. injection H as <- _. auto.
Qed.

Lemma scan_loop_returns (PLATFORMS : Dict.t PlatformInfo) (l : list string) :
  forall (acc sts : list Status) (w w' : World),
    for_each l (report_platform PLATFORMS) acc w = Return sts w' ->
    fs w' = fs w /\ sts = (acc ++ map (report_of (fs w)) l)%list
    /\ forall k, In k l -> first_failure (fs w) (queried_paths k) = None.
Proof.
  induction l as [|k l IH]; intros acc sts w w' H; simpl in H.
  - unfold ret in H. injection H as <- <-. rewrite app_nil_r.
    split; [reflexivity|split; [reflexivity|intros k []]].
  - apply bind_Return in H as (acc' & w1 & Hk & H).
    apply report_platform_returns in Hk as (Hfs & -> & Hnone).
    apply IH in H as (Hfs' & -> & Hrest). rewrite Hfs' , Hfs.
    split; [reflexivity|split].
    + simpl. rewrite <- app_assoc. reflexivity.
    + intros k' [<-|Hin]; [exact Hnone|]. rewrite <- Hfs. auto.
Qed.

(** The lines [main] prints for a platform. *)
Definition platform_block (info : PlatformInfo) (platform_key : string)
  (status : Status) : list string :=
  let missing_files := missing_of (Dict.items (files status)) in
  [ Py.nl ++ name info ++ " (" ++ platform_key ++ ")";
    Py.str_mul "-" 80;
    "  Exists:  " ++ Py.str_int (Py.count_eq "exists" (Dict.values (files status)))
    ++ " | Empty:  " ++ Py.str_int (Py.count_eq "empty" (Dict.values (files status)))
    ++ " | Missing: "
    ++ Py.str_int (Py.count_eq "missing" (Dict.values (files status))) ]
  ++ match missing_files with
     | [] => []
     | _ :: _ =>
         "  Missing files:"
           :: map (fun f => "    - " ++ f) (firstn 5 missing_files)
           ++ (if (5 <? Py.len missing_files)%Z
               then ["    ... and " ++ Py.str_int (Py.len missing_files - 5) ++ " more"]
               else [])
     end.

Lemma report_platform_run (PLATFORMS : Dict.t PlatformInfo) (acc : list Status)
  (platform_key : string) (w : World) (info : PlatformInfo) :
  first_failure (fs w) (queried_paths platform_key) = None ->
  Dict.getitem PLATFORMS platform_key = Some info ->
  report_platform PLATFORMS acc platform_key w
  = Return (acc ++ [report_of (fs w) platform_key])%list
      {| fs := fs w;
         stdout :=
           (stdout w
            ++ platform_block info platform_key (report_of (fs w) platform_key))%list |}.
Proof.
  intros Hnone Hinfo. unfold report_platform, bind.
  rewrite check_platform_structure_run, Hnone, Hinfo.
  unfold lift_opt, ret. rewrite !print_run. cbn [fs stdout].
  rewrite print_missing_run. cbn [fs stdout]. unfold platform_block.
  rewrite <- !app_assoc. reflexivity.
Qed.

Lemma report_platform_info (PLATFORMS : Dict.t PlatformInfo) (acc sts : list Status)
  (platform_key : string) (w w' : World) :
  report_platform PLATFORMS acc platform_key w = Return sts w' ->
  exists info, Dict.getitem PLATFORMS platform_key = Some info.
Proof.
  intros H. pose proof (report_platform_returns _ _ _ _ _ _ H) as (_ & _ & Hnone).
  destruct (Dict.getitem PLATFORMS platform_key) as [info|] eqn:E; [eauto|].
  unfold report_platform, bind in H.
  rewrite check_platform_structure_run, Hnone, E in H. discriminate H.
Qed.

Lemma scan_loop_output (PLATFORMS : Dict.t PlatformInfo) (l : list string) :
  forall (acc sts : list Status) (w w' : World),
    for_each l (report_platform PLATFORMS) acc w = Return sts w' ->
    exists blocks,
      stdout w' = (stdout w ++ List.concat blocks)%list
      /\ Forall2
           (fun k block =>
              exists info,
                Dict.getitem PLATFORMS k = Some info
                /\ block = platform_block info k (report_of (fs w) k))
           l blocks.
Proof.
  induction l as [|k l IH]; intros acc sts w w' H; simpl in H.
  - unfold ret in H. injection H as <- <-. exists []. simpl.
    rewrite app_nil_r. split; [reflexivity|constructor].
  - apply bind_Return in H as (acc' & w1 & Hk & H).
    destruct (report_platform_info _ _ _ _ _ _ Hk) as (info & Hinfo).
    pose proof (report_platform_returns _ _ _ _ _ _ Hk) as (Hfs & _ & Hnone).
    rewrite (report_platform_run _ _ _ _ info Hnone Hinfo) in Hk.
    injection Hk as <- <-.
    apply IH in H as (blocks & Hout & Hall). cbn [fs stdout] in *.
    exists (platform_block info k (report_of (fs w) k) :: blocks). split.
    + rewrite Hout. simpl. rewrite <- app_assoc. reflexivity.
    + constructor; [exists info; auto|exact Hall].
Qed.

Lemma read_only_print_summary (PLATFORMS : Dict.t PlatformInfo) (sts : list Status) :
  read_only (print_summary PLATFORMS sts).
Proof.
  unfold print_summary, summarize.
  repeat first [ apply read_only_completion_of | read_only_step ].
Qed.

(** C6 (truncated listing of missing files).  The block [main] prints for a
    platform whose check returned [status] is the heading, the rule, the
    line of counts and then the listing of its missing files, where the
    files listed are the keys of [status] with status ["missing"], as many
    as the missing count.  With no missing file the listing is empty; with
    one to five it is ["  Missing files:"] and a line for every one of them
    and nothing else; with more than five it is that heading, a line for
    each of the first five, and ["    ... and N more"] with
    [N = missing_count - 5].  The output of a run of [main] is its banner,
    these blocks for the sorted platform keys in order, and the summary. *)
Theorem missing_listing_truncates_at_five (PLATFORMS : Dict.t PlatformInfo) :
  (forall (acc : list Status) (platform_key : string) (w : World)
          (status : Status) (info : PlatformInfo),
     check_platform_structure platform_key w = Return status w ->
     Dict.getitem PLATFORMS platform_key = Some info ->
     let missing_files := missing_of (Dict.items (files status)) in
     let missing_count := Py.count_eq "missing" (Dict.values (files status)) in
     exists listing,
       report_platform PLATFORMS acc platform_key w
       = Return (acc ++ [status])%list
           {| fs := fs w;
              stdout :=
                (stdout w
                 ++ [ (Py.nl ++ name info ++ " (" ++ platform_key ++ ")")%string;
                      Py.str_mul "-" 80;
                      ("  Exists:  "
                       ++ Py.str_int (Py.count_eq "exists" (Dict.values (files status)))
                       ++ " | Empty:  "
                       ++ Py.str_int (Py.count_eq "empty" (Dict.values (files status)))
                       ++ " | Missing: " ++ Py.str_int missing_count)%string ]
                 ++ listing)%list |}
       /\ Py.len missing_files = missing_count
       /\ (missing_count = 0%Z -> listing = [])
       /\ ((0 < missing_count <= 5)%Z ->
           listing
           = "  Missing files:"
               :: map (fun f => ("    - " ++ f)%string) missing_files)
       /\ ((5 < missing_count)%Z ->
           List.length (firstn 5 missing_files) = 5%nat
           /\ listing
              = ("  Missing files:"
                   :: map (fun f => ("    - " ++ f)%string) (firstn 5 missing_files)
                   ++ [("    ... and " ++ Py.str_int (missing_count - 5)
                        ++ " more")%string])%list))
  /\ (forall (w w1 : World) (all_statuses : list Status),
        main_over PLATFORMS w = Return all_statuses w1 ->
        exists blocks summary,
          stdout w1
          = (stdout w
             ++ [Py.str_mul "=" 80; "CI/CD Platform Content Status Report";
                 Py.str_mul "=" 80]
             ++ List.concat blocks ++ summary)%list
          /\ Forall2
               (fun k block =>
                  exists status,
                    check_platform_structure k w = Return status w
                    /\ forall acc o,
                         report_platform PLATFORMS acc k {| fs := fs w; stdout := o |}
                         = Return (acc ++ [status])%list
                             {| fs := fs w; stdout := (o ++ block)%list |})
               (Py.sorted (Dict.keys PLATFORMS)) blocks).
Proof.
  split.
  - intros acc platform_key w status info Hrun Hinfo missing_files missing_count.
    apply check_platform_structure_returns in Hrun as (_ & -> & Hnone).
    assert (Hlen : Py.len missing_files = missing_count) by apply missing_of_count.
    eexists. split; [|split; [exact Hlen|]].
    + rewrite (report_platform_run _ _ _ _ info Hnone Hinfo).
      unfold platform_block. reflexivity.
    + fold missing_files. rewrite <- Hlen. unfold Py.len.
      split; [|split].
      * intros Hz. destruct missing_files; [reflexivity|simpl in Hz; lia].
      * intros [Hpos Hle]. destruct missing_files as [|f l]; [simpl in Hpos; lia|].
        destruct (Z.ltb_spec 5 (Z.of_nat (List.length (f :: l)))); [lia|].
        rewrite app_nil_r, firstn_all2 by lia. reflexivity.
      * intros Hgt. split; [apply firstn_length_le; lia|].
        destruct missing_files as [|f l]; [simpl in Hgt; lia|].
        destruct (Z.ltb_spec 5 (Z.of_nat (List.length (f :: l)))); [|lia].
        reflexivity.
  - intros w w1 sts Hrun. unfold main_over in Hrun.
    do 3 (apply bind_Return in Hrun; destruct Hrun as ([] & ? & Hp & Hrun);
          rewrite print_run in Hp; injection Hp as <-).
    apply bind_Return in Hrun as (sts' & w3 & Hscan & Hrun).
    apply bind_Return in Hrun as ([] & w4 & Hsum & Hrun).
    unfold ret in Hrun. injection Hrun as <- <-.
    pose proof (scan_loop_returns _ _ _ _ _ _ Hscan) as (Hfs3 & _ & Hnone).
    destruct (scan_loop_output _ _ _ _ _ _ Hscan) as (blocks & Hout & Hall).
    destruct (read_only_run _ _ _ _ (read_only_print_summary PLATFORMS sts') Hsum)
      as (_ & summary & Hsummary & _).
    cbn [fs stdout] in *.
    exists blocks, summary. split.
    + rewrite Hsummary, Hout. rewrite <- !app_assoc. reflexivity.
    + clear - Hall Hnone. revert Hnone.
      induction Hall as [|k block l blocks (info & Hinfo & ->) _ IH]; intros Hnone.
      * constructor.
      * constructor.
        -- exists (report_of (fs w) k). split.
           ++ rewrite check_platform_structure_run, (Hnone k) by (now left).
              reflexivity.
           ++ intros acc o.
              rewrite (report_platform_run _ _ _ _ info) by
                (cbn [fs]; auto using in_eq).
              reflexivity.
        -- apply IH. intros k' Hk'. apply Hnone. now right.
Qed.

Lemma insert_sorted_length (x : string) (l : list string) :
  List.length (Py.insert_sorted x l) = S (List.length l).
Proof.
  induction l as [|y l IH]; simpl; [reflexivity|].
  destruct (String.leb x y); simpl; [reflexivity|]. now rewrite IH.
Qed.

Lemma sorted_length (l : list string) :
  List.length (Py.sorted l) = List.length l.
Proof.
  induction l as [|x l IH]; simpl; [reflexivity|].
  now rewrite insert_sorted_length, IH.
Qed.

Lemma count_partition (vs : list string) :
  Forall is_status vs ->
  (Py.count_eq "exists" vs + Py.count_eq "empty" vs + Py.count_eq "missing" vs
   = Py.len vs)%Z.
Proof.
  unfold Py.len. intros H. induction H as [|v vs Hv Hvs IH]; [reflexivity|].
  cbn [Py.count_eq List.length]. rewrite Nat2Z.inj_succ.
  destruct Hv as [-> | [-> | ->]]; cbn [String.eqb Ascii.eqb Bool.eqb]; lia.
Qed.

Lemma report_of_counts (f : string -> stat_outcome) (k : string) :
  let vs := Dict.values (files (report_of f k)) in
  (Py.count_eq "exists" vs + Py.count_eq "empty" vs + Py.count_eq "missing" vs
   = 11)%Z.
Proof.
  intros vs. rewrite count_partition.
  - unfold vs, report_of, Dict.values, Py.len. cbn [files].
    rewrite !length_map. reflexivity.
  - unfold vs, report_of. cbn [files].
    rewrite (values_map (fun p => status_of (f (joinpath (platform_dir k) p)))).
    apply Forall_forall. intros v Hv. apply in_map_iff in Hv as (q & <- & _).
    apply status_of_is_status.
Qed.

Lemma count_status_reports (f : string -> stat_outcome) (l : list string) :
  let sts := map (report_of f) l in
  (count_status "exists" sts + count_status "empty" sts + count_status "missing" sts
   = Py.len l * 11)%Z.
Proof.
  unfold count_status, Py.len. induction l as [|k l IH].
  - reflexivity.
  - cbn [map Py.sum List.length]. rewrite Nat2Z.inj_succ.
    pose proof (report_of_counts f k) as Hk. cbv zeta in Hk, IH. lia.
Qed.

Lemma completion_of_run (e t : Z) (w : World) :
  completion_of e t w =
  Return
    (if (0 <? t)%Z
     then Py.Float
            (SFmul Py.prec Py.emax
               (SFdiv Py.prec Py.emax (Py.float_of_int e) (Py.float_of_int t))
               (Py.float_of_int 100))
     else Py.Int 0)
    w.
Proof.
  unfold completion_of.
  destruct (Z.ltb_spec 0 t) as [Hpos|Hle]; [|reflexivity].
  unfold bind, Py.truediv.
  destruct (Z.eqb_spec t 0) as [->|_]; [lia|]. reflexivity.
Qed.

(** C3 (the counts partition the total).  For the reports the loop of
    [main] collects over a platform registry, the summary satisfies
    [existing_files + empty_files + missing_files = total_files], where
    [total_files] is the number of platforms times the number of expected
    paths. *)
Theorem summary_counts_partition_total
  (PLATFORMS : Dict.t PlatformInfo) (w w1 w2 : World)
  (all_statuses : list Status) (s : Summary) :
  scan_platforms PLATFORMS w = Return all_statuses w1 ->
  summarize PLATFORMS all_statuses w1 = Return s w2 ->
  (existing_files s + empty_files s + missing_files s = total_files s)%Z
  /\ total_files s = (Py.len PLATFORMS * Py.len expected_files)%Z
  /\ Py.len all_statuses = Py.len PLATFORMS.
Proof.
  intros Hscan Hsum.
  apply scan_loop_returns in Hscan as (_ & -> & _). rewrite app_nil_l in *.
  unfold summarize, bind in Hsum. rewrite completion_of_run in Hsum.
  unfold ret in Hsum. injection Hsum as <- _.
  cbn [existing_files empty_files missing_files total_files].
  pose proof (count_status_reports (fs w) (Py.sorted (Dict.keys PLATFORMS))) as H.
  cbv zeta in H. rewrite H. unfold Py.len, Dict.keys.
  rewrite sorted_length, !length_map.
  split; [reflexivity|split; [reflexivity|]].
  now rewrite sorted_length, length_map.
Qed.

(** C5 (completion percentage).  [summarize] never raises; its completion
    value is [existing_files / total_files * 100] in floating point when
    [total_files > 0] and the integer [0] otherwise, and with an empty
    registry [total_files = 0] and the completion is [0]. *)
Theorem completion_guarded_against_zero_total
  (PLATFORMS : Dict.t PlatformInfo) (all_statuses : list Status) (w : World) :
  exists s,
    summarize PLATFORMS all_statuses w = Return s w
    /\ existing_files s = count_status "exists" all_statuses
    /\ total_files s = (Py.len PLATFORMS * 11)%Z
    /\ completion s =
       (if (0 <? total_files s)%Z
        then Py.Float
               (SFmul Py.prec Py.emax
                  (SFdiv Py.prec Py.emax
                     (Py.float_of_int (existing_files s))
                     (Py.float_of_int (total_files s)))
                  (Py.float_of_int 100))
        else Py.Int 0)
    /\ (total_files s = 0%Z -> completion s = Py.Int 0)
    /\ (PLATFORMS = [] -> total_files s = 0%Z).
Proof.
  unfold summarize, bind. rewrite completion_of_run. unfold ret.
  eexists. split; [reflexivity|].
  cbn [existing_files total_files completion].
  split; [reflexivity|split; [reflexivity|split; [reflexivity|split]]].
  - intros ->. reflexivity.
  - intros ->. reflexivity.
Qed.

(** *** Failures of [main] *)

Lemma bind_Raise {A B : Type} (m : M A) (k : A -> M B) (w w' : World) (x : exn) :
  bind m k w = Raise x w' ->
  m w = Raise x w' \/ exists a w1, m w = Return a w1 /\ k a w1 = Raise x w'.
Proof.
  unfold bind. destruct (m w) as [a w1|y w1].
  - intros H. right. exists a, w1. auto.
  - intros H. left. injection H as -> ->. reflexivity.
Qed.

Lemma never_raises_bind {A B : Type} (m : M A) (k : A -> M B) :
  never_raises m -> (forall a, never_raises (k a)) -> never_raises (bind m k).
Proof.
  intros Hm Hk w. destruct (Hm w) as (a & w1 & Hrun).
  destruct (Hk a w1) as (b & w2 & Hrun'). exists b, w2.
  unfold bind. now rewrite Hrun.
Qed.

Lemma never_raises_print (s : string) : never_raises (print s).
Proof. intros w. eexists _, _. reflexivity. Qed.

Lemma never_raises_ret {A : Type} (a : A) : never_raises (ret a).
Proof. intros w. eexists _, _. reflexivity. Qed.

Lemma never_raises_print_missing (l : list string) : never_raises (print_missing l).
Proof. intros w. eexists _, _. apply print_missing_run. Qed.

Lemma never_raises_summarize (PLATFORMS : Dict.t PlatformInfo) (sts : list Status) :
  never_raises (summarize PLATFORMS sts).
Proof.
  intros w. unfold summarize, bind. rewrite completion_of_run.
  eexists _, _. reflexivity.
Qed.

Lemma never_raises_print_summary (PLATFORMS : Dict.t PlatformInfo) (sts : list Status) :
  never_raises (print_summary PLATFORMS sts).
Proof.
  unfold print_summary.
  repeat first [ apply never_raises_print
               | apply never_raises_summarize
               | apply never_raises_bind; [|intros ?] ].
Qed.

Lemma never_raises_Raise {A : Type} (m : M A) (w w' : World) (x : exn) :
  never_raises m -> m w = Raise x w' -> False.
Proof.
  intros Hm H. destruct (Hm w) as (a & w1 & Hrun). congruence.
Qed.

Lemma getitem_of_key {V : Type} (d : Dict.t V) (k : string) :
  In k (Dict.keys d) -> exists v, Dict.getitem d k = Some v.
Proof.
  induction d as [|[k' v'] d IH]; simpl; [tauto|].
  destruct (String.eqb_spec k' k) as [->|Hne].
  - intros _. exists v'. reflexivity.
  - intros [H|H]; [contradiction|auto].
Qed.

Lemma insert_sorted_In (x y : string) (l : list string) :
  In y (Py.insert_sorted x l) -> y = x \/ In y l.
Proof.
  induction l as [|z l IH]; simpl.
  - intros [<-|[]]. now left.
  - destruct (String.leb x z); simpl.
    + intros [<-|[<-|H]]; auto.
    + intros [<-|H]; auto. destruct (IH H); auto.
Qed.

Lemma sorted_In (y : string) (l : list string) :
  In y (Py.sorted l) -> In y l.
Proof.
  induction l as [|x l IH]; simpl; [tauto|].
  intros H. apply insert_sorted_In in H as [->|H]; auto.
Qed.

Lemma report_platform_raises (PLATFORMS : Dict.t PlatformInfo)
  (acc : list Status) (platform_key : string) (w w' : World) (x : exn) :
  In platform_key (Dict.keys PLATFORMS) ->
  report_platform PLATFORMS acc platform_key w = Raise x w' ->
  first_failure (fs w) (queried_paths platform_key) = Some x.
Proof.
  intros Hkey H. unfold report_platform in H.
  apply bind_Raise in H as [H|(status & w1 & Hc & H)].
  - rewrite check_platform_structure_run in H.
    destruct (first_failure (fs w) (queried_paths platform_key));
      [|discriminate]. now injection H as -> _.
  - exfalso. destruct (getitem_of_key PLATFORMS platform_key Hkey) as (info & Hinfo).
    rewrite Hinfo in H. revert H. apply never_raises_Raise.
    repeat first [ apply never_raises_print
                 | apply never_raises_print_missing
                 | apply never_raises_ret
                 | apply never_raises_bind; [|intros ?] ].
Qed.

Lemma scan_loop_raises (PLATFORMS : Dict.t PlatformInfo) (l : list string) :
  forall (acc : list Status) (w w' : World) (x : exn),
    (forall k, In k l -> In k (Dict.keys PLATFORMS)) ->
    for_each l (report_platform PLATFORMS) acc w = Raise x w' ->
    exists k, In k l /\ first_failure (fs w) (queried_paths k) = Some x.
Proof.
  induction l as [|k l IH]; intros acc w w' x Hkeys H; simpl in H.
  - discriminate.
  - apply bind_Raise in H as [H|(acc' & w1 & Hk & H)].
    + exists k. split; [now left|].
      apply (report_platform_raises PLATFORMS acc k w w'); [|exact H].
      apply Hkeys. now left.
    + apply report_platform_returns in Hk as (Hfs & _ & _).
      apply IH in H as (k' & Hin & Hf).
      * exists k'. rewrite <- Hfs. split; [now right|exact Hf].
      * intros k' Hk'. apply Hkeys. now right.
Qed.

Lemma main_over_raises (PLATFORMS : Dict.t PlatformInfo) (w w' : World) (x : exn) :
  main_over PLATFORMS w = Raise x w' ->
  exists k, In k (Dict.keys PLATFORMS)
            /\ first_failure (fs w) (queried_paths k) = Some x.
Proof.
  intros H. unfold main_over in H.
  do 3 (apply bind_Raise in H; destruct H as [H|([] & ? & Hp & H)];
        [discriminate H|rewrite print_run in Hp; injection Hp as <-]).
  apply bind_Raise in H as [H|(sts & w1 & _ & H)].
  - apply scan_loop_raises in H as (k & Hin & Hf).
    + exists k. split; [apply sorted_In; exact Hin|exact Hf].
    + intros k. apply sorted_In.
  - exfalso. apply bind_Raise in H as [H|(? & ? & _ & H)]; [|discriminate H].
    revert H. apply never_raises_Raise, never_raises_print_summary.
Qed.

(** C9, as the code has it.  The checker installs no handler and has no
    failure type of its own.  [check_platform_structure] fails only with
    the [OSError] of a [stat] that [Path.exists] does not ignore, raised
    unchanged and leaving the world as it was; such an error at any queried
    path makes the call fail instead of returning a report; an error that
    [Path.exists] ignores is reported as ["missing"]; and [main] too fails
    only with such an error at a path queried for one of its platforms. *)
Theorem failures_are_unignored_stat_errors (platform_key : string) (w : World) :
  (forall x w', check_platform_structure platform_key w = Raise x w' ->
     w' = w /\
     exists q e, In q (queried_paths platform_key) /\ fs w q = Failed e
                 /\ ignore_error e = false /\ x = OSError e)
  /\ (forall q e, In q (queried_paths platform_key) -> fs w q = Failed e ->
        ignore_error e = false ->
        exists e', check_platform_structure platform_key w = Raise (OSError e') w)
  /\ (forall p e r w', In p expected_files ->
        fs w (joinpath (platform_dir platform_key) p) = Failed e ->
        ignore_error e = true ->
        check_platform_structure platform_key w = Return r w' ->
        Dict.getitem (files r) p = Some "missing")
  /\ (forall PLATFORMS x w', main_over PLATFORMS w = Raise x w' ->
        exists k q e, In k (Dict.keys PLATFORMS) /\ In q (queried_paths k)
                      /\ fs w q = Failed e /\ ignore_error e = false
                      /\ x = OSError e).
Proof.
  split; [|split; [|split]].
  - intros x w'. rewrite check_platform_structure_run.
    destruct (first_failure (fs w) (queried_paths platform_key)) as [y|] eqn:E;
      [|discriminate].
    intros H. injection H as <- <-. split; [reflexivity|].
    apply first_failure_Some in E as (q & Hq & Hf).
    apply failure_of_Some in Hf as (e & He & Hi & ->).
    exists q, e. auto.
  - intros q e Hq He Hi. rewrite check_platform_structure_run.
    destruct (first_failure (fs w) (queried_paths platform_key)) as [y|] eqn:E.
    + apply first_failure_Some in E as (q' & _ & Hf).
      apply failure_of_Some in Hf as (e' & _ & _ & ->).
      exists e'. reflexivity.
    + exfalso. rewrite first_failure_None in E. specialize (E q Hq).
      rewrite He in E. simpl in E. rewrite Hi in E. discriminate.
  - intros p e r w' Hp He Hi Hrun.
    apply check_platform_structure_returns in Hrun as (_ & -> & _).
    rewrite report_of_getitem by exact Hp. now rewrite He.
  - intros PLATFORMS x w' Hrun.
    apply main_over_raises in Hrun as (k & Hk & Hf).
    apply first_failure_Some in Hf as (q & Hq & Hf).
    apply failure_of_Some in Hf as (e & He & Hi & ->).
    exists k, q, e. auto.
Qed.

End Checker.

(* ================================================================= *)
(** * [check_status.py] as the calls it makes *)

(** In the embedding above no operation of the monad changes the
    filesystem.  Here the script is embedded once more, as the tree of the
    calls it makes on its environment, in a language that also has the
    calls by which the generator scripts of the repository change the disk
    ([Path.mkdir], writing a file, [Path.chmod]) and in which a dictionary
    is an object on a heap that an assignment [d[k] = v] updates in place.
    What the script may and may not do to the disk and to the reports it
    has built is then a property of its tree. *)

Module Calls.

(** A reference to a dictionary object. *)
Definition ref : Type := nat.

(** A script as a tree: it is done, or raises, or makes a call and goes on
    as the answer tells.  The calls are [p.exists()], [p.stat()],
    [print(line)]; [p.mkdir(parents=True, exist_ok=True)], writing
    [content] to [p] and [p.chmod(mode)], which [mega_generator.py] makes;
    and on dictionaries [{}], [d[key] = v] and a read of [d]. *)
Inductive Prog (A : Type) : Type :=
| Done (a : A)
| Throw (x : exn)
| CallExists (p : string) (k : bool -> Prog A)
| CallStat (p : string) (k : stat_result -> Prog A)
| CallPrint (line : string) (k : Prog A)
| CallMkdir (p : string) (k : Prog A)
| CallWrite (p content : string) (k : Prog A)
| CallChmod (p : string) (mode : Z) (k : Prog A)
| DictNew (k : ref -> Prog A)
| DictSet (d : ref) (key v : string) (k : Prog A)
| DictRead (d : ref) (k : Dict.t string -> Prog A).

Arguments Done {A} a.
Arguments Throw {A} x.
Arguments CallExists {A} p k.
Arguments CallStat {A} p k.
Arguments CallPrint {A} line k.
Arguments CallMkdir {A} p k.
Arguments CallWrite {A} p content k.
Arguments CallChmod {A} p mode k.
Arguments DictNew {A} k.
Arguments DictSet {A} d key v k.
Arguments DictRead {A} d k.

Fixpoint pbind {A B : Type} (p : Prog A) (f : A -> Prog B) : Prog B :=
  match p with
  | Done a => f a
  | Throw x => Throw x
  | CallExists q k => CallExists q (fun b => pbind (k b) f)
  | CallStat q k => CallStat q (fun st => pbind (k st) f)
  | CallPrint line k => CallPrint line (pbind k f)
  | CallMkdir q k => CallMkdir q (pbind k f)
  | CallWrite q content k => CallWrite q content (pbind k f)
  | CallChmod q mode k => CallChmod q mode (pbind k f)
  | DictNew k => DictNew (fun d => pbind (k d) f)
  | DictSet d key v k => DictSet d key v (pbind k f)
  | DictRead d k => DictRead d (fun o => pbind (k o) f)
  end.

Declare Scope calls_scope.
Delimit Scope calls_scope with calls.
Notation "x <- m ;; k" := (pbind m (fun x => k))
  (at level 61, m at next level, right associativity) : calls_scope.
Notation "m ;; k" := (pbind m (fun _ => k))
  (at level 61, right associativity) : calls_scope.
Local Open Scope calls_scope.

Fixpoint pfor_each {A S : Type} (xs : list A) (body : S -> A -> Prog S) (s : S)
  : Prog S :=
  match xs with
  | [] => Done s
  | x :: xs' => s' <- body s x ;; pfor_each xs' body s'
  end.

(** [p.exists()], [p.stat()], [print(line)]. *)
Definition call_exists (p : string) : Prog bool := CallExists p (fun b => Done b).
Definition call_stat (p : string) : Prog stat_result := CallStat p (fun st => Done st).
Definition call_print (line : string) : Prog unit := CallPrint line (Done tt).

(** [{}], [d[key] = v], and a read of [d] ([d.values()], [d.items()]). *)
Definition new_dict : Prog ref := DictNew (fun d => Done d).
Definition set_item (d : ref) (key v : string) : Prog unit := DictSet d key v (Done tt).
Definition read_dict (d : ref) : Prog (Dict.t string) := DictRead d (fun o => Done o).

Definition lift_opt {A : Type} (x : exn) (o : option A) : Prog A :=
  match o with
  | Some a => Done a
  | None => Throw x
  end.

(** The dictionary [check_platform_structure] returns: its ["files"] entry
    is a dictionary object of its own. *)
Record StatusObj : Type := {
  status_platform : string;
  status_directory_exists : bool;
  status_files : ref
}.

(** The body of the loop over [expected_files]. *)
Definition check_file (platform_dir : string) (status : StatusObj) (file_path : string)
  : Prog unit :=
  let full_path := joinpath platform_dir file_path in
  e <- call_exists full_path ;;
  if e then
    st <- call_stat full_path ;;
    let size := st_size st in
    set_item (status_files status) file_path
      (if (0 <? size)%N then "exists" else "empty")
  else
    set_item (status_files status) file_path "missing".

Definition check_platform_structure (platform_key : string) : Prog StatusObj :=
  let platform_dir := platform_dir platform_key in
  d <- call_exists platform_dir ;;
  files <- new_dict ;;
  let status :=
    {| status_platform := platform_key;
       status_directory_exists := d;
       status_files := files |} in
  pfor_each expected_files (fun (_ : unit) => check_file platform_dir status) tt ;;
  Done status.

(** The "Show missing files" block of [main]. *)
Definition print_missing (missing_files : list string) : Prog unit :=
  match missing_files with
  | [] => Done tt
  | _ :: _ =>
      call_print "  Missing files:" ;;
      pfor_each (firstn 5 missing_files)
        (fun (_ : unit) f => call_print ("    - " ++ f)) tt ;;
      if (5 <? Py.len missing_files)%Z
      then call_print ("    ... and " ++ Py.str_int (Py.len missing_files - 5) ++ " more")
      else Done tt
  end.

(** What [main] prints for one platform once it has its [status]. *)
Definition render_platform (PLATFORMS : Dict.t PlatformInfo) (platform_key : string)
  (status : StatusObj) : Prog unit :=
  info <- lift_opt (KeyError platform_key) (Dict.getitem PLATFORMS platform_key) ;;
  let platform_name := name info in
  call_print (Py.nl ++ platform_name ++ " (" ++ platform_key ++ ")") ;;
  call_print (Py.str_mul "-" 80) ;;
  files <- read_dict (status_files status) ;;
  let exists_count := Py.count_eq "exists" (Dict.values files) in
  files <- read_dict (status_files status) ;;
  let empty_count := Py.count_eq "empty" (Dict.values files) in
  files <- read_dict (status_files status) ;;
  let missing_count := Py.count_eq "missing" (Dict.values files) in
  call_print ("  Exists:  " ++ Py.str_int exists_count ++ " | Empty:  "
              ++ Py.str_int empty_count ++ " | Missing: " ++ Py.str_int missing_count) ;;
  files <- read_dict (status_files status) ;;
  let missing_files := missing_of (Dict.items files) in
  print_missing missing_files.

(** The body of the loop of [main] over the sorted platform keys. *)
Definition report_platform (PLATFORMS : Dict.t PlatformInfo)
  (all_statuses : list StatusObj) (platform_key : string) : Prog (list StatusObj) :=
  status <- check_platform_structure platform_key ;;
  let all_statuses := (all_statuses ++ [status])%list in
  render_platform PLATFORMS platform_key status ;;
  Done all_statuses.

(** [sum(len([f for f, s in status["files"].items() if s == v])
         for status in all_statuses)]. *)
Fixpoint count_status (v : string) (all_statuses : list StatusObj) : Prog Z :=
  match all_statuses with
  | [] => Done 0%Z
  | status :: rest =>
      files <- read_dict (status_files status) ;;
      n <- count_status v rest ;;
      Done (Py.count_eq v (Dict.values files) + n)%Z
  end.

Definition completion_of (existing_files total_files : Z) : Prog Py.num :=
  if (0 <? total_files)%Z then
    q <- lift_opt ZeroDivisionError (Py.truediv existing_files total_files) ;;
    Done (Py.Float (Py.float_mul_int q 100))
  else Done (Py.Int 0).

Definition summarize (PLATFORMS : Dict.t PlatformInfo) (all_statuses : list StatusObj)
  : Prog Summary :=
  let total_files := (Py.len PLATFORMS * 11)%Z in
  existing_files <- count_status "exists" all_statuses ;;
  empty_files <- count_status "empty" all_statuses ;;
  missing_files <- count_status "missing" all_statuses ;;
  completion <- completion_of existing_files total_files ;;
  Done {| total_files := total_files;
          existing_files := existing_files;
          empty_files := empty_files;
          missing_files := missing_files;
          completion := completion |}.

Definition scan_platforms (PLATFORMS : Dict.t PlatformInfo) : Prog (list StatusObj) :=
  pfor_each (Py.sorted (Dict.keys PLATFORMS)) (report_platform PLATFORMS) [].

(** The summary block of [main]. *)
Definition print_summary (PLATFORMS : Dict.t PlatformInfo)
  (all_statuses : list StatusObj) : Prog unit :=
  call_print (Py.nl ++ Py.str_mul "=" 80) ;;
  call_print "Summary" ;;
  call_print (Py.str_mul "=" 80) ;;
  s <- summarize PLATFORMS all_statuses ;;
  call_print ("Total Expected Files:  " ++ Py.str_int (total_files s)) ;;
  call_print ("Existing with Content: " ++ Py.str_int (existing_files s)) ;;
  call_print ("Empty Files:           " ++ Py.str_int (empty_files s)) ;;
  call_print ("Missing Files:         " ++ Py.str_int (missing_files s)) ;;
  call_print (Py.nl ++ "Completion: " ++ Py.format_1f (completion s) ++ "%").

Definition main_over (PLATFORMS : Dict.t PlatformInfo) : Prog (list StatusObj) :=
  call_print (Py.str_mul "=" 80) ;;
  call_print "CI/CD Platform Content Status Report" ;;
  call_print (Py.str_mul "=" 80) ;;
  all_statuses <- scan_platforms PLATFORMS ;;
  print_summary PLATFORMS all_statuses ;;
  Done all_statuses.

Definition main : Prog (list StatusObj) := main_over PLATFORMS.

(** *** The calls of a program *)

Inductive call_kind : Type :=
| Query      (* Path.exists, Path.stat *)
| Output     (* print *)
| Change     (* Path.mkdir, writing a file, Path.chmod *)
| NewDict    (* a new dictionary *)
| SetItem    (* d[key] = v *)
| ReadDict.  (* d.values(), d.items() *)

(** Every call the program can make, whatever its calls answer, is of an
    allowed kind. *)
Fixpoint calls_within {A : Type} (allowed : call_kind -> bool) (p : Prog A) : Prop :=
  match p with
  | Done _ | Throw _ => True
  | CallExists _ k => allowed Query = true /\ forall b, calls_within allowed (k b)
  | CallStat _ k => allowed Query = true /\ forall st, calls_within allowed (k st)
  | CallPrint _ k => allowed Output = true /\ calls_within allowed k
  | CallMkdir _ k | CallWrite _ _ k | CallChmod _ _ k =>
      allowed Change = true /\ calls_within allowed k
  | DictNew k => allowed NewDict = true /\ forall d, calls_within allowed (k d)
  | DictSet _ _ _ k => allowed SetItem = true /\ calls_within allowed k
  | DictRead _ k => allowed ReadDict = true /\ forall o, calls_within allowed (k o)
  end.

(** Queries of the disk, and a dictionary built and filled. *)
Definition querying (c : call_kind) : bool :=
  match c with
  | Query | NewDict | SetItem => true
  | Output | Change | ReadDict => false
  end.

(** Printing, and reading dictionaries. *)
Definition rendering (c : call_kind) : bool :=
  match c with
  | Output | ReadDict => true
  | Query | Change | NewDict | SetItem => false
  end.

(** Everything but a change of the disk. *)
Definition reporting (c : call_kind) : bool :=
  match c with
  | Change => false
  | Query | Output | NewDict | SetItem | ReadDict => true
  end.

End Calls.

(** ** Running a tree of calls *)

(** The machine a tree runs on: the world, and the heap of dictionary
    objects, a reference being an index into it. *)
Record Machine : Type := {
  world : World;
  heap : list (Dict.t string)
}.

Inductive Result (A : Type) : Type :=
| Returned (a : A) (m : Machine)
| Raised (x : exn) (m : Machine).

Arguments Returned {A} a m.
Arguments Raised {A} x m.

Definition machine_after {A : Type} (r : Result A) : Machine :=
  match r with
  | Returned _ m => m
  | Raised _ m => m
  end.

(** The object behind a reference.  A script holds references to objects
    it has made only, so the default is never what it reads. *)
Definition heap_get (h : list (Dict.t string)) (d : Calls.ref) : Dict.t string :=
  nth d h [].

Fixpoint heap_set (h : list (Dict.t string)) (d : Calls.ref) (o : Dict.t string)
  : list (Dict.t string) :=
  match h, d with
  | [], _ => []
  | _ :: h', O => o :: h'
  | o' :: h', S d' => o' :: heap_set h' d' o
  end.

(** The report a status object stands for on a heap. *)
Definition view (h : list (Dict.t string)) (s : Calls.StatusObj) : Status :=
  {| platform := Calls.status_platform s;
     directory_exists := Calls.status_directory_exists s;
     files := heap_get h (Calls.status_files s) |}.

(** A call of the library on the world of the machine. *)
Definition os_call {A B : Type} (c : M A) (k : A -> Machine -> Result B)
  (m : Machine) : Result B :=
  match c (world m) with
  | Return a w => k a {| world := w; heap := heap m |}
  | Raise x w => Raised x {| world := w; heap := heap m |}
  end.

(** A computation of the monad above, run on the world of the machine. *)
Definition lifted {A : Type} (c : M A) (m : Machine) : Result A :=
  os_call c Returned m.

(** What a run of the tree and a run in the monad have in common: the
    exception or the result, the world, and a heap that has only grown. *)
Definition agrees {A B : Type} (R : list (Dict.t string) -> A -> B -> Prop)
  (h0 : list (Dict.t string)) (r : Result A) (o : outcome B) : Prop :=
  match r, o with
  | Returned a m, Return b w =>
      world m = w /\ (exists h, heap m = (h0 ++ h)%list) /\ R (heap m) a b
  | Raised x m, Raise y w =>
      x = y /\ world m = w /\ exists h, heap m = (h0 ++ h)%list
  | _, _ => False
  end.

(** A status object and the report it stands for. *)
Definition stands_for (h : list (Dict.t string)) (s : Calls.StatusObj) (r : Status)
  : Prop :=
  view h s = r /\ (Calls.status_files s < List.length h)%nat.


(** ** The calls of the checker *)

Lemma calls_within_weaken {A : Type} (allowed allowed' : Calls.call_kind -> bool)
  (p : Calls.Prog A) :
  (forall c, allowed c = true -> allowed' c = true) ->
  Calls.calls_within allowed p -> Calls.calls_within allowed' p.
Proof.
  intros Hsub. induction p; simpl; try tauto;
    intros [Hc Hk]; (split; [apply Hsub; exact Hc|]); auto.
Qed.

Lemma calls_within_pbind {A B : Type} (allowed : Calls.call_kind -> bool)
  (p : Calls.Prog A) (f : A -> Calls.Prog B) :
  Calls.calls_within allowed p ->
  (forall a, Calls.calls_within allowed (f a)) ->
  Calls.calls_within allowed (Calls.pbind p f).
Proof.
  intros Hp Hf. induction p; simpl in *; try tauto; auto;
    destruct Hp as [Hc Hk]; (split; [exact Hc|]); auto.
Qed.

Lemma calls_within_pfor_each {A S : Type} (allowed : Calls.call_kind -> bool)
  (body : S -> A -> Calls.Prog S) (l : list A) :
  (forall s x, Calls.calls_within allowed (body s x)) ->
  forall s, Calls.calls_within allowed (Calls.pfor_each l body s).
Proof.
  intros Hbody. induction l as [|x l IH]; intros s; simpl; [exact I|].
  apply calls_within_pbind; auto.
Qed.

Lemma querying_reporting (c : Calls.call_kind) :
  Calls.querying c = true -> Calls.reporting c = true.
Proof. destruct c; simpl; congruence. Qed.

Lemma rendering_reporting (c : Calls.call_kind) :
  Calls.rendering c = true -> Calls.reporting c = true.
Proof. destruct c; simpl; congruence. Qed.

Lemma check_file_calls (dir : string) (s : Calls.StatusObj) (p : string) :
  Calls.calls_within Calls.querying (Calls.check_file dir s p).
Proof.
  unfold Calls.check_file. simpl. split; [reflexivity|].
  intros [|]; simpl; [|tauto]. split; [reflexivity|]. intros st. simpl. tauto.
Qed.

Lemma check_platform_structure_calls (platform_key : string) :
  Calls.calls_within Calls.querying (Calls.check_platform_structure platform_key).
Proof.
  unfold Calls.check_platform_structure. cbv zeta.
  apply calls_within_pbind; [simpl; split; [reflexivity|intros; exact I]|intros d].
  apply calls_within_pbind; [simpl; split; [reflexivity|intros; exact I]|intros files].
  apply calls_within_pbind; [|intros; exact I].
  apply calls_within_pfor_each. intros _ p. apply check_file_calls.
Qed.

Lemma print_missing_calls (l : list string) :
  Calls.calls_within Calls.rendering (Calls.print_missing l).
Proof.
  destruct l as [|f l]; [exact I|]. unfold Calls.print_missing.
  apply calls_within_pbind; [simpl; tauto|intros _].
  apply calls_within_pbind.
  - apply calls_within_pfor_each. intros _ x. simpl. tauto.
  - intros _. destruct (5 <? Py.len (f :: l))%Z; simpl; tauto.
Qed.

Lemma render_platform_calls (PLATFORMS : Dict.t PlatformInfo) (platform_key : string)
  (status : Calls.StatusObj) :
  Calls.calls_within Calls.rendering
    (Calls.render_platform PLATFORMS platform_key status).
Proof.
  unfold Calls.render_platform.
  destruct (Dict.getitem PLATFORMS platform_key) as [info|]; [|exact I].
  cbn [Calls.lift_opt Calls.pbind]. cbv zeta.
  repeat first [ apply print_missing_calls
               | apply calls_within_pbind; [simpl; tauto|intros ?] ].
Qed.

Lemma report_platform_calls (PLATFORMS : Dict.t PlatformInfo)
  (acc : list Calls.StatusObj) (platform_key : string) :
  Calls.calls_within Calls.reporting
    (Calls.report_platform PLATFORMS acc platform_key).
Proof.
  unfold Calls.report_platform. apply calls_within_pbind.
  - apply (calls_within_weaken Calls.querying); [exact querying_reporting|].
    apply check_platform_structure_calls.
  - intros status. apply calls_within_pbind; [|intros; exact I].
    apply (calls_within_weaken Calls.rendering); [exact rendering_reporting|].
    apply render_platform_calls.
Qed.

Lemma count_status_calls (v : string) (sts : list Calls.StatusObj) :
  Calls.calls_within Calls.rendering (Calls.count_status v sts).
Proof.
  induction sts as [|s sts IH]; [exact I|]. cbn [Calls.count_status].
  apply calls_within_pbind; [simpl; tauto|intros files].
  apply calls_within_pbind; [exact IH|intros; exact I].
Qed.

Lemma print_summary_calls (PLATFORMS : Dict.t PlatformInfo)
  (sts : list Calls.StatusObj) :
  Calls.calls_within Calls.rendering (Calls.print_summary PLATFORMS sts).
Proof.
  unfold Calls.print_summary, Calls.summarize, Calls.completion_of. cbv zeta.
  repeat first [ apply count_status_calls
               | apply calls_within_pbind; [|intros ?] ];
    try (simpl; tauto).
  destruct (0 <? _)%Z; [|exact I].
  destruct (Py.truediv _ _); exact I.
Qed.

Lemma main_over_calls (PLATFORMS : Dict.t PlatformInfo) :
  Calls.calls_within Calls.reporting (Calls.main_over PLATFORMS).
Proof.
  unfold Calls.main_over, Calls.scan_platforms.
  do 3 (apply calls_within_pbind; [simpl; tauto|intros _]).
  apply calls_within_pbind.
  - apply calls_within_pfor_each. intros acc k. apply report_platform_calls.
  - intros sts. apply calls_within_pbind; [|intros; exact I].
    apply (calls_within_weaken Calls.rendering); [exact rendering_reporting|].
    apply print_summary_calls.
Qed.

Section CallSemantics.

Variable ignore_error : errno -> bool.

(** The calls that change the disk are those of the machine the script runs
    on: any computation on the world. *)
Variable mkdir_parents : string -> M unit.
Variable write_text : string -> string -> M unit.
Variable chmod : string -> Z -> M unit.

(** A run of a tree: the calls of the library act on the world, a new
    dictionary goes last on the heap, an assignment replaces the object
    behind the reference. *)
Fixpoint exec {A : Type} (p : Calls.Prog A) (m : Machine) : Result A :=
  match p with
  | Calls.Done a => Returned a m
  | Calls.Throw x => Raised x m
  | Calls.CallExists q k => os_call (Path_exists ignore_error q) (fun b => exec (k b)) m
  | Calls.CallStat q k => os_call (Path_stat q) (fun st => exec (k st)) m
  | Calls.CallPrint line k => os_call (print line) (fun _ => exec k) m
  | Calls.CallMkdir q k => os_call (mkdir_parents q) (fun _ => exec k) m
  | Calls.CallWrite q content k => os_call (write_text q content) (fun _ => exec k) m
  | Calls.CallChmod q mode k => os_call (chmod q mode) (fun _ => exec k) m
  | Calls.DictNew k =>
      exec (k (List.length (heap m)))
           {| world := world m; heap := (heap m ++ [[]])%list |}
  | Calls.DictSet d key v k =>
      exec k {| world := world m;
                heap := heap_set (heap m) d (Dict.setitem (heap_get (heap m) d) key v) |}
  | Calls.DictRead d k => exec (k (heap_get (heap m) d)) m
  end.


(** *** Running compound trees *)

Lemma exec_pbind {A B : Type} (p : Calls.Prog A) (f : A -> Calls.Prog B) :
  forall m,
    exec (Calls.pbind p f) m
    = match exec p m with
      | Returned a m' => exec (f a) m'
      | Raised x m' => Raised x m'
      end.
Proof.
  induction p as [a|x|q k IH|q k IH|line k IH|q k IH|q c k IH|q md k IH
                 |k IH|d key v k IH|d k IH];
    intros m; simpl; try reflexivity; unfold os_call;
    try match goal with
        | |- context [match ?c (world m) with _ => _ end] => destruct (c (world m))
        end; auto.
Qed.

Lemma exec_print (line : string) (m : Machine) :
  exec (Calls.call_print line) m
  = Returned tt {| world := {| fs := fs (world m);
                               stdout := (stdout (world m) ++ [line])%list |};
                   heap := heap m |}.
Proof. reflexivity. Qed.

Lemma exec_read_dict (d : Calls.ref) (m : Machine) :
  exec (Calls.read_dict d) m = Returned (heap_get (heap m) d) m.
Proof. reflexivity. Qed.

Lemma machine_eta (m : Machine) : {| world := world m; heap := heap m |} = m.
Proof. destruct m; reflexivity. Qed.

Lemma exec_for_each_print (g : string -> string) (l : list string) :
  forall m,
    exec (Calls.pfor_each l (fun (_ : unit) f => Calls.call_print (g f)) tt) m
    = Returned tt {| world := {| fs := fs (world m);
                                 stdout := (stdout (world m) ++ map g l)%list |};
                     heap := heap m |}.
Proof.
  induction l as [|f l IH]; intros m; simpl.
  - rewrite app_nil_r, world_eta, machine_eta. reflexivity.
  - unfold os_call. simpl. rewrite IH. simpl. rewrite <- app_assoc. reflexivity.
Qed.

Lemma exec_print_missing (l : list string) (m : Machine) :
  exec (Calls.print_missing l) m = lifted (print_missing l) m.
Proof.
  unfold lifted, os_call. rewrite print_missing_run.
  destruct l as [|f l].
  - simpl. rewrite app_nil_r, world_eta, machine_eta. reflexivity.
  - unfold Calls.print_missing.
    rewrite exec_pbind, exec_print, exec_pbind, exec_for_each_print.
    cbn [world heap fs stdout].
    destruct (5 <? Py.len (f :: l))%Z.
    + rewrite exec_print. cbn [world heap fs stdout].
      rewrite <- !app_assoc. reflexivity.
    + simpl exec. rewrite app_nil_r, <- app_assoc. reflexivity.
Qed.

(** *** The heap *)

Lemma heap_get_last (h : list (Dict.t string)) (o : Dict.t string) :
  heap_get (h ++ [o]) (List.length h) = o.
Proof.
  unfold heap_get. rewrite app_nth2 by lia. now rewrite Nat.sub_diag.
Qed.

Lemma heap_get_old (h h' : list (Dict.t string)) (d : Calls.ref) :
  (d < List.length h)%nat -> heap_get (h ++ h') d = heap_get h d.
Proof. intros H. unfold heap_get. now rewrite app_nth1. Qed.

Lemma heap_set_last (h : list (Dict.t string)) (o o' : Dict.t string) :
  heap_set (h ++ [o]) (List.length h) o' = (h ++ [o'])%list.
Proof. induction h as [|x h IH]; simpl; [reflexivity|now rewrite IH]. Qed.

Lemma view_old (h h' : list (Dict.t string)) (s : Calls.StatusObj) :
  (Calls.status_files s < List.length h)%nat -> view (h ++ h') s = view h s.
Proof. intros H. unfold view. now rewrite heap_get_old. Qed.

Lemma stands_for_old (h h' : list (Dict.t string)) (s : Calls.StatusObj) (r : Status) :
  stands_for h s r -> stands_for (h ++ h') s r.
Proof.
  intros [Hv Hlt]. split.
  - now rewrite view_old.
  - rewrite length_app. lia.
Qed.

(** *** What [check_platform_structure] does *)

Lemma exec_check_file (dir : string) (s : Calls.StatusObj) (p : string)
  (w : World) (h0 : list (Dict.t string)) (d : Dict.t string) :
  Calls.status_files s = List.length h0 ->
  exec (Calls.check_file dir s p) {| world := w; heap := (h0 ++ [d])%list |}
  = match failure_of ignore_error (fs w (joinpath dir p)) with
    | Some x => Raised x {| world := w; heap := (h0 ++ [d])%list |}
    | None =>
        Returned tt
          {| world := w;
             heap := (h0 ++ [Dict.setitem d p (status_of (fs w (joinpath dir p)))])%list |}
    end.
Proof.
  intros Hs. unfold Calls.check_file. simpl. unfold os_call, Path_exists. simpl.
  destruct (fs w (joinpath dir p)) as [st| |e] eqn:E; simpl.
  - unfold os_call, Path_stat. simpl. rewrite E. simpl.
    rewrite Hs, heap_get_last, heap_set_last. reflexivity.
  - rewrite Hs, heap_get_last, heap_set_last. reflexivity.
  - destruct (ignore_error e); [|reflexivity]. simpl.
    rewrite Hs, heap_get_last, heap_set_last. reflexivity.
Qed.

Lemma exec_check_loop (dir : string) (s : Calls.StatusObj) (w : World)
  (h0 : list (Dict.t string)) (l : list string) :
  forall d : Dict.t string,
    Calls.status_files s = List.length h0 ->
    NoDup l ->
    (forall p, In p l -> ~ In p (Dict.keys d)) ->
    exists d',
      exec (Calls.pfor_each l (fun (_ : unit) => Calls.check_file dir s) tt)
           {| world := w; heap := (h0 ++ [d])%list |}
      = match first_failure ignore_error (fs w) (map (joinpath dir) l) with
        | Some x => Raised x {| world := w; heap := (h0 ++ [d'])%list |}
        | None =>
            Returned tt
              {| world := w;
                 heap :=
                   (h0 ++ [(d ++ map (fun p => (p, status_of (fs w (joinpath dir p)))) l)%list])%list |}
        end.
Proof.
  induction l as [|p l IH]; intros d Hs Hnd Hfresh.
  - exists d. simpl. rewrite app_nil_r. reflexivity.
  - cbn [Calls.pfor_each map]. rewrite first_failure_cons, exec_pbind.
    rewrite exec_check_file by exact Hs.
    destruct (failure_of ignore_error (fs w (joinpath dir p))); [exists d; reflexivity|].
    inversion Hnd as [|? ? Hp Hnd']; subst.
    rewrite setitem_fresh by (apply Hfresh; now left).
    destruct (IH (d ++ [(p, status_of (fs w (joinpath dir p)))])%list Hs Hnd')
      as (d' & Hrun).
    + intros q Hq. unfold Dict.keys. rewrite map_app, in_app_iff. simpl.
      intros [Hin|[<-|[]]].
      * apply (Hfresh q); [now right|exact Hin].
      * contradiction.
    + exists d'. rewrite Hrun.
      destruct (first_failure ignore_error (fs w) (map (joinpath dir) l));
        [reflexivity|].
      rewrite <- app_assoc. reflexivity.
Qed.

(** The status object a run of [check_platform_structure] returns on a heap
    of [n] objects. *)
Definition new_status (f : string -> stat_outcome) (platform_key : string) (n : nat)
  : Calls.StatusObj :=
  {| Calls.status_platform := platform_key;
     Calls.status_directory_exists := is_found (f (platform_dir platform_key));
     Calls.status_files := n |}.

Lemma exec_check_platform_structure (platform_key : string) (m : Machine) :
  exists hx,
    exec (Calls.check_platform_structure platform_key) m
    = match first_failure ignore_error (fs (world m)) (queried_paths platform_key) with
      | Some x => Raised x {| world := world m; heap := (heap m ++ hx)%list |}
      | None =>
          Returned (new_status (fs (world m)) platform_key (List.length (heap m)))
            {| world := world m;
               heap := (heap m ++ [files (report_of (fs (world m)) platform_key)])%list |}
      end.
Proof.
  destruct m as [w h]. unfold Calls.check_platform_structure, queried_paths.
  cbv zeta. rewrite first_failure_cons. cbn [world heap].
  rewrite exec_pbind. simpl exec at 1. unfold os_call at 1. cbn [world heap].
  unfold Path_exists, failure_of at 1.
  destruct (fs w (platform_dir platform_key)) as [st| |e] eqn:E;
    [| |destruct (ignore_error e);
        [|exists []; rewrite app_nil_r; reflexivity]].
  all: rewrite exec_pbind; simpl exec at 1; cbn [world heap];
    rewrite exec_pbind;
    match goal with
    | |- context [Calls.pfor_each _ (fun _ => Calls.check_file ?dir ?s) tt] =>
        destruct (exec_check_loop dir s w h expected_files []
                    eq_refl expected_files_NoDup ltac:(simpl; tauto))
          as (d' & Hrun)
    end;
    exists [d'];
    match goal with
    | |- context [exec (Calls.pfor_each ?l ?body tt) ?mm] =>
        match type of Hrun with
        | _ = ?rhs =>
            replace (exec (Calls.pfor_each l body tt) mm) with rhs
              by (symmetry; exact Hrun)
        end
    end;
    destruct (first_failure ignore_error (fs w)
                (map (joinpath (platform_dir platform_key)) expected_files));
    try reflexivity;
    simpl exec; unfold new_status, report_of; rewrite E; reflexivity.
Qed.

Lemma check_platform_structure_agrees (platform_key : string) (m : Machine) :
  agrees stands_for (heap m)
    (exec (Calls.check_platform_structure platform_key) m)
    (check_platform_structure ignore_error platform_key (world m)).
Proof.
  destruct (exec_check_platform_structure platform_key m) as (hx & ->).
  rewrite check_platform_structure_run.
  destruct (first_failure ignore_error (fs (world m)) (queried_paths platform_key));
    simpl.
  - split; [reflexivity|split; [reflexivity|eauto]].
  - split; [reflexivity|split; [eauto|]]. split.
    + unfold view, new_status. cbn [Calls.status_files].
      rewrite heap_get_last. reflexivity.
    + cbn [new_status Calls.status_files]. rewrite length_app. simpl. lia.
Qed.

Lemma view_new_status (f : string -> stat_outcome) (platform_key : string)
  (h : list (Dict.t string)) :
  view (h ++ [files (report_of f platform_key)])
       (new_status f platform_key (List.length h))
  = report_of f platform_key.
Proof.
  unfold view, new_status. cbn [Calls.status_files]. rewrite heap_get_last.
  reflexivity.
Qed.

(** *** What [main] does *)

Lemma report_platform_cases (PLATFORMS : Dict.t PlatformInfo) (acc : list Status)
  (platform_key : string) (w : World) :
  report_platform ignore_error PLATFORMS acc platform_key w
  = match first_failure ignore_error (fs w) (queried_paths platform_key) with
    | Some x => Raise x w
    | None =>
        match Dict.getitem PLATFORMS platform_key with
        | None => Raise (KeyError platform_key) w
        | Some info =>
            Return (acc ++ [report_of (fs w) platform_key])%list
              {| fs := fs w;
                 stdout :=
                   (stdout w
                    ++ platform_block info platform_key
                         (report_of (fs w) platform_key))%list |}
        end
    end.
Proof.
  destruct (first_failure ignore_error (fs w) (queried_paths platform_key)) eqn:E.
  - unfold report_platform, bind. rewrite check_platform_structure_run, E.
    reflexivity.
  - destruct (Dict.getitem PLATFORMS platform_key) as [info|] eqn:E'.
    + apply report_platform_run; assumption.
    + unfold report_platform, bind. rewrite check_platform_structure_run, E, E'.
      reflexivity.
Qed.

Lemma exec_render_platform (PLATFORMS : Dict.t PlatformInfo) (platform_key : string)
  (status : Calls.StatusObj) (m : Machine) :
  exec (Calls.render_platform PLATFORMS platform_key status) m
  = match Dict.getitem PLATFORMS platform_key with
    | None => Raised (KeyError platform_key) m
    | Some info =>
        Returned tt
          {| world :=
               {| fs := fs (world m);
                  stdout :=
                    (stdout (world m)
                     ++ platform_block info platform_key (view (heap m) status))%list |};
             heap := heap m |}
    end.
Proof.
  unfold Calls.render_platform.
  destruct (Dict.getitem PLATFORMS platform_key) as [info|]; [|reflexivity].
  cbn [Calls.lift_opt Calls.pbind]. cbv zeta.
  rewrite exec_pbind, exec_print. rewrite exec_pbind, exec_print.
  do 3 rewrite exec_pbind, exec_read_dict.
  rewrite exec_pbind, exec_print.
  rewrite exec_pbind, exec_read_dict, exec_print_missing.
  unfold lifted, os_call. rewrite print_missing_run.
  cbn [world heap fs stdout]. unfold platform_block, view. cbn [files].
  rewrite <- !app_assoc. reflexivity.
Qed.

Lemma agrees_grow {A B : Type} (R : list (Dict.t string) -> A -> B -> Prop)
  (h0 h1 : list (Dict.t string)) (r : Result A) (o : outcome B) :
  agrees R (h0 ++ h1)%list r o -> agrees R h0 r o.
Proof.
  destruct r as [a m|x m], o as [b w|y w]; simpl; try tauto.
  - intros (Hw & (h & Hh) & HR). split; [exact Hw|split; [|exact HR]].
    exists (h1 ++ h)%list. now rewrite app_assoc.
  - intros (Hx & Hw & (h & Hh)). split; [exact Hx|split; [exact Hw|]].
    exists (h1 ++ h)%list. now rewrite app_assoc.
Qed.

Lemma all_stand_for_old (h h' : list (Dict.t string)) (l : list Calls.StatusObj)
  (rs : list Status) :
  Forall2 (stands_for h) l rs -> Forall2 (stands_for (h ++ h')) l rs.
Proof.
  induction 1; constructor; auto using stands_for_old.
Qed.

Lemma all_stand_for_view (h : list (Dict.t string)) (l : list Calls.StatusObj)
  (rs : list Status) :
  Forall2 (stands_for h) l rs -> map (view h) l = rs.
Proof.
  induction 1 as [|s r l rs [Hv _] _ IH]; simpl; [reflexivity|].
  now rewrite Hv, IH.
Qed.

Lemma report_platform_agrees (PLATFORMS : Dict.t PlatformInfo)
  (acc : list Calls.StatusObj) (accv : list Status) (platform_key : string)
  (m : Machine) :
  Forall2 (stands_for (heap m)) acc accv ->
  agrees (fun h => Forall2 (stands_for h)) (heap m)
    (exec (Calls.report_platform PLATFORMS acc platform_key) m)
    (report_platform ignore_error PLATFORMS accv platform_key (world m)).
Proof.
  intros Hacc. unfold Calls.report_platform. rewrite exec_pbind.
  destruct (exec_check_platform_structure platform_key m) as (hx & ->).
  rewrite report_platform_cases.
  destruct (first_failure ignore_error (fs (world m)) (queried_paths platform_key)).
  { simpl. split; [reflexivity|split; [reflexivity|eauto]]. }
  cbv zeta. rewrite exec_pbind, exec_render_platform. cbn [world heap].
  destruct (Dict.getitem PLATFORMS platform_key) as [info|].
  - rewrite view_new_status. simpl.
    split; [reflexivity|split; [eauto|]].
    apply Forall2_app; [apply all_stand_for_old; exact Hacc|].
    constructor; [|constructor]. split.
    + apply view_new_status.
    + cbn [new_status Calls.status_files]. rewrite length_app. simpl. lia.
  - simpl. split; [reflexivity|split; [reflexivity|eauto]].
Qed.

Lemma scan_agrees (PLATFORMS : Dict.t PlatformInfo) (l : list string) :
  forall (acc : list Calls.StatusObj) (accv : list Status) (m : Machine),
    Forall2 (stands_for (heap m)) acc accv ->
    agrees (fun h => Forall2 (stands_for h)) (heap m)
      (exec (Calls.pfor_each l (Calls.report_platform PLATFORMS) acc) m)
      (for_each l (report_platform ignore_error PLATFORMS) accv (world m)).
Proof.
  induction l as [|k l IH]; intros acc accv m Hacc.
  - simpl. split; [reflexivity|split; [|exact Hacc]].
    exists []. now rewrite app_nil_r.
  - cbn [Calls.pfor_each for_each]. rewrite exec_pbind. unfold bind.
    pose proof (report_platform_agrees PLATFORMS acc accv k m Hacc) as Hk.
    destruct (exec (Calls.report_platform PLATFORMS acc k) m) as [acc1 m1|x m1],
      (report_platform ignore_error PLATFORMS accv k (world m)) as [accv1 w1|y w1];
      simpl in Hk; try contradiction.
    + destruct Hk as (<- & (h & Hh) & Hacc1).
      apply (agrees_grow _ (heap m) h). rewrite <- Hh. apply IH. exact Hacc1.
    + exact Hk.
Qed.

Lemma exec_count_status (v : string) (sts : list Calls.StatusObj) (m : Machine) :
  exec (Calls.count_status v sts) m
  = Returned (count_status v (map (view (heap m)) sts)) m.
Proof.
  induction sts as [|s sts IH]; [reflexivity|].
  cbn [Calls.count_status]. rewrite exec_pbind, exec_read_dict, exec_pbind, IH.
  reflexivity.
Qed.

Lemma exec_completion_of (e t : Z) (m : Machine) :
  exec (Calls.completion_of e t) m = lifted (completion_of e t) m.
Proof.
  unfold lifted, os_call. rewrite completion_of_run, machine_eta.
  unfold Calls.completion_of.
  destruct (Z.ltb_spec 0 t) as [Hpos|Hle]; [|reflexivity].
  unfold Py.truediv. destruct (Z.eqb_spec t 0) as [->|_]; [lia|]. reflexivity.
Qed.

Lemma lifted_bind {A B : Type} (c : M A) (g : A -> M B) (m : Machine) :
  lifted (bind c g) m
  = match lifted c m with
    | Returned a m' => lifted (g a) m'
    | Raised x m' => Raised x m'
    end.
Proof.
  unfold lifted, os_call, bind. destruct (c (world m)) as [a w|x w]; reflexivity.
Qed.

Lemma lifted_print (line : string) (m : Machine) :
  lifted (print line) m
  = Returned tt {| world := {| fs := fs (world m);
                               stdout := (stdout (world m) ++ [line])%list |};
                   heap := heap m |}.
Proof. reflexivity. Qed.

Lemma exec_summarize (PLATFORMS : Dict.t PlatformInfo) (sts : list Calls.StatusObj)
  (m : Machine) :
  exec (Calls.summarize PLATFORMS sts) m
  = lifted (summarize PLATFORMS (map (view (heap m)) sts)) m.
Proof.
  unfold Calls.summarize, summarize. cbv zeta.
  do 3 rewrite exec_pbind, exec_count_status.
  rewrite exec_pbind, exec_completion_of, lifted_bind.
  destruct (lifted (completion_of _ _) m) as [c m'|x m'] eqn:E; [|reflexivity].
  unfold lifted, os_call in *. rewrite completion_of_run in E.
  injection E as <- <-. reflexivity.
Qed.

Lemma exec_print_summary (PLATFORMS : Dict.t PlatformInfo)
  (sts : list Calls.StatusObj) (m : Machine) :
  exec (Calls.print_summary PLATFORMS sts) m
  = lifted (print_summary PLATFORMS (map (view (heap m)) sts)) m.
Proof.
  unfold Calls.print_summary, print_summary.
  do 3 (rewrite exec_pbind, exec_print, lifted_bind, lifted_print).
  rewrite exec_pbind, exec_summarize, lifted_bind. cbn [world heap].
  destruct (lifted (summarize _ _) _) as [s m'|x m']; [|reflexivity].
  do 4 (rewrite exec_pbind, exec_print, lifted_bind, lifted_print).
  reflexivity.
Qed.

Lemma main_over_agrees (PLATFORMS : Dict.t PlatformInfo) (m : Machine) :
  agrees (fun h => Forall2 (stands_for h)) (heap m)
    (exec (Calls.main_over PLATFORMS) m)
    (main_over ignore_error PLATFORMS (world m)).
Proof.
  unfold Calls.main_over, main_over, Calls.scan_platforms, scan_platforms.
  do 3 (rewrite exec_pbind, exec_print;
        match goal with
        | |- context [bind (print ?s) ?k ?w] =>
            change (bind (print s) k w)
              with (k tt {| fs := fs w; stdout := (stdout w ++ [s])%list |})
        end; cbv beta).
  rewrite exec_pbind. unfold bind at 1.
  match goal with
  | |- context [exec (Calls.pfor_each ?l _ []) ?m3] =>
      pose proof (scan_agrees PLATFORMS l [] [] m3 (Forall2_nil _)) as Hscan;
      destruct (exec (Calls.pfor_each l (Calls.report_platform PLATFORMS) []) m3)
        as [sts m4|x m4]
  end;
    cbn [world heap] in Hscan;
    match type of Hscan with
    | agrees _ _ _ ?o => destruct o as [stsv w4|y w4]
    end; simpl in Hscan; try contradiction.
  - destruct Hscan as (<- & Hh & Hsts).
    rewrite exec_pbind, exec_print_summary. unfold lifted, os_call, bind.
    rewrite (all_stand_for_view _ _ _ Hsts).
    destruct (print_summary PLATFORMS stsv (world m4)) as [[] w5|x w5]; simpl.
    + split; [reflexivity|split; [exact Hh|exact Hsts]].
    + split; [reflexivity|split; [reflexivity|exact Hh]].
  - exact Hscan.
Qed.

(** *** What the allowed calls can do *)

Lemma Path_exists_world (q : string) (w : World) :
  world_after (Path_exists ignore_error q w) = w.
Proof.
  unfold Path_exists. destruct (fs w q) as [st| |e]; try reflexivity.
  destruct (ignore_error e); reflexivity.
Qed.

Lemma Path_stat_world (q : string) (w : World) :
  world_after (Path_stat q w) = w.
Proof. unfold Path_stat. destruct (fs w q); reflexivity. Qed.

(** A program that makes no call that changes the disk leaves the
    filesystem as it found it; if it does not print either, it leaves the
    output as well; and if it neither makes nor assigns to a dictionary, it
    leaves the heap. *)
Lemma exec_effects {A : Type} (allowed : Calls.call_kind -> bool) (p : Calls.Prog A) :
  Calls.calls_within allowed p ->
  forall m,
    (allowed Calls.Change = false ->
     fs (world (machine_after (exec p m))) = fs (world m))
    /\ (allowed Calls.Change = false -> allowed Calls.Output = false ->
        stdout (world (machine_after (exec p m))) = stdout (world m))
    /\ (allowed Calls.NewDict = false -> allowed Calls.SetItem = false ->
        heap (machine_after (exec p m)) = heap m).
Proof.
  induction p as [a|x|q k IH|q k IH|line k IH|q k IH|q c k IH|q md k IH
                 |k IH|d key v k IH|d k IH];
    simpl; intros Hp m; try (repeat split; reflexivity).
  - destruct Hp as [_ Hk]. unfold os_call.
    pose proof (Path_exists_world q (world m)) as Hw.
    destruct (Path_exists ignore_error q (world m)) as [b w|x w];
      simpl in Hw; subst w; [|simpl; tauto].
    destruct (IH b (Hk b) {| world := world m; heap := heap m |})
      as (H1 & H2 & H3). auto.
  - destruct Hp as [_ Hk]. unfold os_call.
    pose proof (Path_stat_world q (world m)) as Hw.
    destruct (Path_stat q (world m)) as [st w|x w];
      simpl in Hw; subst w; [|simpl; tauto].
    destruct (IH st (Hk st) {| world := world m; heap := heap m |})
      as (H1 & H2 & H3). auto.
  - destruct Hp as [Ho Hk]. unfold os_call. simpl.
    destruct (IH Hk {| world := {| fs := fs (world m);
                                   stdout := (stdout (world m) ++ [line])%list |};
                       heap := heap m |}) as (H1 & H2 & H3).
    split; [exact H1|split; [|exact H3]]. intros _ Hno. congruence.
  - destruct Hp as [Hc Hk]. unfold os_call.
    split; [|split]; try (intros; congruence).
    destruct (mkdir_parents q (world m)) as [u w|x w]; [|reflexivity].
    intros Hn Hs. exact (proj2 (proj2 (IH Hk _)) Hn Hs).
  - destruct Hp as [Hc Hk]. unfold os_call.
    split; [|split]; try (intros; congruence).
    destruct (write_text q c (world m)) as [u w|x w]; [|reflexivity].
    intros Hn Hs. exact (proj2 (proj2 (IH Hk _)) Hn Hs).
  - destruct Hp as [Hc Hk]. unfold os_call.
    split; [|split]; try (intros; congruence).
    destruct (chmod q md (world m)) as [u w|x w]; [|reflexivity].
    intros Hn Hs. exact (proj2 (proj2 (IH Hk _)) Hn Hs).
  - destruct Hp as [Hc Hk].
    destruct (IH _ (Hk (List.length (heap m)))
                {| world := world m; heap := (heap m ++ [[]])%list |})
      as (H1 & H2 & H3).
    split; [exact H1|split; [exact H2|]]. intros; congruence.
  - destruct Hp as [Hc Hk].
    destruct (IH Hk {| world := world m;
                       heap := heap_set (heap m) d
                                 (Dict.setitem (heap_get (heap m) d) key v) |})
      as (H1 & H2 & H3).
    split; [exact H1|split; [exact H2|]]. intros; congruence.
  - destruct Hp as [Hc Hk]. exact (IH _ (Hk _) m).
Qed.

(** A computation of the monad that returns [a] and prints [text] on every
    world. *)
Definition says {A : Type} (c : M A) (a : A) (text : list string) : Prop :=
  forall w, c w = Return a {| fs := fs w; stdout := (stdout w ++ text)%list |}.

Lemma says_bind {A B : Type} (c : M A) (k : A -> M B) (a : A) (b : B)
  (t1 t2 : list string) :
  says c a t1 -> says (k a) b t2 -> says (bind c k) b (t1 ++ t2)%list.
Proof.
  intros Hc Hk w. unfold bind. rewrite Hc, Hk. cbn [fs stdout].
  now rewrite app_assoc.
Qed.

Lemma says_print (line : string) : says (print line) tt [line].
Proof. intros w. reflexivity. Qed.

Lemma says_summarize (PLATFORMS : Dict.t PlatformInfo) (sts : list Status) :
  exists s, says (summarize PLATFORMS sts) s [].
Proof.
  eexists. intros w. unfold summarize, bind. rewrite completion_of_run.
  unfold ret. rewrite app_nil_r, world_eta. reflexivity.
Qed.

Lemma print_summary_text (PLATFORMS : Dict.t PlatformInfo) (sts : list Status) :
  exists text, says (print_summary PLATFORMS sts) tt text.
Proof.
  destruct (says_summarize PLATFORMS sts) as (s & Hs).
  eexists. unfold print_summary.
  do 3 (eapply says_bind; [apply says_print|]).
  eapply says_bind; [exact Hs|].
  do 4 (eapply says_bind; [apply says_print|]).
  apply says_print.
Qed.

Lemma world_ext (w1 w2 : World) :
  fs w1 = fs w2 -> stdout w1 = stdout w2 -> w1 = w2.
Proof. destruct w1, w2. simpl. intros -> ->. reflexivity. Qed.

(** C8 (read-only and deterministic).  The script is taken as the tree of
    the calls it makes, run on a machine whose calls [mkdir], write and
    [chmod] may change the disk in any way and whose dictionaries are
    objects that an assignment changes in place.
    [check_platform_structure] makes no call but [Path.exists] and
    [Path.stat] and builds one dictionary; the rendering of a platform and
    of the summary only prints and reads dictionaries; [main] makes no call
    that changes the disk.  A program of the first kind leaves the world as
    it was, one of the second leaves the filesystem and every dictionary,
    one of the third leaves the filesystem.  A run of
    [check_platform_structure] adds its one dictionary to the heap and
    leaves the others, returns the report the embedding in the monad
    returns, and a run on any machine with the same filesystem, such as the
    one it left, returns an identical report.  The rendering of a platform,
    and of the summary, prints a text that is determined by the reports it
    is given, so that rendering them again prints the identical text.  A run
    of [main] leaves every dictionary that existed, returns the reports and
    prints the text that [main] in the monad does, and a further run on the
    same filesystem returns identical reports and prints the identical
    text. *)
Theorem checker_read_only_and_deterministic :
  (forall platform_key,
     Calls.calls_within Calls.querying (Calls.check_platform_structure platform_key))
  /\ (forall PLATFORMS platform_key status,
        Calls.calls_within Calls.rendering
          (Calls.render_platform PLATFORMS platform_key status))
  /\ (forall PLATFORMS all_statuses,
        Calls.calls_within Calls.rendering (Calls.print_summary PLATFORMS all_statuses))
  /\ (forall PLATFORMS, Calls.calls_within Calls.reporting (Calls.main_over PLATFORMS))
  /\ (forall (A : Type) (p : Calls.Prog A) (m : Machine),
        Calls.calls_within Calls.querying p ->
        world (machine_after (exec p m)) = world m)
  /\ (forall (A : Type) (p : Calls.Prog A) (m : Machine),
        Calls.calls_within Calls.rendering p ->
        fs (world (machine_after (exec p m))) = fs (world m)
        /\ heap (machine_after (exec p m)) = heap m)
  /\ (forall (A : Type) (p : Calls.Prog A) (m : Machine),
        Calls.calls_within Calls.reporting p ->
        fs (world (machine_after (exec p m))) = fs (world m))
  /\ (forall platform_key m status m',
        exec (Calls.check_platform_structure platform_key) m = Returned status m' ->
        world m' = world m
        /\ Calls.status_files status = List.length (heap m)
        /\ heap m' = (heap m ++ [files (view (heap m') status)])%list
        /\ check_platform_structure ignore_error platform_key (world m)
           = Return (view (heap m') status) (world m)
        /\ forall m2,
             fs (world m2) = fs (world m) ->
             exists status2 m2',
               exec (Calls.check_platform_structure platform_key) m2
               = Returned status2 m2'
               /\ view (heap m2') status2 = view (heap m') status
               /\ world m2' = world m2)
  /\ (forall PLATFORMS platform_key status m m1,
        exec (Calls.render_platform PLATFORMS platform_key status) m = Returned tt m1 ->
        exists text,
          m1 = {| world := {| fs := fs (world m);
                              stdout := (stdout (world m) ++ text)%list |};
                  heap := heap m |}
          /\ forall m2,
               view (heap m2) status = view (heap m) status ->
               exec (Calls.render_platform PLATFORMS platform_key status) m2
               = Returned tt
                   {| world := {| fs := fs (world m2);
                                  stdout := (stdout (world m2) ++ text)%list |};
                      heap := heap m2 |})
  /\ (forall PLATFORMS all_statuses m m1,
        exec (Calls.print_summary PLATFORMS all_statuses) m = Returned tt m1 ->
        exists text,
          m1 = {| world := {| fs := fs (world m);
                              stdout := (stdout (world m) ++ text)%list |};
                  heap := heap m |}
          /\ forall m2,
               map (view (heap m2)) all_statuses = map (view (heap m)) all_statuses ->
               exec (Calls.print_summary PLATFORMS all_statuses) m2
               = Returned tt
                   {| world := {| fs := fs (world m2);
                                  stdout := (stdout (world m2) ++ text)%list |};
                      heap := heap m2 |})
  /\ (forall PLATFORMS m all_statuses m',
        exec (Calls.main_over PLATFORMS) m = Returned all_statuses m' ->
        fs (world m') = fs (world m)
        /\ (exists news, heap m' = (heap m ++ news)%list)
        /\ Forall (fun status => (Calls.status_files status < List.length (heap m'))%nat)
                  all_statuses
        /\ main_over ignore_error PLATFORMS (world m)
           = Return (map (view (heap m')) all_statuses) (world m')
        /\ exists out,
             stdout (world m') = (stdout (world m) ++ out)%list
             /\ forall m2,
                  fs (world m2) = fs (world m) ->
                  exists all_statuses2 m2',
                    exec (Calls.main_over PLATFORMS) m2 = Returned all_statuses2 m2'
                    /\ map (view (heap m2')) all_statuses2
                       = map (view (heap m')) all_statuses
                    /\ world m2'
                       = {| fs := fs (world m2);
                            stdout := (stdout (world m2) ++ out)%list |}
                    /\ exists news, heap m2' = (heap m2 ++ news)%list).
Proof.
  split; [exact check_platform_structure_calls|].
  split; [exact render_platform_calls|].
  split; [exact print_summary_calls|].
  split; [exact main_over_calls|].
  split.
  { intros A p m Hp. destruct (exec_effects _ p Hp m) as (Hfs & Hout & _).
    apply world_ext; [apply Hfs|apply Hout]; reflexivity. }
  split.
  { intros A p m Hp. destruct (exec_effects _ p Hp m) as (Hfs & _ & Hheap).
    split; [apply Hfs|apply Hheap]; reflexivity. }
  split.
  { intros A p m Hp. destruct (exec_effects _ p Hp m) as (Hfs & _ & _).
    apply Hfs. reflexivity. }
  split.
  { intros platform_key m status m' Hrun.
    destruct (exec_check_platform_structure platform_key m) as (hx & Hcf).
    rewrite Hrun in Hcf.
    destruct (first_failure ignore_error (fs (world m)) (queried_paths platform_key))
      eqn:Hff; [discriminate|].
    assert (Hs : status
                 = new_status (fs (world m)) platform_key (List.length (heap m)))
      by congruence.
    assert (Hm : m' = {| world := world m;
                         heap := (heap m ++ [files (report_of (fs (world m))
                                                      platform_key)])%list |})
      by congruence.
    subst status m'. clear Hcf. cbn [world heap]. rewrite view_new_status.
    split; [reflexivity|]. split; [reflexivity|]. split; [reflexivity|].
    split; [rewrite check_platform_structure_run, Hff; reflexivity|].
    intros m2 Hfs.
    destruct (exec_check_platform_structure platform_key m2) as (hx2 & Hcf2).
    rewrite Hfs, Hff in Hcf2. eexists _, _. split; [exact Hcf2|].
    cbn [world heap]. split; [apply view_new_status|reflexivity]. }
  split.
  { intros PLATFORMS platform_key status m m1 Hrun.
    rewrite exec_render_platform in Hrun.
    destruct (Dict.getitem PLATFORMS platform_key) as [info|] eqn:E;
      [|discriminate].
    injection Hrun as <-. eexists. split; [reflexivity|].
    intros m2 Hv. rewrite exec_render_platform, E, Hv. reflexivity. }
  split.
  { intros PLATFORMS all_statuses m m1 Hrun.
    rewrite exec_print_summary in Hrun.
    destruct (print_summary_text PLATFORMS (map (view (heap m)) all_statuses))
      as (text & Htext).
    unfold lifted, os_call in Hrun. rewrite Htext in Hrun. injection Hrun as <-.
    exists text. split; [reflexivity|].
    intros m2 Hv. rewrite exec_print_summary, Hv. unfold lifted, os_call.
    rewrite Htext. reflexivity. }
  intros PLATFORMS m all_statuses m' Hrun.
  pose proof (main_over_agrees PLATFORMS m) as Hag. rewrite Hrun in Hag.
  destruct (main_over ignore_error PLATFORMS (world m)) as [stsv w'|y w'] eqn:HM;
    simpl in Hag; [|contradiction].
  destruct Hag as (Hw & Hh & Hsts).
  destruct (read_only_run _ _ _ _ (read_only_main_over ignore_error PLATFORMS) HM)
    as (Hfs & out & Hout & Hagain).
  split; [rewrite Hw; exact Hfs|].
  split; [exact Hh|].
  split.
  { clear - Hsts. induction Hsts as [|s r l rs [_ Hlt] _ IH]; constructor; auto. }
  split; [rewrite (all_stand_for_view _ _ _ Hsts), Hw; reflexivity|].
  exists out. split; [rewrite Hw; exact Hout|].
  intros m2 Hfs2.
  pose proof (main_over_agrees PLATFORMS m2) as Hag2.
  rewrite (Hagain (world m2) Hfs2) in Hag2.
  destruct (exec (Calls.main_over PLATFORMS) m2) as [sts2 m2'|x m2'];
    simpl in Hag2; [|contradiction].
  destruct Hag2 as (Hw2 & Hh2 & Hsts2).
  exists sts2, m2'. split; [reflexivity|].
  split; [rewrite (all_stand_for_view _ _ _ Hsts2), (all_stand_for_view _ _ _ Hsts);
          reflexivity|].
  split; [exact Hw2|exact Hh2].
Qed.

End CallSemantics.

(** ** A disk that can be written *)

(** The changing calls on a disk where they do what they say: [mkdir] makes
    a directory, writing makes a regular file of the length of the content,
    [chmod] fails on a path that has no entry. *)
Definition disk_mkdir (p : string) : M unit :=
  fun w =>
    Return tt {| fs := fun q => if String.eqb q p then a_directory else fs w q;
                 stdout := stdout w |}.

Definition disk_write (p content : string) : M unit :=
  fun w =>
    Return tt
      {| fs := fun q =>
                 if String.eqb q p
                 then Found {| st_mode := S_IFREG;
                               st_size := N.of_nat (String.length content) |}
                 else fs w q;
         stdout := stdout w |}.

Definition disk_chmod (p : string) (mode : Z) : M unit :=
  fun w =>
    match fs w p with
    | Found _ => Return tt w
    | NotFound => Raise FileNotFoundError w
    | Failed e => Raise (OSError e) w
    end.

Definition on_disk {A : Type} (p : Calls.Prog A) (m : Machine) : Result A :=
  exec ignored_errnos disk_mkdir disk_write disk_chmod p m.

(** A program that writes is not one of those the checker consists of, and
    the disk shows it: after it, [check_platform_structure] reports a file
    it reported missing before. *)
Example a_write_is_seen :
  let write_readme :=
    Calls.CallWrite "/workspaces/AI-prompt/pipeline/gocd/README.md" "# GoCD"
      (Calls.Done tt) in
  ~ Calls.calls_within Calls.reporting write_readme
  /\ (exists s m,
        on_disk (Calls.check_platform_structure "gocd")
          {| world := jenkins_world; heap := [] |} = Returned s m
        /\ Dict.getitem (files (view (heap m) s)) "README.md" = Some "missing")
  /\ (exists s m,
        on_disk (Calls.pbind write_readme
                   (fun _ => Calls.check_platform_structure "gocd"))
          {| world := jenkins_world; heap := [] |} = Returned s m
        /\ Dict.getitem (files (view (heap m) s)) "README.md" = Some "exists").
Proof.
  split; [|split].
  - simpl. intros [H _]. discriminate H.
  - eexists _, _. split; [vm_compute; reflexivity|reflexivity].
  - eexists _, _. split; [vm_compute; reflexivity|reflexivity].
Qed.


(* ================================================================= *)
(** ** The properties at concrete filesystems *)


Lemma one_entry_per_expected_path_witness :
  Dict.keys (files (report_of (fs jenkins_world) "jenkins")) = expected_files
  /\ List.length (Dict.items (files (report_of (fs jenkins_world) "jenkins")))
     = List.length expected_files
  /\ NoDup (Dict.keys (files (report_of (fs jenkins_world) "jenkins")))
  /\ Forall is_status (Dict.values (files (report_of (fs jenkins_world) "jenkins"))).
Proof.
  set (r := report_of (fs jenkins_world) "jenkins").
  apply (proj2 (one_entry_per_expected_path ignored_errnos "jenkins" jenkins_world)
           r jenkins_world).
  vm_compute; reflexivity.
Defined.

Lemma absent_paths_do_not_raise_witness :
  check_platform_structure ignored_errnos "jenkins" bare_world
  = Return {| platform := "jenkins";
              directory_exists := false;
              files := map (fun p => (p, "missing")) expected_files |}
           bare_world.
Proof.
  apply (proj2 (absent_paths_do_not_raise ignored_errnos "jenkins" bare_world)).
  - reflexivity.
  - intros p _. reflexivity.
Defined.

Lemma summary_counts_partition_total_witness :
  (count_status "exists"
     (map (report_of (fs jenkins_world)) (Py.sorted (Dict.keys PLATFORMS)))
   + count_status "empty"
       (map (report_of (fs jenkins_world)) (Py.sorted (Dict.keys PLATFORMS)))
   + count_status "missing"
       (map (report_of (fs jenkins_world)) (Py.sorted (Dict.keys PLATFORMS)))
   = 209)%Z
  /\ 209%Z = (Py.len PLATFORMS * Py.len expected_files)%Z
  /\ Py.len (map (report_of (fs jenkins_world)) (Py.sorted (Dict.keys PLATFORMS)))
     = Py.len PLATFORMS.
Proof.
  pose (all_statuses :=
          map (report_of (fs jenkins_world)) (Py.sorted (Dict.keys PLATFORMS))).
  pose (s :=
          {| total_files := 209;
             existing_files := count_status "exists" all_statuses;
             empty_files := count_status "empty" all_statuses;
             missing_files := count_status "missing" all_statuses;
             completion :=
               Py.Float (Py.float_mul_int
                           (SFdiv Py.prec Py.emax (Py.float_of_int 1)
                              (Py.float_of_int 209))
                           100) |}).
  apply (summary_counts_partition_total ignored_errnos PLATFORMS jenkins_world
           (world_after (scan_platforms ignored_errnos PLATFORMS jenkins_world))
           (world_after (scan_platforms ignored_errnos PLATFORMS jenkins_world))
           all_statuses s).
  - vm_compute; reflexivity.
  - vm_compute; reflexivity.
Defined.

Lemma missing_listing_truncates_at_five_witness :
  exists listing,
    report_platform ignored_errnos
      [("jenkins", mk_platform "Jenkins" "selfhosted" "groovy" "")] []
      "jenkins" jenkins_world
    = Return [report_of (fs jenkins_world) "jenkins"]
        {| fs := fs jenkins_world;
           stdout :=
             [ Py.nl ++ "Jenkins (jenkins)";
               Py.str_mul "-" 80;
               "  Exists:  1 | Empty:  1 | Missing: 9" ] ++ listing |}
    /\ listing
       = [ "  Missing files:";
           "    - templates/basic.yml";
           "    - templates/advanced.yml";
           "    - examples/java-spring-boot-example.md";
           "    - examples/python-fastapi-example.md";
           "    - examples/nodejs-express-example.md";
           "    ... and 4 more" ].
Proof.
  destruct (proj1 (missing_listing_truncates_at_five ignored_errnos
                     [("jenkins", mk_platform "Jenkins" "selfhosted" "groovy" "")])
                  [] "jenkins" jenkins_world
                  (report_of (fs jenkins_world) "jenkins")
                  (mk_platform "Jenkins" "selfhosted" "groovy" "")
                  ltac:(vm_compute; reflexivity) ltac:(reflexivity))
    as (listing & Hrun & _ & _ & _ & Hmany).
  exists listing. split; [exact Hrun|].
  apply Hmany. vm_compute. reflexivity.
Defined.

Lemma exists_iff_found_with_content_witness :
  Dict.getitem (files (report_of (fs readme_directory_world) "jenkins")) "README.md"
  = Some "exists".
Proof.
  apply (proj1 (exists_iff_found_with_content ignored_errnos "jenkins"
                  readme_directory_world readme_directory_world
                  (report_of (fs readme_directory_world) "jenkins") "README.md"
                  ltac:(vm_compute; reflexivity) ltac:(simpl; tauto))).
  exists {| st_mode := S_IFDIR; st_size := 4096 |}.
  split; reflexivity.
Defined.

(** C7 as the claim states it fails: a directory at an expected path is
    given status ["exists"]. *)
Lemma directory_is_classified_exists :
  exists r st,
    check_platform_structure ignored_errnos "jenkins" readme_directory_world
    = Return r readme_directory_world
    /\ fs readme_directory_world "/workspaces/AI-prompt/pipeline/jenkins/README.md"
       = Found st
    /\ st_mode st = S_IFDIR
    /\ st_mode st <> S_IFREG
    /\ Dict.getitem (files r) "README.md" = Some "exists".
Proof.
  exists (report_of (fs readme_directory_world) "jenkins"),
         {| st_mode := S_IFDIR; st_size := 4096 |}.
  split; [vm_compute; reflexivity|].
  split; [reflexivity|].
  split; [reflexivity|].
  split; [discriminate|reflexivity].
Qed.

Lemma checker_read_only_and_deterministic_witness :
  let status := new_status (fs jenkins_world) "jenkins" 0 in
  let m' := {| world := jenkins_world;
               heap := [files (report_of (fs jenkins_world) "jenkins")] |} in
  let registry := [("jenkins", mk_platform "Jenkins" "selfhosted" "groovy" "")] in
  let all_statuses := [new_status (fs jenkins_world) "jenkins" 1] in
  let m1 := {| world := world_after (main_over ignored_errnos registry jenkins_world);
               heap := [files (report_of (fs jenkins_world) "jenkins");
                        files (report_of (fs jenkins_world) "jenkins")] |} in
  on_disk (Calls.check_platform_structure "jenkins")
    {| world := jenkins_world; heap := [] |} = Returned status m'
  /\ check_platform_structure ignored_errnos "jenkins" jenkins_world
     = Return (view (heap m') status) jenkins_world
  /\ (exists status2 m2,
        on_disk (Calls.check_platform_structure "jenkins") m' = Returned status2 m2
        /\ view (heap m2) status2 = view (heap m') status
        /\ world m2 = jenkins_world)
  /\ on_disk (Calls.main_over registry) m' = Returned all_statuses m1
  /\ fs (world m1) = fs jenkins_world
  /\ main_over ignored_errnos registry jenkins_world
     = Return (map (view (heap m1)) all_statuses) (world m1).
Proof.
  intros status m' registry all_statuses m1. unfold on_disk.
  assert (Hrun : exec ignored_errnos disk_mkdir disk_write disk_chmod
                   (Calls.check_platform_structure "jenkins")
                   {| world := jenkins_world; heap := [] |} = Returned status m')
    by (vm_compute; reflexivity).
  assert (Hrun1 : exec ignored_errnos disk_mkdir disk_write disk_chmod
                    (Calls.main_over registry) m' = Returned all_statuses m1)
    by (vm_compute; reflexivity).
  pose proof (checker_read_only_and_deterministic
                ignored_errnos disk_mkdir disk_write disk_chmod)
    as (_ & _ & _ & _ & _ & _ & _ & Hcheck & _ & _ & Hmain).
  destruct (Hcheck "jenkins" {| world := jenkins_world; heap := [] |} status m' Hrun)
    as (_ & _ & _ & HM & Hagain).
  destruct (Hmain registry m' all_statuses m1 Hrun1) as (Hfs & _ & _ & HM1 & _).
  split; [exact Hrun|]. split; [exact HM|]. split.
  - destruct (Hagain m' eq_refl) as (status2 & m2 & Hrun2 & Hv2 & Hw2).
    exists status2, m2. split; [exact Hrun2|]. split; [exact Hv2|exact Hw2].
  - split; [exact Hrun1|]. split; [exact Hfs|exact HM1].
Defined.

Lemma failures_are_unignored_stat_errors_witness :
  exists e,
    check_platform_structure ignored_errnos "jenkins" docs_unreadable_world
    = Raise (OSError e) docs_unreadable_world.
Proof.
  apply (proj1 (proj2 (failures_are_unignored_stat_errors ignored_errnos "jenkins"
                         docs_unreadable_world))
           "/workspaces/AI-prompt/pipeline/jenkins/docs/getting-started.md" EACCES).
  - vm_compute. tauto.
  - reflexivity.
  - reflexivity.
Defined.

(** C9 as the claim states it fails: a [stat] that ends in an error is
    reported as ["missing"] whenever [Path.exists] ignores the error.  With
    the list of CPython 3.8 to 3.13 this happens for [ELOOP]; with
    [os.path.exists] behind [Path.exists] it happens for a permission
    error. *)
Lemma ignored_stat_error_is_reported_missing :
  (fs readme_loop_world "/workspaces/AI-prompt/pipeline/jenkins/README.md"
   = Failed ELOOP
   /\ exists r,
        check_platform_structure ignored_errnos "jenkins" readme_loop_world
        = Return r readme_loop_world
        /\ Dict.getitem (files r) "README.md" = Some "missing")
  /\ (fs docs_unreadable_world
         "/workspaces/AI-prompt/pipeline/jenkins/docs/getting-started.md"
       = Failed EACCES
       /\ exists r,
            check_platform_structure ignore_all "jenkins" docs_unreadable_world
            = Return r docs_unreadable_world
            /\ Dict.getitem (files r) "docs/getting-started.md" = Some "missing").
Proof.
  split; (split; [reflexivity|]).
  - exists (report_of (fs readme_loop_world) "jenkins").
    split; vm_compute; reflexivity.
  - exists (report_of (fs docs_unreadable_world) "jenkins").
    split; vm_compute; reflexivity.
Qed.

Lemma report_uses_fixed_root_and_paths_witness :
  platform (report_of (fs jenkins_world) "jenkins") = "jenkins"
  /\ directory_exists (report_of (fs jenkins_world) "jenkins") = true
  /\ Dict.keys (files (report_of (fs jenkins_world) "jenkins")) = expected_files
  /\ Dict.getitem (files (report_of (fs jenkins_world) "jenkins")) "README.md"
     = Some "exists"
  /\ joinpath (Path "/workspaces/AI-prompt/pipeline/jenkins") "scripts/setup.sh"
     = "/workspaces/AI-prompt/pipeline/jenkins/scripts/setup.sh".
Proof.
  set (r := report_of (fs jenkins_world) "jenkins").
  destruct (report_uses_fixed_root_and_paths ignored_errnos "jenkins"
              jenkins_world jenkins_world r ltac:(vm_compute; reflexivity))
    as (Hp & Hd & Hk & _ & Hg & Hplain & _).
  split; [exact Hp|split; [|split; [exact Hk|split]]].
  - apply Hd. exists {| st_mode := S_IFDIR; st_size := 4096 |}. reflexivity.
  - rewrite Hg by (simpl; tauto). reflexivity.
  - apply (proj2 (Hplain ltac:(split; reflexivity))). simpl; tauto.
Defined.

(** [jenkins] is a regular file of five bytes: every [stat] below it fails
    with [ENOTDIR]. *)
Definition platform_is_file_world : World :=
  world_of
    (("/workspaces/AI-prompt/pipeline/jenkins",
      Found {| st_mode := S_IFREG; st_size := 5 |})
       :: map (fun p => ("/workspaces/AI-prompt/pipeline/jenkins/" ++ p, Failed ENOTDIR))
              expected_files).

(** C10 as the claim states it fails: with a regular file at the platform
    path there is no platform directory, yet the report says
    [directory_exists]; every expected path is reported missing. *)
Lemma regular_file_counts_as_directory :
  exists r st,
    check_platform_structure ignored_errnos "jenkins" platform_is_file_world
    = Return r platform_is_file_world
    /\ fs platform_is_file_world "/workspaces/AI-prompt/pipeline/jenkins" = Found st
    /\ st_mode st = S_IFREG
    /\ st_mode st <> S_IFDIR
    /\ directory_exists r = true
    /\ Dict.values (files r) = map (fun _ => "missing") expected_files.
Proof.
  exists (report_of (fs platform_is_file_world) "jenkins"),
         {| st_mode := S_IFREG; st_size := 5 |}.
  split; [vm_compute; reflexivity|].
  split; [reflexivity|].
  split; [reflexivity|].
  split; [discriminate|].
  split; vm_compute; reflexivity.
Qed.

(** The scenario of one platform whose [README.md] alone has content, with
    [scripts/setup.sh] empty: what [main] prints last. *)
Example main_prints_completion :
  exists sts w,
    main_over ignored_errnos
      [("jenkins", mk_platform "Jenkins" "selfhosted" "groovy" "")] jenkins_world
    = Return sts w
    /\ last (stdout w) "" = Py.nl ++ "Completion: 9.1%".
Proof.
  eexists _, _. split; [vm_compute; reflexivity|reflexivity].
Qed.

(** With an empty registry [main] returns no report and prints a completion
    of zero. *)
Example main_empty_registry :
  exists w,
    main_over ignored_errnos [] bare_world = Return [] w
    /\ last (stdout w) "" = Py.nl ++ "Completion: 0.0%".
Proof.
  eexists. split; [vm_compute; reflexivity|reflexivity].
Qed.

(** On a machine without the pipeline tree [main] reports all nineteen
    platforms, everything missing. *)
Example main_bare_world :
  exists sts w,
    main ignored_errnos bare_world = Return sts w
    /\ List.length sts = 19%nat
    /\ count_status "missing" sts = 209%Z
    /\ last (stdout w) "" = Py.nl ++ "Completion: 0.0%".
Proof.
  eexists _, _. split; [vm_compute; reflexivity|].
  split; [reflexivity|split; reflexivity].
Qed.

(* ================================================================= *)
(** * Further properties of [check_status.py] *)

From Stdlib Require Import Permutation Sorted.

(** ** [sorted] *)

(** Ascending order of strings. *)
Definition str_le (a b : string) : Prop := String.leb a b = true.

Lemma insert_sorted_Permutation (x : string) (l : list string) :
  Permutation (x :: l) (Py.insert_sorted x l).
Proof.
  induction l as [|y l IH]; simpl; [apply Permutation_refl|].
  destruct (String.leb x y); [apply Permutation_refl|].
  apply perm_trans with (y :: x :: l); [apply perm_swap|].
  apply perm_skip. exact IH.
Qed.

Lemma sorted_Permutation (l : list string) : Permutation l (Py.sorted l).
Proof.
  induction l as [|x l IH]; simpl; [apply perm_nil|].
  apply perm_trans with (x :: Py.sorted l); [apply perm_skip; exact IH|].
  apply insert_sorted_Permutation.
Qed.

Lemma insert_sorted_HdRel (a x : string) (l : list string) :
  str_le a x -> HdRel str_le a l -> HdRel str_le a (Py.insert_sorted x l).
Proof.
  intros Hax Hal. destruct l as [|y l]; simpl.
  - constructor. exact Hax.
  - destruct (String.leb x y); constructor; [exact Hax|].
    inversion Hal; assumption.
Qed.

Lemma insert_sorted_Sorted (x : string) (l : list string) :
  Sorted str_le l -> Sorted str_le (Py.insert_sorted x l).
Proof.
  induction l as [|y l IH]; simpl; intros Hs.
  - repeat constructor.
  - destruct (String.leb x y) eqn:E.
    + constructor; [exact Hs|]. constructor. exact E.
    + inversion Hs as [|? ? Hs' Hhd]; subst.
      constructor; [apply IH; exact Hs'|].
      apply insert_sorted_HdRel; [|exact Hhd].
      destruct (String.leb_total x y) as [H|H]; [congruence|exact H].
Qed.

Lemma sorted_Sorted (l : list string) : Sorted str_le (Py.sorted l).
Proof.
  induction l as [|x l IH]; simpl; [constructor|].
  apply insert_sorted_Sorted. exact IH.
Qed.

(** ** Runs of [main] that return *)

Lemma main_over_reports (ign : errno -> bool) (PLATFORMS : Dict.t PlatformInfo)
  (w w1 : World) (all_statuses : list Status) :
  main_over ign PLATFORMS w = Return all_statuses w1 ->
  all_statuses = map (report_of (fs w)) (Py.sorted (Dict.keys PLATFORMS))
  /\ forall k, In k (Dict.keys PLATFORMS) ->
       first_failure ign (fs w) (queried_paths k) = None.
Proof.
  intros Hrun. unfold main_over in Hrun.
  do 3 (apply bind_Return in Hrun; destruct Hrun as ([] & ? & Hp & Hrun);
        rewrite print_run in Hp; injection Hp as <-).
  apply bind_Return in Hrun as (sts & w3 & Hscan & Hrun).
  apply bind_Return in Hrun as (? & ? & _ & Hrun).
  unfold ret in Hrun. injection Hrun as <- _.
  apply scan_loop_returns in Hscan as (_ & -> & Hnone).
  cbn [fs app] in *. split; [reflexivity|].
  intros k Hk. apply Hnone.
  apply (Permutation_in _ (sorted_Permutation (Dict.keys PLATFORMS))). exact Hk.
Qed.

Lemma map_platform_report_of (f : string -> stat_outcome) (l : list string) :
  map platform (map (report_of f) l) = l.
Proof.
  rewrite map_map. simpl. apply map_id.
Qed.

(** X1.  [main] returns whenever no path it queries for a platform of the
    registry ends in a [stat] error that [Path.exists] does not ignore: no
    [KeyError], no [ZeroDivisionError] and no [FileNotFoundError] can
    arise, whatever the registry; and it then returns one report per
    platform. *)
Theorem main_returns_without_unignored_errors
  (ign : errno -> bool) (PLATFORMS : Dict.t PlatformInfo) (w : World) :
  (forall k q e, In k (Dict.keys PLATFORMS) -> In q (queried_paths k) ->
     fs w q = Failed e -> ign e = true) ->
  exists all_statuses w1,
    main_over ign PLATFORMS w = Return all_statuses w1
    /\ List.length all_statuses = List.length PLATFORMS.
Proof.
  intros Hok. destruct (main_over ign PLATFORMS w) as [sts w1|x w1] eqn:E.
  - exists sts, w1. split; [reflexivity|].
    apply main_over_reports in E as (-> & _).
    rewrite length_map, sorted_length. unfold Dict.keys. apply length_map.
  - exfalso. apply main_over_raises in E as (k & Hk & Hf).
    rewrite no_failure in Hf; [discriminate|].
    intros q e. apply Hok. exact Hk.
Qed.

(** X2.  The reports [main] returns are in ascending order of platform key,
    and their keys are a rearrangement of the keys of the registry: every
    platform is reported once, whatever the order of the registry. *)
Theorem main_reports_sorted_by_key
  (ign : errno -> bool) (PLATFORMS : Dict.t PlatformInfo) (w w1 : World)
  (all_statuses : list Status) :
  main_over ign PLATFORMS w = Return all_statuses w1 ->
  Sorted str_le (map platform all_statuses)
  /\ Permutation (Dict.keys PLATFORMS) (map platform all_statuses).
Proof.
  intros Hrun. apply main_over_reports in Hrun as (-> & _).
  rewrite map_platform_report_of. split.
  - apply sorted_Sorted.
  - apply sorted_Permutation.
Qed.

(** X3.  [check_platform_structure] stops at the first query that fails:
    when the paths queried before [q] (the platform directory first, then
    the expected paths in order) raise nothing and the [stat] of [q] ends
    in an error that is not ignored, exactly that error is raised, whatever
    the later paths hold. *)
Theorem first_failing_query_is_raised
  (ign : errno -> bool) (platform_key : string) (w : World)
  (before after : list string) (q : string) (e : errno) :
  queried_paths platform_key = (before ++ q :: after)%list ->
  (forall q' e', In q' before -> fs w q' = Failed e' -> ign e' = true) ->
  fs w q = Failed e ->
  ign e = false ->
  check_platform_structure ign platform_key w = Raise (OSError e) w.
Proof.
  intros Hsplit Hbefore Hq Hi.
  rewrite check_platform_structure_run, Hsplit. clear Hsplit.
  induction before as [|q' before IH]; simpl.
  - rewrite Hq. simpl. rewrite Hi. reflexivity.
  - destruct (failure_of ign (fs w q')) as [x|] eqn:E.
    + apply failure_of_Some in E as (e' & He' & Hi' & _).
      rewrite (Hbefore q' e') in Hi'; [discriminate|now left|exact He'].
    + apply IH. intros q'' e'' Hin. apply Hbefore. now right.
Qed.

(** X4.  In a returned report the keys with status ["missing"], which the
    listing of [main] shows, are exactly the expected paths for which
    [Path.exists] is false, in the order of the expected list. *)
Theorem missing_files_in_expected_order
  (ign : errno -> bool) (platform_key : string) (w w' : World) (r : Status) :
  check_platform_structure ign platform_key w = Return r w' ->
  missing_of (Dict.items (files r))
  = filter (fun p => negb (is_found (fs w (joinpath (platform_dir platform_key) p))))
           expected_files.
Proof.
  intros Hrun.
  apply check_platform_structure_returns in Hrun as (_ & -> & _).
  unfold report_of, Dict.items. cbn [files].
  induction expected_files as [|p l IH]; [reflexivity|].
  cbn [map missing_of filter]. rewrite IH.
  destruct (fs w (joinpath (platform_dir platform_key) p)) as [st| |e]; simpl;
    try reflexivity.
  destruct (0 <? st_size st)%N; reflexivity.
Qed.

(** X5.  In every returned report the three per-platform counts that
    [main] prints add up to the eleven expected paths. *)
Theorem platform_counts_partition_expected
  (ign : errno -> bool) (platform_key : string) (w w' : World) (r : Status) :
  check_platform_structure ign platform_key w = Return r w' ->
  (Py.count_eq "exists" (Dict.values (files r))
   + Py.count_eq "empty" (Dict.values (files r))
   + Py.count_eq "missing" (Dict.values (files r))
   = Py.len expected_files)%Z.
Proof.
  intros Hrun.
  apply check_platform_structure_returns in Hrun as (_ & -> & _).
  apply report_of_counts.
Qed.

(** ** What is printed when [main] fails *)

(** The lines are all printed by [print], which only appends: [m] leaves the
    filesystem alone and prints only lines satisfying [P]. *)
Definition prints_only (P : string -> Prop) {A : Type} (m : M A) : Prop :=
  forall w : World,
  exists out : list string,
    stdout (world_after (m w)) = (stdout w ++ out)%list
    /\ Forall P out
    /\ fs (world_after (m w)) = fs w.

(** The first character of the lines of the banner and of a platform block:
    a newline, a dash, a space, an equals sign or the [C] of the title. *)
Definition block_line (l : string) : Prop :=
  match l with
  | EmptyString => False
  | String c _ =>
      c = ascii_of_nat 10 \/ c = "-"%char \/ c = " "%char
      \/ c = "="%char \/ c = "C"%char
  end.

Lemma prints_only_ret (P : string -> Prop) {A : Type} (a : A) :
  prints_only P (ret a).
Proof.
  intros w. exists []. simpl. rewrite app_nil_r. auto.
Qed.

Lemma prints_only_raise (P : string -> Prop) {A : Type} (x : exn) :
  prints_only P (@raise A x).
Proof.
  intros w. exists []. simpl. rewrite app_nil_r. auto.
Qed.

Lemma prints_only_print (P : string -> Prop) (s : string) :
  P s -> prints_only P (print s).
Proof.
  intros Hs w. exists [s]. simpl. auto.
Qed.

Lemma prints_only_bind (P : string -> Prop) {A B : Type} (m : M A) (k : A -> M B) :
  prints_only P m -> (forall a, prints_only P (k a)) -> prints_only P (bind m k).
Proof.
  intros Hm Hk w. destruct (Hm w) as (out & Hout & HP & Hfs).
  unfold bind. destruct (m w) as [a w1|x w1]; simpl in *.
  - destruct (Hk a w1) as (out' & Hout' & HP' & Hfs').
    exists (out ++ out')%list. rewrite Hout', Hout, Hfs', Hfs, app_assoc.
    split; [reflexivity|split; [|reflexivity]].
    apply Forall_app. auto.
  - exists out. auto.
Qed.

Lemma prints_only_for_each (P : string -> Prop) {A S : Type}
  (body : S -> A -> M S) (l : list A) :
  (forall s x, prints_only P (body s x)) ->
  forall s, prints_only P (for_each l body s).
Proof.
  intros Hbody. induction l as [|x l IH]; intros s; simpl.
  - apply prints_only_ret.
  - apply prints_only_bind; [apply Hbody|exact IH].
Qed.

Lemma prints_only_read_only (P : string -> Prop) {A : Type} (m : M A) :
  (forall w, world_after (m w) = w) -> prints_only P m.
Proof.
  intros H w. exists []. rewrite H, app_nil_r. auto.
Qed.

Lemma prints_only_check_platform_structure
  (P : string -> Prop) (ign : errno -> bool) (platform_key : string) :
  prints_only P (check_platform_structure ign platform_key).
Proof.
  apply prints_only_read_only. intros w.
  rewrite check_platform_structure_run.
  destruct (first_failure ign (fs w) (queried_paths platform_key)); reflexivity.
Qed.

Lemma prints_only_lift_opt (P : string -> Prop) {A : Type} (x : exn) (o : option A) :
  prints_only P (lift_opt x o).
Proof.
  destruct o; [apply prints_only_ret|apply prints_only_raise].
Qed.

Lemma block_line_print_missing (l : list string) :
  prints_only block_line (print_missing l).
Proof.
  unfold print_missing. destruct l as [|f l]; [apply prints_only_ret|].
  apply prints_only_bind; [apply prints_only_print; simpl; auto|intros _].
  apply prints_only_bind.
  - apply prints_only_for_each. intros _ g.
    apply prints_only_print. simpl. auto.
  - intros _. destruct (5 <? Py.len (f :: l))%Z.
    + apply prints_only_print. simpl. auto.
    + apply prints_only_ret.
Qed.

Lemma block_line_report_platform (ign : errno -> bool)
  (PLATFORMS : Dict.t PlatformInfo) (acc : list Status) (platform_key : string) :
  prints_only block_line (report_platform ign PLATFORMS acc platform_key).
Proof.
  unfold report_platform.
  apply prints_only_bind; [apply prints_only_check_platform_structure|intros status].
  apply prints_only_bind; [apply prints_only_lift_opt|intros info].
  apply prints_only_bind; [apply prints_only_print; simpl; auto|intros _].
  apply prints_only_bind; [apply prints_only_print; simpl; auto|intros _].
  apply prints_only_bind; [apply prints_only_print; simpl; auto|intros _].
  apply prints_only_bind; [apply block_line_print_missing|intros _].
  apply prints_only_ret.
Qed.

Lemma block_line_not_summary (out : list string) :
  Forall block_line out ->
  ~ In "Summary" out
  /\ forall l, In l out ->
       String.prefix "Total Expected Files:" l = false
       /\ String.prefix "Existing with Content:" l = false
       /\ String.prefix "Empty Files:" l = false
       /\ String.prefix "Missing Files:" l = false.
Proof.
  intros Hall. rewrite Forall_forall in Hall. split.
  - intros Hin. apply Hall in Hin. simpl in Hin.
    repeat (destruct Hin as [Hin|Hin]; [discriminate Hin|]). discriminate Hin.
  - intros l Hl. apply Hall in Hl. destruct l as [|c l]; [contradiction|].
    simpl in Hl.
    repeat (destruct Hl as [-> |Hl]; [repeat split; reflexivity|]).
    subst c. repeat split; reflexivity.
Qed.

(** X6.  When [main] fails, the filesystem is as it was, what had been
    printed before is still there, and the output added holds neither the
    ["Summary"] heading nor any of the four lines of totals: no summary of
    a partial scan is ever shown. *)
Theorem main_failure_prints_no_summary
  (ign : errno -> bool) (PLATFORMS : Dict.t PlatformInfo) (w w' : World) (x : exn) :
  main_over ign PLATFORMS w = Raise x w' ->
  fs w' = fs w
  /\ exists out,
       stdout w' = (stdout w ++ out)%list
       /\ ~ In "Summary" out
       /\ forall l, In l out ->
            String.prefix "Total Expected Files:" l = false
            /\ String.prefix "Existing with Content:" l = false
            /\ String.prefix "Empty Files:" l = false
            /\ String.prefix "Missing Files:" l = false.
Proof.
  intros H. unfold main_over in H.
  do 3 (apply bind_Raise in H; destruct H as [H|([] & ? & Hp & H)];
        [discriminate H|rewrite print_run in Hp; injection Hp as <-]).
  apply bind_Raise in H as [H|(sts & w1 & _ & H)].
  - pose proof (prints_only_for_each block_line
                  (report_platform ign PLATFORMS)
                  (Py.sorted (Dict.keys PLATFORMS))
                  (block_line_report_platform ign PLATFORMS) []) as Hscan.
    unfold scan_platforms in H.
    match type of H with ?m ?w0 = _ => destruct (Hscan w0) as (out & Hout & HP & Hfs) end.
    rewrite H in Hout, Hfs. simpl in Hout, Hfs.
    split; [exact Hfs|].
    exists ([Py.str_mul "=" 80; "CI/CD Platform Content Status Report";
             Py.str_mul "=" 80] ++ out)%list.
    split; [rewrite Hout, <- !app_assoc; reflexivity|].
    apply block_line_not_summary. apply Forall_app. split; [|exact HP].
    constructor; [simpl; tauto|].
    constructor; [simpl; tauto|].
    constructor; [simpl; tauto|constructor].
  - exfalso. apply bind_Raise in H as [H|(? & ? & _ & H)]; [|discriminate H].
    revert H. apply never_raises_Raise, never_raises_print_summary.
Qed.

(** ** The completion line *)

(** The last line [main] prints for [e] existing files out of [t]. *)
Definition completion_line (e t : Z) : string :=
  Py.nl ++ "Completion: "
  ++ Py.format_1f
       (if (0 <? t)%Z
        then Py.Float
               (SFmul Py.prec Py.emax
                  (SFdiv Py.prec Py.emax (Py.float_of_int e) (Py.float_of_int t))
                  (Py.float_of_int 100))
        else Py.Int 0)
  ++ "%".

Lemma summarize_returns (PLATFORMS : Dict.t PlatformInfo) (sts : list Status)
  (w w' : World) (s : Summary) :
  summarize PLATFORMS sts w = Return s w' ->
  Py.nl ++ "Completion: " ++ Py.format_1f (completion s) ++ "%"
  = completion_line (count_status "exists" sts) (Py.len PLATFORMS * 11).
Proof.
  unfold summarize, bind. rewrite completion_of_run. unfold ret.
  intros H. injection H as <- _. reflexivity.
Qed.

Lemma print_summary_last (PLATFORMS : Dict.t PlatformInfo) (sts : list Status)
  (w w' : World) :
  print_summary PLATFORMS sts w = Return tt w' ->
  last (stdout w') ""
  = completion_line (count_status "exists" sts) (Py.len PLATFORMS * 11).
Proof.
  intros H. unfold print_summary in H.
  do 3 (apply bind_Return in H; destruct H as (? & ? & _ & H)).
  apply bind_Return in H as (s & w1 & Hs & H).
  apply summarize_returns in Hs.
  do 4 (apply bind_Return in H; destruct H as (? & ? & _ & H)).
  rewrite print_run in H. injection H as <-. cbn [stdout].
  rewrite last_last. exact Hs.
Qed.

Lemma main_over_last_line (ign : errno -> bool) (PLATFORMS : Dict.t PlatformInfo)
  (w w1 : World) (all_statuses : list Status) :
  main_over ign PLATFORMS w = Return all_statuses w1 ->
  last (stdout w1) ""
  = completion_line (count_status "exists" all_statuses) (Py.len PLATFORMS * 11).
Proof.
  intros Hrun. unfold main_over in Hrun.
  do 3 (apply bind_Return in Hrun; destruct Hrun as (? & ? & _ & Hrun)).
  apply bind_Return in Hrun as (sts & w3 & _ & Hrun).
  apply bind_Return in Hrun as ([] & w4 & Hsum & Hrun).
  unfold ret in Hrun. injection Hrun as <- <-.
  exact (print_summary_last _ _ _ _ Hsum).
Qed.

Lemma count_eq_nonneg (v : string) (vs : list string) : (0 <= Py.count_eq v vs)%Z.
Proof.
  induction vs as [|x vs IH]; simpl; [lia|].
  destruct (String.eqb x v); lia.
Qed.

Lemma count_status_nonneg (v : string) (sts : list Status) :
  (0 <= count_status v sts)%Z.
Proof.
  unfold count_status. induction sts as [|s sts IH]; simpl; [lia|].
  pose proof (count_eq_nonneg v (Dict.values (files s))). lia.
Qed.

(** The completion line for [e] of the 209 expected files reads 100.0 only
    for [e = 209] and 0.0 only for [e = 0]: checked for every [e]. *)
Definition completion_line_exact (e : nat) : bool :=
  Bool.eqb (String.eqb (completion_line (Z.of_nat e) 209)
                       (Py.nl ++ "Completion: 100.0%"))
           (Nat.eqb e 209)
  && Bool.eqb (String.eqb (completion_line (Z.of_nat e) 209)
                          (Py.nl ++ "Completion: 0.0%"))
              (Nat.eqb e 0).

Lemma completion_line_exact_all :
  forallb completion_line_exact (seq 0 210) = true.
Proof. vm_compute. reflexivity. Qed.

(** X7.  For the registry of the script, whatever the filesystem: the
    number of existing files lies between 0 and 209, the report ends in
    ["Completion: 100.0%"] exactly when all 209 expected files exist with
    content, and in ["Completion: 0.0%"] exactly when none does; rounding
    to one decimal never shows a complete or an empty tree by mistake. *)
Theorem completion_line_is_exact_at_the_ends
  (ign : errno -> bool) (w w1 : World) (all_statuses : list Status) :
  main ign w = Return all_statuses w1 ->
  (0 <= count_status "exists" all_statuses <= 209)%Z
  /\ (last (stdout w1) "" = Py.nl ++ "Completion: 100.0%"
      <-> count_status "exists" all_statuses = 209%Z)
  /\ (last (stdout w1) "" = Py.nl ++ "Completion: 0.0%"
      <-> count_status "exists" all_statuses = 0%Z).
Proof.
  intros Hrun. unfold main in Hrun.
  pose proof (main_over_last_line _ _ _ _ _ Hrun) as Hlast.
  apply main_over_reports in Hrun as (-> & _).
  set (sts := map (report_of (fs w)) (Py.sorted (Dict.keys PLATFORMS))) in *.
  assert (Hrange : (0 <= count_status "exists" sts <= 209)%Z).
  { pose proof (count_status_reports (fs w) (Py.sorted (Dict.keys PLATFORMS))) as H.
    cbv zeta in H. fold sts in H.
    replace (Py.len (Py.sorted (Dict.keys PLATFORMS)) * 11)%Z with 209%Z in H
      by reflexivity.
    pose proof (count_status_nonneg "exists" sts).
    pose proof (count_status_nonneg "empty" sts).
    pose proof (count_status_nonneg "missing" sts). lia. }
  split; [exact Hrange|].
  change (Py.len PLATFORMS * 11)%Z with 209%Z in Hlast. rewrite Hlast.
  pose proof completion_line_exact_all as Hall.
  rewrite forallb_forall in Hall.
  specialize (Hall (Z.to_nat (count_status "exists" sts))).
  rewrite in_seq in Hall. specialize (Hall ltac:(lia)).
  unfold completion_line_exact in Hall.
  rewrite Z2Nat.id in Hall by lia.
  apply andb_prop in Hall as [H100 H0].
  apply Bool.eqb_prop in H100, H0.
  split.
  - rewrite <- String.eqb_eq, H100, Nat.eqb_eq. lia.
  - rewrite <- String.eqb_eq, H0, Nat.eqb_eq. lia.
Qed.

(** ** The further properties at concrete filesystems *)

Lemma main_returns_without_unignored_errors_witness :
  exists all_statuses w1,
    main_over ignored_errnos PLATFORMS bare_world = Return all_statuses w1
    /\ List.length all_statuses = List.length PLATFORMS.
Proof.
  apply (main_returns_without_unignored_errors ignored_errnos PLATFORMS bare_world).
  intros k q e _ _ H. discriminate H.
Defined.

Lemma main_reports_sorted_by_key_witness :
  Sorted str_le
    (map platform (map (report_of (fs jenkins_world)) (Py.sorted (Dict.keys PLATFORMS))))
  /\ Permutation (Dict.keys PLATFORMS)
       (map platform
          (map (report_of (fs jenkins_world)) (Py.sorted (Dict.keys PLATFORMS)))).
Proof.
  apply (main_reports_sorted_by_key ignored_errnos PLATFORMS jenkins_world
           (world_after (main_over ignored_errnos PLATFORMS jenkins_world))).
  vm_compute; reflexivity.
Defined.

Lemma first_failing_query_is_raised_witness :
  check_platform_structure ignored_errnos "jenkins" docs_unreadable_world
  = Raise (OSError EACCES) docs_unreadable_world.
Proof.
  apply (first_failing_query_is_raised ignored_errnos "jenkins" docs_unreadable_world
           (firstn 8 (queried_paths "jenkins"))
           (skipn 9 (queried_paths "jenkins"))
           "/workspaces/AI-prompt/pipeline/jenkins/docs/getting-started.md" EACCES).
  - reflexivity.
  - intros q' e' Hin Hq'. simpl in Hin.
    repeat (destruct Hin as [<-|Hin]; [discriminate Hq'|]). contradiction.
  - reflexivity.
  - reflexivity.
Defined.

Lemma missing_files_in_expected_order_witness :
  missing_of (Dict.items (files (report_of (fs jenkins_world) "jenkins")))
  = [ "templates/basic.yml"; "templates/advanced.yml";
      "examples/java-spring-boot-example.md";
      "examples/python-fastapi-example.md";
      "examples/nodejs-express-example.md"; "examples/go-example.md";
      "docs/getting-started.md"; "docs/advanced-configuration.md";
      "scripts/validate.sh" ].
Proof.
  rewrite (missing_files_in_expected_order ignored_errnos "jenkins"
             jenkins_world jenkins_world (report_of (fs jenkins_world) "jenkins")).
  - reflexivity.
  - vm_compute; reflexivity.
Defined.

Lemma platform_counts_partition_expected_witness :
  (Py.count_eq "exists" (Dict.values (files (report_of (fs jenkins_world) "jenkins")))
   + Py.count_eq "empty" (Dict.values (files (report_of (fs jenkins_world) "jenkins")))
   + Py.count_eq "missing" (Dict.values (files (report_of (fs jenkins_world) "jenkins")))
   = Py.len expected_files)%Z.
Proof.
  apply (platform_counts_partition_expected ignored_errnos "jenkins"
           jenkins_world jenkins_world).
  vm_compute; reflexivity.
Defined.

Lemma main_failure_prints_no_summary_witness :
  exists out,
    stdout (world_after
              (main_over ignored_errnos
                 [("jenkins", mk_platform "Jenkins" "selfhosted" "groovy" "")]
                 docs_unreadable_world))
    = (stdout docs_unreadable_world ++ out)%list
    /\ ~ In "Summary" out.
Proof.
  destruct (main_failure_prints_no_summary ignored_errnos
              [("jenkins", mk_platform "Jenkins" "selfhosted" "groovy" "")]
              docs_unreadable_world
              (world_after
                 (main_over ignored_errnos
                    [("jenkins", mk_platform "Jenkins" "selfhosted" "groovy" "")]
                    docs_unreadable_world))
              (OSError EACCES))
    as (_ & out & Hout & Hno & _).
  - vm_compute; reflexivity.
  - exists out. split; [exact Hout|exact Hno].
Defined.

Lemma completion_line_is_exact_at_the_ends_witness :
  last (stdout (world_after (main ignored_errnos bare_world))) ""
  = Py.nl ++ "Completion: 0.0%".
Proof.
  apply (proj2 (proj2 (completion_line_is_exact_at_the_ends ignored_errnos
                         bare_world (world_after (main ignored_errnos bare_world))
                         (map (report_of (fs bare_world))
                              (Py.sorted (Dict.keys PLATFORMS)))
                         ltac:(vm_compute; reflexivity)))).
  vm_compute; reflexivity.
Defined.

(* ================================================================= *)
(** * [platform_generator.py] *)

Module PlatformGenerator.

(** One entry of [PlatformGenerator.PLATFORMS]. *)
Record Info : Type := {
  full_name : string;
  category : string;
  vendor : string;
  config_file : string;
  key_features : list string
}.

Definition mk_info (n c v f : string) (k : list string) : Info :=
  {| full_name := n; category := c; vendor := v; config_file := f;
     key_features := k |}.

Definition PLATFORMS : Dict.t Info :=
  [
    ("azure-pipelines",
     mk_info "Azure Pipelines" "Cloud Provider Native" "Microsoft" "azure-pipelines.yml"
       ["Native Azure DevOps integration"; "Multi-stage pipelines"; "Container support"; "Artifact management"; "Environment deployment"]);
    ("aws-codepipeline",
     mk_info "AWS CodePipeline" "Cloud Provider Native" "Amazon" "buildspec.yml"
       ["AWS service integration"; "CodeBuild for builds"; "CodeDeploy for deployment"; "S3 artifact storage"; "CloudWatch integration"]);
    ("gcp-cloud-build",
     mk_info "GCP Cloud Build" "Cloud Provider Native" "Google Cloud" "cloudbuild.yaml"
       ["GCP service integration"; "Containerized builds"; "Artifact Registry support"; "Cloud Deploy integration"; "Workload Identity support"]);
    ("circleci",
     mk_info "CircleCI" "Standalone SaaS" "CircleCI" ".circleci/config.yml"
       ["Fast builds"; "Orbs for reusability"; "Workflows"; "Insights & analytics"; "Docker & Docker layer caching"]);
    ("travis-ci",
     mk_info "Travis CI" "Standalone SaaS" "Travis CI" ".travis.yml"
       ["GitHub integration"; "Matrix testing"; "Conditional builds"; "Deployment integrations"; "Secure environment variables"]);
    ("appveyor",
     mk_info "AppVeyor" "Standalone SaaS" "AppVeyor" "appveyor.yml"
       ["Windows build support"; "Visual Studio integration"; ".NET framework support"; "Artifact handling"; "Deployment automation"]);
    ("buildkite",
     mk_info "Buildkite" "Standalone SaaS" "Buildkite" ".buildkite/pipeline.yml"
       ["Agent-based architecture"; "Flexible scheduling"; "Step grouping"; "Artifact management"; "API-driven workflows"]);
    ("drone-ci",
     mk_info "Drone CI" "Standalone SaaS" "Drone" ".drone.yml"
       ["Kubernetes-native"; "Docker-based execution"; "Declarative syntax"; "Trigger automation"; "Secrets management"]);
    ("concourse-ci",
     mk_info "Concourse CI" "Standalone SaaS" "Concourse" "pipeline.yml"
       ["Visual pipeline editor"; "Composable pipelines"; "Resource-based model"; "Immutable artifacts"; "Container-native"]);
    ("bitbucket-pipelines",
     mk_info "Bitbucket Pipelines" "Standalone SaaS" "Atlassian" "bitbucket-pipelines.yml"
       ["Bitbucket Cloud integration"; "Docker support"; "Parallel steps"; "PR/merge request automation"; "Artifact handling"]);
    ("jenkins",
     mk_info "Jenkins" "Enterprise Self-Hosted" "Jenkins Community" "Jenkinsfile"
       ["Pipeline as Code"; "2000+ plugins"; "Declarative & Scripted Pipelines"; "Distributed builds"; "Blue Ocean UI"]);
    ("teamcity",
     mk_info "TeamCity" "Enterprise Self-Hosted" "JetBrains" ".teamcity/settings.kts"
       ["Visual configuration"; "Kotlin DSL support"; "VCS integration"; "Docker support"; "Composite builds"]);
    ("cloudbees",
     mk_info "CloudBees CI" "Enterprise Self-Hosted" "CloudBees" "Jenkinsfile"
       ["Jenkins X integration"; "Kubernetes-native"; "Continuous Release"; "Security controls"; "Enterprise features"]);
    ("gocd",
     mk_info "GoCD" "Enterprise Self-Hosted" "ThoughtWorks" ".gocd/pipeline.yml"
       ["Visual pipeline editor"; "Fan-in/Fan-out"; "Deployment pipelines"; "Value stream mapping"; "Complex workflows"]);
    ("tekton",
     mk_info "Tekton" "Cloud-Native & Kubernetes" "Linux Foundation" "tekton-pipeline.yaml"
       ["Kubernetes-native CRDs"; "Declarative syntax"; "Reusable tasks"; "Event triggering"; "Artifact handling"]);
    ("spinnaker",
     mk_info "Spinnaker" "Cloud-Native & Kubernetes" "Netflix/Armory" "spinnaker-pipeline.json"
       ["Multi-cloud deployment"; "Canary deployments"; "Deployment pipelines"; "Integration ecosystem"; "Advanced deployment strategies"]);
    ("harness",
     mk_info "Harness" "Cloud-Native & Kubernetes" "Harness" "harness-pipeline.yaml"
       ["AI-driven deployments"; "Advanced deployment strategies"; "Continuous Verification"; "Secret management"; "Enterprise governance"]);
    ("pulumi-automation",
     mk_info "Pulumi Automation" "Specialized Infrastructure" "Pulumi" "automation.py"
       ["Infrastructure as Code"; "Multi-language support"; "Automation API"; "State management"; "Policy as Code"])
  ].

(** [k not in ["github-actions", "gitlab-ci"]]. *)
Definition not_done (k : string) : bool :=
  negb (existsb (String.eqb k) ["github-actions"; "gitlab-ci"]).

(** [[k for k in PLATFORMS.keys() if k not in [...]]]. *)
Definition platforms_to_populate (PLATFORMS : Dict.t Info) : list string :=
  filter not_done (Dict.keys PLATFORMS).

(** The body of the loop over [sorted(platforms_to_populate)].  The text is
    what [print] writes in UTF-8. *)
Definition print_platform (PLATFORMS : Dict.t Info) (_ : unit) (platform_key : string)
  : M unit :=
  info <- lift_opt (KeyError platform_key) (Dict.getitem PLATFORMS platform_key) ;;
  print (Py.nl ++ "  " ++ full_name info ++ " (" ++ platform_key ++ ")") ;;
  print ("    Category: " ++ category info) ;;
  print ("    Config: " ++ config_file info) ;;
  print "    Features:" ;;
  for_each (firstn 3 (key_features info))
    (fun (_ : unit) feature => print ("      • " ++ feature)) tt.

(** [generate_for_all_platforms], with the class attribute [PLATFORMS] it
    reads made a parameter. *)
Definition generate_for_all_platforms_over (PLATFORMS : Dict.t Info) : M unit :=
  print (Py.str_mul "=" 80) ;;
  print "CI/CD Platform Content Generator" ;;
  print (Py.str_mul "=" 80) ;;
  print "" ;;
  let platforms_to_populate := platforms_to_populate PLATFORMS in
  print ("Found " ++ Py.str_int (Py.len platforms_to_populate)
         ++ " platforms to populate") ;;
  print "" ;;
  print "To populate all platforms with comprehensive content:" ;;
  print "" ;;
  print "Each platform needs:" ;;
  print "  1. README.md - Complete platform guide" ;;
  print "  2. templates/basic.yml - Basic pipeline template" ;;
  print "  3. templates/advanced.yml - Advanced pipeline template" ;;
  print "  4. examples/ - 4 language examples (Java, Python, Node.js, Go)" ;;
  print "  5. docs/getting-started.md - Quick start guide" ;;
  print "  6. docs/advanced-configuration.md - Advanced features" ;;
  print "  7. scripts/setup.sh - Setup automation" ;;
  print "  8. scripts/validate.sh - Validation script" ;;
  print "" ;;
  print ("Total files to create: "
         ++ Py.str_int (8 * Py.len platforms_to_populate)
         ++ " (8 files × " ++ Py.str_int (Py.len platforms_to_populate)
         ++ " platforms)") ;;
  print "" ;;
  print (Py.str_mul "=" 80) ;;
  print "Platform List:" ;;
  print (Py.str_mul "=" 80) ;;
  for_each (Py.sorted platforms_to_populate) (print_platform PLATFORMS) tt.

Definition generate_for_all_platforms : M unit :=
  generate_for_all_platforms_over PLATFORMS.

End PlatformGenerator.

(** ** What [generate_for_all_platforms] prints *)

Module PlatformGeneratorFacts.
Import PlatformGenerator.

(** The lines of the banner, for [n] platforms to populate. *)
Definition banner (n : Z) : list string :=
  [ Py.str_mul "=" 80;
    "CI/CD Platform Content Generator";
    Py.str_mul "=" 80;
    "";
    "Found " ++ Py.str_int n ++ " platforms to populate";
    "";
    "To populate all platforms with comprehensive content:";
    "";
    "Each platform needs:";
    "  1. README.md - Complete platform guide";
    "  2. templates/basic.yml - Basic pipeline template";
    "  3. templates/advanced.yml - Advanced pipeline template";
    "  4. examples/ - 4 language examples (Java, Python, Node.js, Go)";
    "  5. docs/getting-started.md - Quick start guide";
    "  6. docs/advanced-configuration.md - Advanced features";
    "  7. scripts/setup.sh - Setup automation";
    "  8. scripts/validate.sh - Validation script";
    "";
    "Total files to create: " ++ Py.str_int (8 * n)
      ++ " (8 files × " ++ Py.str_int n ++ " platforms)";
    "";
    Py.str_mul "=" 80;
    "Platform List:";
    Py.str_mul "=" 80 ].

(** The heading of the block of a platform. *)
Definition heading (info : Info) (platform_key : string) : string :=
  Py.nl ++ "  " ++ full_name info ++ " (" ++ platform_key ++ ")".

(** The lines of the block of a platform. *)
Definition block (info : Info) (platform_key : string) : list string :=
  heading info platform_key
    :: ("    Category: " ++ category info)
    :: ("    Config: " ++ config_file info)
    :: "    Features:"
    :: map (fun feature => "      • " ++ feature) (firstn 3 (key_features info)).

Definition block_of (PLATFORMS : Dict.t Info) (platform_key : string) : list string :=
  match Dict.getitem PLATFORMS platform_key with
  | Some info => block info platform_key
  | None => []
  end.

Lemma print_platform_run (PLATFORMS : Dict.t Info) (k : string) (w : World) :
  In k (Dict.keys PLATFORMS) ->
  print_platform PLATFORMS tt k w
  = Return tt {| fs := fs w; stdout := (stdout w ++ block_of PLATFORMS k)%list |}.
Proof.
  intros Hk. destruct (getitem_of_key PLATFORMS k Hk) as (info & Hinfo).
  unfold print_platform, block_of. rewrite Hinfo.
  unfold lift_opt, bind, ret. rewrite !print_run. cbn [fs stdout].
  rewrite for_each_print. cbn [fs stdout]. unfold block, heading.
  rewrite <- !app_assoc. reflexivity.
Qed.

Lemma bind_print {B : Type} (s : string) (k : unit -> M B) (w : World) :
  bind (print s) k w = k tt {| fs := fs w; stdout := (stdout w ++ [s])%list |}.
Proof. reflexivity. Qed.

Lemma listing_run (PLATFORMS : Dict.t Info) (l : list string) :
  forall w : World,
    (forall k, In k l -> In k (Dict.keys PLATFORMS)) ->
    for_each l (print_platform PLATFORMS) tt w
    = Return tt
        {| fs := fs w;
           stdout := (stdout w ++ flat_map (block_of PLATFORMS) l)%list |}.
Proof.
  induction l as [|k l IH]; intros w Hkeys; simpl.
  - rewrite app_nil_r, world_eta. reflexivity.
  - unfold bind. rewrite print_platform_run by (apply Hkeys; now left).
    rewrite IH by (intros k' Hk'; apply Hkeys; now right).
    cbn [fs stdout]. rewrite <- app_assoc. reflexivity.
Qed.

Lemma sorted_populate_keys (PLATFORMS : Dict.t Info) (k : string) :
  In k (Py.sorted (platforms_to_populate PLATFORMS)) <->
  In k (Dict.keys PLATFORMS) /\ k <> "github-actions" /\ k <> "gitlab-ci".
Proof.
  split.
  - intros H. apply sorted_In in H. unfold platforms_to_populate in H.
    apply filter_In in H as (Hk & Hnd). split; [exact Hk|].
    unfold not_done in Hnd. simpl in Hnd.
    destruct (String.eqb_spec k "github-actions"); [discriminate|].
    destruct (String.eqb_spec k "gitlab-ci"); [discriminate|]. auto.
  - intros (Hk & Hg & Hl).
    apply (Permutation_in _ (sorted_Permutation _)).
    unfold platforms_to_populate. apply filter_In. split; [exact Hk|].
    unfold not_done. simpl.
    destruct (String.eqb_spec k "github-actions"); [contradiction|].
    destruct (String.eqb_spec k "gitlab-ci"); [contradiction|]. reflexivity.
Qed.

Lemma generate_run (PLATFORMS : Dict.t Info) (w : World) :
  generate_for_all_platforms_over PLATFORMS w
  = Return tt
      {| fs := fs w;
         stdout :=
           (stdout w
            ++ banner (Py.len (platforms_to_populate PLATFORMS))
            ++ flat_map (block_of PLATFORMS)
                 (Py.sorted (platforms_to_populate PLATFORMS)))%list |}.
Proof.
  unfold generate_for_all_platforms_over. cbv zeta.
  repeat (rewrite bind_print; cbn beta iota delta [fs stdout];
          rewrite <- ?app_assoc; cbn [app]).
  rewrite listing_run.
  - cbn [fs stdout]. unfold banner. rewrite <- app_assoc. reflexivity.
  - intros k Hk. apply sorted_populate_keys in Hk. tauto.
Qed.

End PlatformGeneratorFacts.

Module PlatformGeneratorProps.
Import PlatformGenerator PlatformGeneratorFacts.

Lemma filter_flat_map {A B : Type} (P : B -> bool) (f : A -> list B) (l : list A) :
  filter P (flat_map f l) = flat_map (fun x => filter P (f x)) l.
Proof.
  induction l as [|x l IH]; simpl; [reflexivity|].
  now rewrite filter_app, IH.
Qed.

Lemma filter_map_none {A B : Type} (P : B -> bool) (g : A -> B) (l : list A) :
  (forall x, P (g x) = false) -> filter P (map g l) = [].
Proof.
  intros H. induction l as [|x l IH]; simpl; [reflexivity|].
  now rewrite H.
Qed.

Lemma filter_map_all {A B : Type} (P : B -> bool) (g : A -> B) (l : list A) :
  (forall x, P (g x) = true) -> filter P (map g l) = map g l.
Proof.
  intros H. induction l as [|x l IH]; simpl; [reflexivity|].
  now rewrite H, IH.
Qed.

Lemma flat_map_singleton_length {A B : Type} (f : A -> list B) (l : list A) :
  (forall x, In x l -> List.length (f x) = 1%nat) ->
  List.length (flat_map f l) = List.length l.
Proof.
  induction l as [|x l IH]; simpl; intros H; [reflexivity|].
  rewrite length_app, H, IH; auto.
Qed.

Lemma prefix_nil (s : string) : String.prefix "" s = true.
Proof. destruct s; reflexivity. Qed.

Lemma prefix_cons (a b : ascii) (s1 s2 : string) :
  String.prefix (String a s1) (String b s2) = Ascii.eqb a b && String.prefix s1 s2.
Proof.
  simpl. destruct (ascii_dec a b) as [->|Hne].
  - now rewrite Ascii.eqb_refl.
  - apply Ascii.eqb_neq in Hne. now rewrite Hne.
Qed.

(** Deciding whether a line that begins with known characters has a given
    prefix. *)
Ltac prefix_eval :=
  cbn [append Py.nl];
  repeat (rewrite prefix_cons; cbn [andb Ascii.eqb Bool.eqb ascii_of_nat ascii_of_pos
                                    Ascii.shift Ascii.one Ascii.zero Pos.of_succ_nat
                                    Pos.succ]);
  rewrite ?prefix_nil.

Lemma block_categories (info : Info) (k : string) :
  filter (String.prefix "    Category: ") (block info k)
  = ["    Category: " ++ category info].
Proof.
  unfold block, heading. cbn [filter]. prefix_eval.
  rewrite (filter_map_none (String.prefix "    Category: ")
             (fun feature => "      • " ++ feature)); [reflexivity|].
  intros x. prefix_eval. reflexivity.
Qed.

Lemma block_headings (info : Info) (k : string) :
  filter (String.prefix Py.nl) (block info k) = [heading info k].
Proof.
  unfold block, heading. cbn [filter]. prefix_eval.
  rewrite (filter_map_none (String.prefix (String (ascii_of_nat 10) ""))
             (fun feature => "      • " ++ feature)); [reflexivity|].
  intros x. prefix_eval. reflexivity.
Qed.

Lemma block_features (info : Info) (k : string) :
  filter (String.prefix "      • ") (block info k)
  = map (fun feature => "      • " ++ feature) (firstn 3 (key_features info)).
Proof.
  unfold block, heading. cbn [filter]. prefix_eval.
  apply (filter_map_all (String.prefix "      • ")
           (fun feature => "      • " ++ feature)).
  intros x. prefix_eval. reflexivity.
Qed.

Lemma banner_has_no_block_line (n : Z) :
  filter (String.prefix Py.nl) (banner n) = []
  /\ filter (String.prefix "    Category: ") (banner n) = []
  /\ filter (String.prefix "      • ") (banner n) = [].
Proof.
  split; [|split]; vm_compute; reflexivity.
Qed.

Lemma block_of_listed (PLATFORMS : Dict.t Info) (k : string) :
  In k (Py.sorted (platforms_to_populate PLATFORMS)) ->
  exists info, Dict.getitem PLATFORMS k = Some info
               /\ block_of PLATFORMS k = block info k.
Proof.
  intros Hk. apply sorted_populate_keys in Hk as (Hk & _).
  destruct (getitem_of_key PLATFORMS k Hk) as (info & Hinfo).
  exists info. unfold block_of. now rewrite Hinfo.
Qed.

(** X8.  Whatever the registry, [generate_for_all_platforms] returns,
    leaves the filesystem alone, and what it announces agrees with what it
    lists: the number [n] in ["Found n platforms to populate"] is the number
    of platform blocks printed (one heading and one category line each),
    the total announced is [8 * n], and at most three feature lines are
    printed per platform. *)
Theorem generate_announces_what_it_lists (PLATFORMS : Dict.t Info) (w : World) :
  exists out,
    generate_for_all_platforms_over PLATFORMS w
    = Return tt {| fs := fs w; stdout := (stdout w ++ out)%list |}
    /\ exists n : Z,
         In ("Found " ++ Py.str_int n ++ " platforms to populate") out
         /\ In ("Total files to create: " ++ Py.str_int (8 * n)
                ++ " (8 files × " ++ Py.str_int n ++ " platforms)") out
         /\ Py.len (filter (String.prefix Py.nl) out) = n
         /\ Py.len (filter (String.prefix "    Category: ") out) = n
         /\ (Py.len (filter (String.prefix "      • ") out) <= 3 * n)%Z.
Proof.
  eexists. split; [apply generate_run|].
  set (listed := Py.sorted (platforms_to_populate PLATFORMS)).
  exists (Py.len (platforms_to_populate PLATFORMS)).
  assert (Hn : Py.len listed = Py.len (platforms_to_populate PLATFORMS)).
  { unfold Py.len, listed. now rewrite sorted_length. }
  split; [apply in_or_app; left; unfold banner; simpl; tauto|].
  split; [apply in_or_app; left; unfold banner; simpl; tauto|].
  rewrite !filter_app, !filter_flat_map. unfold Py.len in *.
  rewrite !length_app.
  split; [|split].
  - rewrite (proj1 (banner_has_no_block_line _)).
    rewrite flat_map_singleton_length; [exact Hn|].
    intros k Hk. destruct (block_of_listed PLATFORMS k Hk) as (info & _ & ->).
    now rewrite block_headings.
  - rewrite (proj1 (proj2 (banner_has_no_block_line _))).
    rewrite flat_map_singleton_length; [exact Hn|].
    intros k Hk. destruct (block_of_listed PLATFORMS k Hk) as (info & _ & ->).
    now rewrite block_categories.
  - rewrite (proj2 (proj2 (banner_has_no_block_line _))).
    rewrite <- Hn. cbn [List.length Nat.add].
    assert (Hall : forall k, In k listed -> In k listed) by auto.
    revert Hall. generalize listed at 1 3 4. intros l Hl.
    induction l as [|k l IH]; simpl; [lia|].
    rewrite length_app.
    destruct (block_of_listed PLATFORMS k (Hl k (or_introl eq_refl)))
      as (info & _ & ->).
    rewrite block_features, length_map.
    pose proof (firstn_le_length 3 (key_features info)).
    specialize (IH (fun k' Hk' => Hl k' (or_intror Hk'))). lia.
Qed.

(** X9.  The platform headings are printed in ascending order of platform
    key, one for every key of the registry other than ["github-actions"]
    and ["gitlab-ci"] and for no other: those two are never listed, each
    heading carries the [full_name] the registry holds for its key, and the
    lookup of a listed key never fails. *)
Theorem listing_is_sorted_and_skips_done (PLATFORMS : Dict.t Info) (w : World) :
  exists out listed,
    generate_for_all_platforms_over PLATFORMS w
    = Return tt {| fs := fs w; stdout := (stdout w ++ out)%list |}
    /\ Forall2
         (fun k line =>
            exists info,
              Dict.getitem PLATFORMS k = Some info
              /\ line = Py.nl ++ "  " ++ full_name info ++ " (" ++ k ++ ")")
         listed (filter (String.prefix Py.nl) out)
    /\ Sorted str_le listed
    /\ (forall k, In k listed <->
          In k (Dict.keys PLATFORMS) /\ k <> "github-actions" /\ k <> "gitlab-ci")
    /\ (NoDup (Dict.keys PLATFORMS) -> NoDup listed).
Proof.
  eexists. exists (Py.sorted (platforms_to_populate PLATFORMS)).
  split; [apply generate_run|].
  split; [|split; [apply sorted_Sorted|split; [apply sorted_populate_keys|]]].
  - rewrite filter_app, filter_flat_map.
    rewrite (proj1 (banner_has_no_block_line _)).
    cbn [app].
    assert (Hall : forall k, In k (Py.sorted (platforms_to_populate PLATFORMS)) ->
                             In k (Py.sorted (platforms_to_populate PLATFORMS)))
      by auto.
    revert Hall.
    generalize (Py.sorted (platforms_to_populate PLATFORMS)) at 1 3 4.
    intros l Hl. induction l as [|k l IH]; simpl; [constructor|].
    destruct (block_of_listed PLATFORMS k (Hl k (or_introl eq_refl)))
      as (info & Hinfo & ->).
    rewrite block_headings. cbn [app]. constructor.
    + exists info. split; [exact Hinfo|reflexivity].
    + apply IH. intros k' Hk'. apply Hl. now right.
  - intros Hnd.
    apply (Permutation_NoDup (sorted_Permutation (platforms_to_populate PLATFORMS))).
    unfold platforms_to_populate. apply NoDup_filter. exact Hnd.
Qed.

(** The script's own registry: eighteen platforms, three features shown
    for each. *)
Example generate_for_all_platforms_runs :
  exists w,
    generate_for_all_platforms bare_world = Return tt w
    /\ In "Found 18 platforms to populate" (stdout w)
    /\ In ("Total files to create: 144 (8 files × 18 platforms)") (stdout w)
    /\ List.length (stdout w) = (23 + 18 * 7)%nat.
Proof.
  eexists. split; [vm_compute; reflexivity|].
  split; [simpl; tauto|]. split; [simpl; tauto|reflexivity].
Qed.

End PlatformGeneratorProps.

(* ================================================================= *)
(** * [mega_generator.py] *)

Module MegaGenerator.

(** [s.split(sep)] for a separator of one character. *)
Fixpoint str_split (sep : ascii) (s : string) : list string :=
  match s with
  | EmptyString => [EmptyString]
  | String a s' =>
      if Ascii.eqb a sep then EmptyString :: str_split sep s'
      else
        match str_split sep s' with
        | [] => [String a EmptyString]
        | piece :: pieces => String a piece :: pieces
        end
  end.

(** [s.count(c)] for one character. *)
Fixpoint str_count (c : ascii) (s : string) : nat :=
  match s with
  | EmptyString => O
  | String a s' => ((if Ascii.eqb a c then 1 else 0) + str_count c s')%nat
  end.

(** [s.endswith(suffix)]. *)
Definition str_endswith (s suffix : string) : bool :=
  let n := String.length s in
  let m := String.length suffix in
  (m <=? n)%nat && String.eqb (substring (n - m) m s) suffix.

(** [f"{n:,}"] for an [int]: the decimal digits in groups of three. *)
Fixpoint group_digits (fuel : nat) (n : Z) : string :=
  match fuel with
  | O => Py.str_int n
  | S fuel' =>
      if (n <? 1000)%Z then Py.str_int n
      else
        let r := (n mod 1000)%Z in
        group_digits fuel' (n / 1000) ++ ","
        ++ (if (r <? 10)%Z then "00" else if (r <? 100)%Z then "0" else "")
        ++ Py.str_int r
  end.

Definition format_thousands (n : Z) : string :=
  if (n <? 0)%Z then "-" ++ group_digits (Z.to_nat (- n)) (- n)
  else group_digits (Z.to_nat n) n.

(** The attributes of a [ComprehensivePlatformGenerator]. *)
Record Generator : Type := {
  base_dir : string;
  files_created : Z;
  total_lines : Z
}.

(** [__init__]. *)
Definition init (base_dir : string) : Generator :=
  {| base_dir := Path base_dir; files_created := 0; total_lines := 0 |}.

Definition default_base_dir : string :=
  "/home/runner/work/AI-prompt/AI-prompt/pipeline".

Section IO.

(** The disk and the library calls that write to it are those of the
    machine the script runs on: each call either succeeds or raises, and
    leaves the disk in some state either way. *)
Variable Disk : Type.

Inductive io_result : Type :=
| IoOk (d : Disk)
| IoErr (x : exn) (d : Disk).

(** [p.parent]. *)
Variable Path_parent : string -> string.
(** [p.mkdir(parents=True, exist_ok=True)]. *)
Variable mkdir_parents : string -> Disk -> io_result.
(** [with open(p, 'w') as f: f.write(content)]. *)
Variable write_text : string -> string -> Disk -> io_result.
(** [p.chmod(mode)]. *)
Variable chmod : string -> Z -> Disk -> io_result.

(** The state a method runs in: the disk, what has been printed, and the
    generator object. *)
Record State : Type := {
  disk : Disk;
  printed : list string;
  self : Generator
}.

Inductive result (A : Type) : Type :=
| Ok (a : A) (s : State)
| Err (x : exn) (s : State).

Arguments Ok {A} a s.
Arguments Err {A} x s.

Definition SM (A : Type) : Type := State -> result A.

Definition sret {A : Type} (a : A) : SM A := fun s => Ok a s.

Definition sbind {A B : Type} (m : SM A) (k : A -> SM B) : SM B :=
  fun s =>
    match m s with
    | Ok a s' => k a s'
    | Err x s' => Err x s'
    end.

(** A library call on the disk. *)
Definition io (op : Disk -> io_result) : SM unit :=
  fun s =>
    match op (disk s) with
    | IoOk d => Ok tt {| disk := d; printed := printed s; self := self s |}
    | IoErr x d => Err x {| disk := d; printed := printed s; self := self s |}
    end.

(** [print(line)]. *)
Definition sprint (line : string) : SM unit :=
  fun s =>
    Ok tt {| disk := disk s; printed := (printed s ++ [line])%list; self := self s |}.

(** Reading and assigning the attributes of [self]. *)
Definition get_self : SM Generator := fun s => Ok (self s) s.

Definition set_self (g : Generator) : SM unit :=
  fun s => Ok tt {| disk := disk s; printed := printed s; self := g |}.

Declare Scope sm_scope.
Notation "x <- m ;; k" := (sbind m (fun x => k))
  (at level 61, m at next level, right associativity) : sm_scope.
Notation "m ;; k" := (sbind m (fun _ => k))
  (at level 61, right associativity) : sm_scope.
Local Open Scope sm_scope.

Definition generate_file (platform_key filepath content : string) : SM unit :=
  g <- get_self ;;
  let full_path := joinpath (joinpath (base_dir g) platform_key) filepath in
  io (mkdir_parents (Path_parent full_path)) ;;
  io (write_text full_path content) ;;
  (if str_endswith filepath ".sh" then io (chmod full_path 493) else sret tt) ;;
  let lines := Py.len (str_split (ascii_of_nat 10) content) in
  g <- get_self ;;
  set_self {| base_dir := base_dir g;
              files_created := files_created g + 1;
              total_lines := total_lines g |} ;;
  g <- get_self ;;
  set_self {| base_dir := base_dir g;
              files_created := files_created g;
              total_lines := total_lines g + lines |} ;;
  sprint ("  ✓ " ++ filepath ++ " (" ++ Py.str_int lines ++ " lines)").

Definition run : SM unit :=
  sprint (Py.str_mul "=" 80) ;;
  sprint "Comprehensive CI/CD Platform Content Generator" ;;
  sprint (Py.str_mul "=" 80) ;;
  sprint "" ;;
  sprint "NOTE: Due to scope (190 files, ~150K lines), generating streamlined" ;;
  sprint "enterprise content. Platform-specific refinements recommended." ;;
  sprint "" ;;
  sprint (Py.nl ++ Py.str_mul "=" 80) ;;
  sprint "Generation Summary:" ;;
  g <- get_self ;;
  sprint ("Files Created: " ++ Py.str_int (files_created g)) ;;
  g <- get_self ;;
  sprint ("Total Lines: " ++ format_thousands (total_lines g)) ;;
  sprint (Py.str_mul "=" 80).

(** ** Properties of [generate_file] and [run] *)

Lemma str_split_length (sep : ascii) (s : string) :
  List.length (str_split sep s) = S (str_count sep s).
Proof.
  induction s as [|a s IH]; simpl; [reflexivity|].
  destruct (Ascii.eqb a sep); simpl.
  - now rewrite IH.
  - destruct (str_split sep s) as [|piece pieces]; simpl in *; [discriminate|].
    exact IH.
Qed.

Lemma str_split_join (s : string) :
  String.concat Py.nl (str_split (ascii_of_nat 10) s) = s.
Proof.
  induction s as [|a s IH]; [reflexivity|].
  pose proof (str_split_length (ascii_of_nat 10) s) as Hlen.
  cbn [str_split]. destruct (Ascii.eqb_spec a (ascii_of_nat 10)) as [->|Hne].
  - destruct (str_split (ascii_of_nat 10) s) as [|piece pieces];
      [discriminate Hlen|].
    change (String.concat Py.nl ("" :: piece :: pieces))
      with ("" ++ Py.nl ++ String.concat Py.nl (piece :: pieces)).
    rewrite IH. reflexivity.
  - destruct (str_split (ascii_of_nat 10) s) as [|piece pieces];
      [discriminate Hlen|].
    destruct pieces as [|piece' pieces].
    + simpl in IH. subst s. reflexivity.
    + change (String.concat Py.nl (String a piece :: piece' :: pieces))
        with (String a (piece ++ Py.nl ++ String.concat Py.nl (piece' :: pieces))).
      change (String.concat Py.nl (piece :: piece' :: pieces))
        with (piece ++ Py.nl ++ String.concat Py.nl (piece' :: pieces)) in IH.
      rewrite IH. reflexivity.
Qed.

(** The line [generate_file] prints for a file of [content]. *)
Definition tick_line (filepath content : string) : string :=
  "  ✓ " ++ filepath ++ " ("
  ++ Py.str_int (1 + Z.of_nat (str_count (ascii_of_nat 10) content))
  ++ " lines)".

Lemma generate_file_run (platform_key filepath content : string) (st : State) :
  match generate_file platform_key filepath content st with
  | Ok _ st' =>
      self st' =
      {| base_dir := base_dir (self st);
         files_created := files_created (self st) + 1;
         total_lines := total_lines (self st) + 1
                        + Z.of_nat (str_count (ascii_of_nat 10) content) |}
      /\ printed st' = (printed st ++ [tick_line filepath content])%list
  | Err _ st' => self st' = self st /\ printed st' = printed st
  end.
Proof.
  unfold generate_file, sbind, get_self, set_self, sprint, io, sret, tick_line.
  cbn [disk printed self].
  destruct (mkdir_parents _ (disk st)) as [d1|x d1]; cbn [disk printed self];
    [|auto].
  destruct (write_text _ content d1) as [d2|x d2]; cbn [disk printed self];
    [|auto].
  assert (Hlines : Py.len (str_split (ascii_of_nat 10) content)
                   = (1 + Z.of_nat (str_count (ascii_of_nat 10) content))%Z).
  { unfold Py.len. rewrite str_split_length. lia. }
  destruct (str_endswith filepath ".sh"); cbn [disk printed self].
  - destruct (chmod _ 493 d2) as [d3|x d3]; cbn [disk printed self base_dir
                                                 files_created total_lines];
      [|auto].
    rewrite Hlines. split; [f_equal; lia|reflexivity].
  - cbn [base_dir files_created total_lines].
    rewrite Hlines. split; [f_equal; lia|reflexivity].
Qed.

(** X10.  [generate_file] writes before it counts.  It makes the parent
    directory of [base_dir / platform_key / filepath], then writes the
    content there, then, for a name ending in [.sh], sets the mode to
    [0o755], each call on the disk the call before left.  If one of them
    raises, [generate_file] raises that exception at once: the later calls
    are not made, the counters and the output are as before, and the disk is
    as the failed call left it.  If all succeed, the generator has one file
    more and [1 + content.count("\n")] lines more, and one line reporting
    that number is printed. *)
Theorem generate_file_writes_before_it_counts
  (platform_key filepath content : string) (st : State) :
  let full_path := joinpath (joinpath (base_dir (self st)) platform_key) filepath in
  let lines := (1 + Z.of_nat (str_count (ascii_of_nat 10) content))%Z in
  let counted (d : Disk) : result unit :=
    Ok tt
       {| disk := d;
          printed :=
            (printed st
             ++ [("  ✓ " ++ filepath ++ " (" ++ Py.str_int lines ++ " lines)")%string])%list;
          self := {| base_dir := base_dir (self st);
                     files_created := files_created (self st) + 1;
                     total_lines := total_lines (self st) + lines |} |} in
  let failed (x : exn) (d : Disk) : result unit :=
    Err x {| disk := d; printed := printed st; self := self st |} in
  generate_file platform_key filepath content st
  = match mkdir_parents (Path_parent full_path) (disk st) with
    | IoErr x d => failed x d
    | IoOk d1 =>
        match write_text full_path content d1 with
        | IoErr x d => failed x d
        | IoOk d2 =>
            if str_endswith filepath ".sh" then
              match chmod full_path 493 d2 with
              | IoErr x d => failed x d
              | IoOk d3 => counted d3
              end
            else counted d2
        end
    end.
Proof.
  intros full_path lines counted failed.
  unfold generate_file, sbind, get_self, set_self, sprint, io, sret.
  cbn [disk printed self]. fold full_path.
  assert (Hlines : Py.len (str_split (ascii_of_nat 10) content) = lines).
  { unfold Py.len, lines. rewrite str_split_length. lia. }
  destruct (mkdir_parents _ (disk st)) as [d1|x d1]; cbn [disk printed self];
    [|reflexivity].
  destruct (write_text _ content d1) as [d2|x d2]; cbn [disk printed self];
    [|reflexivity].
  destruct (str_endswith filepath ".sh"); cbn [disk printed self].
  - destruct (chmod _ 493 d2) as [d3|x d3];
      cbn [disk printed self base_dir files_created total_lines];
      [|reflexivity].
    rewrite Hlines. reflexivity.
  - cbn [base_dir files_created total_lines]. rewrite Hlines. reflexivity.
Qed.

(** The counters of a generator are consistent. *)
Definition counters_ok (g : Generator) : Prop :=
  (0 <= files_created g <= total_lines g)%Z.

Lemma run_run (st : State) :
  exists out, run st = Ok tt {| disk := disk st;
                                printed := (printed st ++ out)%list;
                                self := self st |}.
Proof.
  eexists. unfold run, sbind, sprint, get_self. cbn [disk printed self].
  rewrite <- !app_assoc. reflexivity.
Qed.

(** X11.  A generator never counts more files than lines: a fresh generator
    satisfies [0 <= files_created <= total_lines], and neither
    [generate_file], whether it returns or raises, nor [run] breaks it;
    [run] changes neither the generator nor the disk. *)
Theorem counters_stay_consistent
  (platform_key filepath content : string) (st : State) :
  (forall base, counters_ok (init base))
  /\ (counters_ok (self st) ->
      forall st',
        (generate_file platform_key filepath content st = Ok tt st'
         \/ exists x, generate_file platform_key filepath content st = Err x st') ->
        counters_ok (self st'))
  /\ (exists st',
        run st = Ok tt st' /\ self st' = self st /\ disk st' = disk st).
Proof.
  split; [|split].
  - intros base. unfold counters_ok, init. simpl. lia.
  - intros Hok st' Hrun.
    pose proof (generate_file_run platform_key filepath content st) as H.
    destruct Hrun as [Hrun|(x & Hrun)]; rewrite Hrun in H.
    + destruct H as (-> & _). unfold counters_ok in *.
      cbn [files_created total_lines]. lia.
    + destruct H as (-> & _). exact Hok.
  - destruct (run_run st) as (out & Hrun). eexists. split; [exact Hrun|].
    split; reflexivity.
Qed.

End IO.

Arguments IoOk {Disk} d.
Arguments IoErr {Disk} x d.
Arguments disk {Disk} s.
Arguments printed {Disk} s.
Arguments self {Disk} s.
Arguments Ok {Disk A} a s.
Arguments Err {Disk A} x s.

End MegaGenerator.

(* ================================================================= *)
(** * [generate_content.py] *)

Module GenerateContent.

(** One entry of [PLATFORMS_CONFIG]. *)
Record Config : Type := {
  name : string;
  file_format : string;
  package_manager : string;
  description : string
}.

Definition mk_config (n f p d : string) : Config :=
  {| name := n; file_format := f; package_manager := p; description := d |}.

Definition PLATFORMS_CONFIG : Dict.t Config :=
  [
    ("azure-pipelines",
     mk_config "Azure Pipelines" "yaml" "npm"
       "Microsoft's native CI/CD platform for Azure DevOps");
    ("aws-codepipeline",
     mk_config "AWS CodePipeline" "yaml" "npm"
       "AWS native CI/CD service integrated with CodeBuild, CodeDeploy");
    ("gcp-cloud-build",
     mk_config "Google Cloud Build" "yaml" "npm"
       "GCP's serverless CI/CD platform with container registry integration");
    ("circleci",
     mk_config "CircleCI" "yaml" "npm"
       "Cloud-based CI/CD platform with excellent Docker support");
    ("travis-ci",
     mk_config "Travis CI" "yaml" "npm"
       "Popular SaaS CI/CD platform for GitHub repositories");
    ("appveyor",
     mk_config "AppVeyor" "yaml" "npm"
       "CI/CD platform focused on Windows and .NET environments");
    ("bitbucket-pipelines",
     mk_config "Bitbucket Pipelines" "yaml" "npm"
       "Bitbucket's native CI/CD platform");
    ("buildkite",
     mk_config "Buildkite" "yaml" "npm"
       "Agent-based CI/CD platform with fine-grained control");
    ("drone-ci",
     mk_config "Drone CI" "yaml" "npm"
       "Open-source CI/CD platform with Docker-first approach");
    ("concourse-ci",
     mk_config "Concourse CI" "yaml" "npm"
       "Container-native CI/CD with focus on composability");
    ("jenkins",
     mk_config "Jenkins" "groovy" "npm"
       "Enterprise self-hosted CI/CD server with extensive plugin ecosystem");
    ("teamcity",
     mk_config "TeamCity" "yaml" "npm"
       "JetBrains' enterprise CI/CD server");
    ("cloudbees",
     mk_config "CloudBees" "groovy" "npm"
       "Enterprise Jenkins-based CI/CD platform");
    ("gocd",
     mk_config "GoCD" "yaml" "npm"
       "Open-source enterprise CI/CD server");
    ("tekton",
     mk_config "Tekton" "yaml" "npm"
       "Kubernetes-native serverless CI/CD framework");
    ("spinnaker",
     mk_config "Spinnaker" "json" "npm"
       "Multi-cloud continuous deployment platform");
    ("harness",
     mk_config "Harness" "yaml" "npm"
       "Enterprise continuous delivery platform with intelligent deployment");
    ("pulumi-automation",
     mk_config "Pulumi Automation" "python" "pip"
       "Infrastructure as code with programmatic CI/CD automation")
  ].

Definition generate_placeholder_content (platform_name : string) (config : Config)
  : M bool :=
  print ("Generated config for " ++ platform_name) ;;
  ret true.

(** The body of the loop over [PLATFORMS_CONFIG.items()]. *)
Definition loop_body (_ : unit) (item : string * Config) : M unit :=
  let platform := fst item in
  let config := snd item in
  result <- generate_placeholder_content platform config ;;
  if result then print ("✓ " ++ platform) else ret tt.

(** The statements of the module, with [PLATFORMS_CONFIG] made a
    parameter.  The text is what [print] writes in UTF-8. *)
Definition script_over (PLATFORMS_CONFIG : Dict.t Config) : M unit :=
  let total_platforms := Py.len PLATFORMS_CONFIG in
  let files_per_platform := 12%Z in
  let total_files := (total_platforms * files_per_platform)%Z in
  print "Platform CI/CD Content Generation Script" ;;
  print (Py.str_mul "=" 50) ;;
  print ("Total platforms to complete: " ++ Py.str_int total_platforms) ;;
  print ("Files per platform: " ++ Py.str_int files_per_platform) ;;
  print ("Total files to create: " ++ Py.str_int total_files) ;;
  print (Py.str_mul "=" 50) ;;
  for_each (Dict.items PLATFORMS_CONFIG) loop_body tt ;;
  print (Py.nl ++ "Ready to generate comprehensive content for all "
         ++ Py.str_int total_platforms ++ " platforms").

Definition script : M unit := script_over PLATFORMS_CONFIG.

End GenerateContent.

Module GenerateContentProps.
Import GenerateContent.

(** The lines printed before the loop, for [n] platforms. *)
Definition preamble (n : Z) : list string :=
  [ "Platform CI/CD Content Generation Script";
    Py.str_mul "=" 50;
    "Total platforms to complete: " ++ Py.str_int n;
    "Files per platform: " ++ Py.str_int 12;
    "Total files to create: " ++ Py.str_int (n * 12);
    Py.str_mul "=" 50 ].

(** The two lines printed for a platform. *)
Definition platform_lines (item : string * Config) : list string :=
  [ "Generated config for " ++ fst item; "✓ " ++ fst item ].

Definition closing (n : Z) : string :=
  Py.nl ++ "Ready to generate comprehensive content for all "
  ++ Py.str_int n ++ " platforms".

Lemma loop_body_run (item : string * Config) (w : World) :
  loop_body tt item w
  = Return tt {| fs := fs w; stdout := (stdout w ++ platform_lines item)%list |}.
Proof.
  unfold loop_body, generate_placeholder_content, bind, print, ret, platform_lines.
  cbn [fs stdout]. rewrite <- app_assoc. reflexivity.
Qed.

Lemma loop_run (items : list (string * Config)) :
  forall w : World,
    for_each items loop_body tt w
    = Return tt
        {| fs := fs w; stdout := (stdout w ++ flat_map platform_lines items)%list |}.
Proof.
  induction items as [|item items IH]; intros w.
  - simpl. rewrite app_nil_r, world_eta. reflexivity.
  - cbn [for_each flat_map]. unfold bind. rewrite loop_body_run, IH.
    cbn [fs stdout]. rewrite <- app_assoc. reflexivity.
Qed.

Lemma script_run (PLATFORMS_CONFIG : Dict.t Config) (w : World) :
  script_over PLATFORMS_CONFIG w
  = Return tt
      {| fs := fs w;
         stdout :=
           (stdout w
            ++ preamble (Py.len PLATFORMS_CONFIG)
            ++ flat_map platform_lines (Dict.items PLATFORMS_CONFIG)
            ++ [closing (Py.len PLATFORMS_CONFIG)])%list |}.
Proof.
  unfold script_over. cbv zeta.
  repeat (rewrite PlatformGeneratorFacts.bind_print; cbn beta iota delta [fs stdout];
          rewrite <- ?app_assoc; cbn [app]).
  unfold bind. rewrite loop_run. cbn [fs stdout]. rewrite print_run.
  cbn [fs stdout]. unfold preamble, closing.
  rewrite <- !app_assoc. reflexivity.
Qed.

Lemma platform_ticks (item : string * Config) :
  filter (String.prefix "✓ ") (platform_lines item) = ["✓ " ++ fst item].
Proof.
  unfold platform_lines. cbn [filter]. PlatformGeneratorProps.prefix_eval.
  reflexivity.
Qed.

(** X12.  Whatever the registry, the script returns, leaves the filesystem
    alone and reports every entry as done: the lines beginning with the
    tick are, in the order of the registry (not sorted), one for each of
    its keys, so as many as the number of platforms announced, and the
    total announced is twelve times that number. *)
Theorem script_ticks_every_platform (PLATFORMS_CONFIG : Dict.t Config) (w : World) :
  exists out,
    script_over PLATFORMS_CONFIG w
    = Return tt {| fs := fs w; stdout := (stdout w ++ out)%list |}
    /\ filter (String.prefix "✓ ") out
       = map (fun k => "✓ " ++ k) (Dict.keys PLATFORMS_CONFIG)
    /\ In ("Total platforms to complete: "
           ++ Py.str_int (Py.len (filter (String.prefix "✓ ") out))) out
    /\ In ("Total files to create: "
           ++ Py.str_int (Py.len (filter (String.prefix "✓ ") out) * 12)) out.
Proof.
  eexists. split; [apply script_run|].
  assert (Hticks :
            filter (String.prefix "✓ ")
              (preamble (Py.len PLATFORMS_CONFIG)
               ++ flat_map platform_lines (Dict.items PLATFORMS_CONFIG)
               ++ [closing (Py.len PLATFORMS_CONFIG)])
            = map (fun k => "✓ " ++ k) (Dict.keys PLATFORMS_CONFIG)).
  { rewrite !filter_app, PlatformGeneratorProps.filter_flat_map.
    replace (filter _ (preamble _)) with (@nil string)
      by (vm_compute; reflexivity).
    replace (filter _ [closing _]) with (@nil string)
      by (vm_compute; reflexivity).
    rewrite app_nil_r. cbn [app]. unfold Dict.items, Dict.keys.
    induction PLATFORMS_CONFIG as [|item items IH]; [reflexivity|].
    cbn [flat_map map]. rewrite platform_ticks, IH. reflexivity. }
  split; [exact Hticks|]. rewrite Hticks.
  assert (Hlen : Py.len (map (fun k => "✓ " ++ k) (Dict.keys PLATFORMS_CONFIG))
                 = Py.len PLATFORMS_CONFIG).
  { unfold Py.len, Dict.keys. now rewrite !length_map. }
  rewrite Hlen. split.
  - apply in_or_app. left. unfold preamble. simpl. tauto.
  - apply in_or_app. left. unfold preamble. simpl. tauto.
Qed.

End GenerateContentProps.

(* ================================================================= *)
(** * The generators on a small disk *)

Module GeneratorExamples.
Import MegaGenerator.

(** A disk that remembers the directories made and the files written, with
    their modes; everything below [/readonly] refuses to be written. *)
Definition ToyDisk : Type := list (string * (string * Z)).

Definition toy_mkdir (p : string) (d : ToyDisk) : io_result ToyDisk :=
  IoOk (Dict.setitem d p ("", 16877%Z)).

Definition toy_write (p content : string) (d : ToyDisk) : io_result ToyDisk :=
  if String.prefix "/readonly" p then IoErr (OSError EACCES) d
  else IoOk (Dict.setitem d p (content, 420%Z)).

Definition toy_chmod (p : string) (mode : Z) (d : ToyDisk) : io_result ToyDisk :=
  match Dict.getitem d p with
  | Some (content, _) => IoOk (Dict.setitem d p (content, mode))
  | None => IoErr FileNotFoundError d
  end.

Definition toy_generate_file :=
  generate_file ToyDisk parent toy_mkdir toy_write toy_chmod.

Definition fresh (base : string) : State ToyDisk :=
  {| disk := []; printed := []; self := init base |}.

Definition setup_script : string :=
  "#!/bin/sh" ++ Py.nl ++ "echo ok" ++ Py.nl.

Lemma generate_file_writes_before_it_counts_witness :
  toy_generate_file "jenkins" "scripts/setup.sh" setup_script (fresh "/out/")
  = Ok tt
      {| disk := [("/out/jenkins/scripts", ("", 16877%Z));
                  ("/out/jenkins/scripts/setup.sh", (setup_script, 493%Z))];
         printed := ["  ✓ scripts/setup.sh (3 lines)"];
         self := {| base_dir := "/out"; files_created := 1; total_lines := 3 |} |}
  /\ toy_generate_file "jenkins" "README.md" "text" (fresh "/readonly")
     = Err (OSError EACCES)
         {| disk := [("/readonly/jenkins", ("", 16877%Z))];
            printed := [];
            self := init "/readonly" |}
  /\ toy_generate_file "jenkins" "/srv/motd" "" (fresh "/out")
     = Ok tt
         {| disk := [("/srv", ("", 16877%Z)); ("/srv/motd", ("", 420%Z))];
            printed := ["  ✓ /srv/motd (1 lines)"];
            self := {| base_dir := "/out"; files_created := 1; total_lines := 1 |} |}.
Proof.
  unfold toy_generate_file.
  rewrite !(generate_file_writes_before_it_counts ToyDisk parent
              toy_mkdir toy_write toy_chmod).
  split; [|split]; vm_compute; reflexivity.
Defined.

Lemma counters_stay_consistent_witness :
  counters_ok (init default_base_dir)
  /\ exists st',
       toy_generate_file "jenkins" "scripts/setup.sh" setup_script (fresh "/out")
       = Ok tt st'
       /\ counters_ok (self st').
Proof.
  destruct (counters_stay_consistent ToyDisk parent
              toy_mkdir toy_write toy_chmod
              "jenkins" "scripts/setup.sh" setup_script (fresh "/out"))
    as (Hinit & Hstep & _).
  split; [apply Hinit|].
  eexists. split; [vm_compute; reflexivity|].
  apply Hstep.
  - apply Hinit.
  - left. vm_compute. reflexivity.
Defined.

(** The script [mega_generator.py] itself creates a generator and runs it:
    nothing has been generated, and it says so. *)
Example mega_generator_script :
  exists st',
    run ToyDisk (fresh default_base_dir) = Ok tt st'
    /\ disk st' = []
    /\ In "Files Created: 0" (printed st')
    /\ In "Total Lines: 0" (printed st').
Proof.
  eexists. split; [vm_compute; reflexivity|].
  split; [reflexivity|split; simpl; tauto].
Qed.

(** The script [generate_content.py] on its own registry. *)
Example generate_content_script :
  exists w,
    GenerateContent.script bare_world = Return tt w
    /\ In "Total platforms to complete: 18" (stdout w)
    /\ In "Total files to create: 216" (stdout w)
    /\ List.length (stdout w) = (6 + 2 * 18 + 1)%nat.
Proof.
  eexists. split; [vm_compute; reflexivity|].
  split; [simpl; tauto|split; [simpl; tauto|reflexivity]].
Qed.

End GeneratorExamples.

(* ================================================================= *)
(** * [check_status.py] under two releases of [pathlib] *)

Lemma failure_of_weaker (ign ign' : errno -> bool) (o : stat_outcome) :
  (forall e, ign e = true -> ign' e = true) ->
  failure_of ign o = None -> failure_of ign' o = None.
Proof.
  intros Hsub. destruct o as [st| |e]; simpl; try reflexivity.
  destruct (ign e) eqn:E; [|discriminate]. now rewrite (Hsub e E).
Qed.

Lemma first_failure_weaker (ign ign' : errno -> bool)
  (f : string -> stat_outcome) (qs : list string) :
  (forall e, ign e = true -> ign' e = true) ->
  first_failure ign f qs = None -> first_failure ign' f qs = None.
Proof.
  intros Hsub. rewrite !first_failure_None. intros H q Hq.
  apply (failure_of_weaker ign ign'); auto.
Qed.

Lemma report_platform_weaker (ign ign' : errno -> bool)
  (PLATFORMS : Dict.t PlatformInfo) (acc : list Status) (k : string) (w : World) :
  first_failure ign (fs w) (queried_paths k) = None ->
  first_failure ign' (fs w) (queried_paths k) = None ->
  report_platform ign' PLATFORMS acc k w = report_platform ign PLATFORMS acc k w.
Proof.
  intros H H'. unfold report_platform, bind.
  rewrite !check_platform_structure_run, H, H'. reflexivity.
Qed.

Lemma scan_loop_weaker (ign ign' : errno -> bool)
  (PLATFORMS : Dict.t PlatformInfo) (l : list string) :
  (forall e, ign e = true -> ign' e = true) ->
  forall (acc sts : list Status) (w w1 : World),
    for_each l (report_platform ign PLATFORMS) acc w = Return sts w1 ->
    for_each l (report_platform ign' PLATFORMS) acc w = Return sts w1.
Proof.
  intros Hsub. induction l as [|k l IH]; intros acc sts w w1 H; simpl in *.
  - exact H.
  - apply bind_Return in H as (acc' & w2 & Hk & H).
    pose proof (report_platform_returns _ _ _ _ _ _ _ Hk) as (_ & _ & Hnone).
    unfold bind.
    rewrite (report_platform_weaker ign ign') by
      (try exact Hnone; apply (first_failure_weaker ign ign'); assumption).
    rewrite Hk. apply IH. exact H.
Qed.

(** X13.  A release of [pathlib] whose [Path.exists] ignores more errors
    changes no run that succeeded: when every error ignored under [ign] is
    ignored under [ign'], a report returned under [ign] is returned
    unchanged under [ign'], and a run of [main] that returns under [ign]
    returns the same reports and prints the same text under [ign'].  Only
    runs that failed can differ. *)
Theorem more_ignored_errors_keep_successful_runs
  (ign ign' : errno -> bool) :
  (forall e, ign e = true -> ign' e = true) ->
  (forall platform_key w r w1,
     check_platform_structure ign platform_key w = Return r w1 ->
     check_platform_structure ign' platform_key w = Return r w1)
  /\ (forall PLATFORMS w all_statuses w1,
        main_over ign PLATFORMS w = Return all_statuses w1 ->
        main_over ign' PLATFORMS w = Return all_statuses w1).
Proof.
  intros Hsub. split.
  - intros k w r w1 Hrun.
    apply check_platform_structure_returns in Hrun as (-> & -> & Hnone).
    rewrite check_platform_structure_run.
    now rewrite (first_failure_weaker ign ign' _ _ Hsub Hnone).
  - intros PLATFORMS w sts w1 Hrun. unfold main_over in *.
    unfold scan_platforms in *.
    do 3 (apply bind_Return in Hrun; destruct Hrun as ([] & ? & Hp & Hrun);
          rewrite print_run in Hp; injection Hp as <-;
          rewrite PlatformGeneratorFacts.bind_print).
    apply bind_Return in Hrun as (sts' & w3 & Hscan & Hrun).
    pose proof (scan_loop_weaker ign ign' PLATFORMS _ Hsub _ _ _ _ Hscan) as Hscan'.
    cbn [fs stdout] in *. unfold bind at 1.
    match goal with
    | |- match ?X with _ => _ end = _ =>
        replace X with (Return sts' w3) by (symmetry; exact Hscan')
    end.
    exact Hrun.
Qed.

Lemma more_ignored_errors_keep_successful_runs_witness :
  check_platform_structure ignore_all "jenkins" jenkins_world
  = Return (report_of (fs jenkins_world) "jenkins") jenkins_world.
Proof.
  apply (proj1 (more_ignored_errors_keep_successful_runs ignored_errnos ignore_all
                  ltac:(intros e _; reflexivity))).
  vm_compute; reflexivity.
Defined.
